(** * QuickAnimations: the bootstrap wizard, the setup marker and the headless
      entry point of [QuickAnimations.py], as a shallow embedding.

    The Python code is sequential code over a file system, a process-wide
    global ([PYTHON_EXE]), child processes and a Tk event queue.  It is
    embedded as functions in a state-and-exception monad [M] over a [World].

    What the host machine decides (the result of a child process, of a
    download, of [shutil.which], of [json.load], ...) is a field of a [Host]
    record; every theorem quantifies over the host.

    Modelling conventions:
    - a path is a [string]; the file system is a finite map from paths to
      nodes; a file node carries its text and an [in_use] flag (a file held
      open by another process: Windows refuses to delete or rewrite it);
    - [os.remove] and [open] fail on the structural grounds (absent path,
      directory where a file is expected, file in use); what a recursive
      deletion leaves behind is decided by the host;
    - [os.path.join a b] is used with a relative [b] and an [a] without a
      trailing separator;
    - a text is held as its UTF-8 bytes; slices ([s[:n]], [s[-n:]]) count
      characters, not bytes; [str.strip] and [int] are modelled on ASCII
      text;
    - [print] hands a line to standard output, which takes it or raises
      [UnicodeEncodeError] (a redirected stream with a code page that lacks a
      character of the line);
    - [root.after(0, f)] appends [f] to the event queue of the Tk main loop,
      [mainloop] runs the queued callbacks in order. *)

From Stdlib Require Import ZArith Lia Ascii String DecimalString.
From stdpp Require Import base option list gmap strings fin_maps.

Local Open Scope string_scope.
Local Open Scope Z_scope.

(** ** Text helpers (Python [str] methods used by the program) *)

Module Str.

(** [str.isspace] on one ASCII character. *)
Definition is_space (c : ascii) : bool :=
  let n := nat_of_ascii c in
  ((9 <=? n) && (n <=? 13) || (28 <=? n) && (n <=? 32))%nat.

Fixpoint lstrip (s : string) : string :=
  match s with
  | String c s' => if is_space c then lstrip s' else s
  | EmptyString => EmptyString
  end.

Fixpoint rstrip (s : string) : string :=
  match s with
  | String c s' =>
      match rstrip s' with
      | EmptyString => if is_space c then EmptyString else String c EmptyString
      | r => String c r
      end
  | EmptyString => EmptyString
  end.

(** [s.strip()] *)
Definition strip (s : string) : string := rstrip (lstrip s).

(** [needle in hay] *)
Fixpoint contains (needle hay : string) : bool :=
  String.prefix needle hay ||
  match hay with
  | String _ hay' => contains needle hay'
  | EmptyString => false
  end.

(** [s.split(c)] for a one-character separator: never the empty list. *)
Fixpoint split (c : ascii) (s : string) : list string :=
  match s with
  | EmptyString => [EmptyString]
  | String a s' =>
      if Ascii.eqb a c then EmptyString :: split c s'
      else match split c s' with
           | p :: ps => String a p :: ps
           | [] => [String a EmptyString]
           end
  end.

Definition digit (c : ascii) : option Z :=
  let n := nat_of_ascii c in
  if ((48 <=? n) && (n <=? 57))%nat then Some (Z.of_nat n - 48) else None.

(** Digits of a Python integer literal: single underscores are allowed
    between digits.  [acc] is the value read so far, [prev_digit] tells
    whether the previous character was a digit. *)
Fixpoint digits (acc : Z) (prev_digit : bool) (s : string) : option Z :=
  match s with
  | EmptyString => if prev_digit then Some acc else None
  | String c s' =>
      match digit c with
      | Some d => digits (10 * acc + d) true s'
      | None =>
          if Ascii.eqb c "_" && prev_digit
          then match s' with
               | String c' _ => if digit c' is Some _ then digits acc false s' else None
               | EmptyString => None
               end
          else None
      end
  end.

(** [int(s)]: [None] stands for [ValueError]. *)
Definition int (s : string) : option Z :=
  match strip s with
  | String "-" r => Z.opp <$> digits 0 false r
  | String "+" r => digits 0 false r
  | r => digits 0 false r
  end.

(** A byte that continues a character of a UTF-8 text (10xxxxxx). *)
Definition is_continuation (c : ascii) : bool :=
  let n := nat_of_ascii c in ((128 <=? n) && (n <? 192))%nat.

(** [s[:n]]: the first [n] characters, each with the bytes that continue
    it. *)
Fixpoint take (n : nat) (s : string) : string :=
  match s with
  | EmptyString => EmptyString
  | String c s' =>
      if is_continuation c then String c (take n s')
      else match n with
           | O => EmptyString
           | S n' => String c (take n' s')
           end
  end.

(** [len(s)]: the number of characters. *)
Fixpoint len (s : string) : nat :=
  match s with
  | EmptyString => O
  | String c s' => if is_continuation c then len s' else S (len s')
  end.

(** [s[n:]]: the text without its first [n] characters. *)
Fixpoint drop (n : nat) (s : string) : string :=
  match s with
  | EmptyString => EmptyString
  | String c s' =>
      if is_continuation c then drop n s'
      else match n with
           | O => s
           | S n' => drop n' s'
           end
  end.

(** The double-quote character (code 34). *)
Definition dq : string := String (ascii_of_nat 34) EmptyString.

(** [s.replace(a, b)] for a one-character [a]. *)
Fixpoint replace (a : ascii) (b : string) (s : string) : string :=
  match s with
  | EmptyString => EmptyString
  | String c s' => (if Ascii.eqb c a then b else String c EmptyString) ++ replace a b s'
  end.

End Str.

(** ** Data model *)

(** The exception classes the program meets; [except FileNotFoundError]
    selects one class, [except OSError] the four file-system classes and
    [except Exception] all of them. *)
Inductive exn_class :=
| FileNotFoundError | FileExistsError | PermissionError | OSError
| TimeoutExpired | ValueError | UnicodeEncodeError | TypeError | AttributeError
| NameError | RuntimeError | OtherException.

Record exn := Exn { exn_cls : exn_class; exn_str : string }.

Definition is_FileNotFoundError (e : exn) : bool :=
  match exn_cls e with FileNotFoundError => true | _ => false end.

Definition is_OSError (e : exn) : bool :=
  match exn_cls e with
  | FileNotFoundError | FileExistsError | PermissionError | OSError => true
  | _ => false
  end.

(** [subprocess.CompletedProcess] *)
Record CompletedProcess := { returncode : Z; stdout : string; stderr : string }.

(** The first argument of [subprocess.run]: an argument list, or one command
    line when [shell=True]. *)
Inductive command := Argv (args : list string) | Shell (line : string).

(** A node of the file system. *)
Inductive node := File (data : string) (in_use : bool) | Dir.

(** A decoded JSON document ([json.load]); an object keeps its members in
    order.  [JNum] is a number read as an [int], [JFloat] one read as a
    [float] (kept as written). *)
#[local] Unset Elimination Schemes.
Inductive json :=
| JNull | JBool (b : bool) | JNum (n : Z) | JFloat (text : string) | JStr (s : string)
| JArr (items : list json) | JObj (members : list (string * json)).

#[local] Set Elimination Schemes.

(** What the global [PYTHON_EXE] can hold: a path, or a number or a boolean
    that came out of the marker file. *)
Inductive value := VStr (s : string) | VInt (n : Z) | VBool (b : bool).

(** The value as [json.dump] writes it. *)
Definition to_json (v : value) : json :=
  match v with VStr s => JStr s | VInt n => JNum n | VBool b => JBool b end.

(** [str(v)], which is what an f-string puts for [{v}]. *)
Definition py_str (v : value) : string :=
  match v with
  | VStr s => s
  | VInt n => NilZero.string_of_int (Z.to_int n)
  | VBool true => "True"
  | VBool false => "False"
  end.

(** [d.get(key)] on the [dict] decoded from an object. *)
Fixpoint assoc (key : string) (members : list (string * json)) : option json :=
  match members with
  | [] => None
  | (k, v) :: rest => if String.eqb k key then Some v else assoc key rest
  end.

(** What one call of [_download_file] meets on the network.  [total] is the
    announced [Content-Length] (0 when there is none), [progress] the status
    texts of the chunks read.  [Ended] is a transfer whose reads end without
    an exception: [received] is the whole body, or its beginning when the
    server closes the connection early ([read] then answers with no bytes
    and does not raise; the length is not compared). *)
Inductive download :=
| Refused (e : exn)                       (* [urlopen] or the header raised *)
| Broken (total : Z) (progress : list string) (partial : string) (e : exn)
| Ended (total : Z) (progress : list string) (received : string).

(** The machine the program runs on.  [run] is a child process: given the
    number of earlier external calls, the command, its timeout in seconds and
    the file system, it raises or completes, and leaves a file system. *)
Record Host := {
  home : string;                                   (* os.path.expanduser("~") *)
  localappdata : string;                 (* os.environ.get("LOCALAPPDATA", "") *)
  tempdir : string;                                   (* tempfile.gettempdir() *)
  which : nat → string → option string;                        (* shutil.which *)
  run : nat → command → option Z → gmap string node →
        (exn + CompletedProcess) * gmap string node;
  fetch : nat → string → download;                   (* urllib.request.urlopen *)
  unzip : string → exn + list (string * string);    (* zipfile.ZipFile, by name *)
  fd_isfile : Z → bool;          (* os.path.isfile(n): descriptor n is a file *)
  stdout_encodes : string → bool;    (* sys.stdout can encode the characters *)
  (* shutil.rmtree(d): with ignore_errors or not, the directory and the file
     system, is the node at the path left behind? *)
  rmtree_keeps : bool → string → gmap string node → string → bool;
  json_load : string → option json;                               (* json.load *)
  json_dump : json → string;                            (* json.dump, indent=2 *)
  stem : string → string;                                    (* Path(p).stem *)
  dirname : string → string;                               (* os.path.dirname *)
}.

(** The five rows of the wizard's checklist and their four visual states. *)
Inductive check_key := k_python | k_venv | k_pip | k_manim | k_ffmpeg.
Inductive check_state := pending | active | done_ | error.

Definition check_key_eqb (a b : check_key) : bool :=
  match a, b with
  | k_python, k_python | k_venv, k_venv | k_pip, k_pip
  | k_manim, k_manim | k_ffmpeg, k_ffmpeg => true
  | _, _ => false
  end.

(** Position of a row in the checklist. *)
Definition rank (k : check_key) : nat :=
  match k with k_python => 0 | k_venv => 1 | k_pip => 2 | k_manim => 3 | k_ffmpeg => 4 end.

(** The [SetupScreen] object: what its widgets show. *)
Record SetupScreen := {
  checks : check_key → check_state;
  descs : check_key → string;
  status_var : string;
  install_btn_disabled : bool;
  skip_btn_disabled : bool;
  _installing : bool;
  progress_animating : bool;
  progress : Z;
}.

(** The functions the program hands to [root.after]. *)
Inductive callback :=
| cb_status (text : string)                (* lambda: self.status_var.set(text) *)
| cb_set_check (key : check_key) (state : check_state)
| cb_desc (key : check_key) (text : string)
| cb_on_skip_success (chosen : string)
| cb_on_skip_fail (err : string)
| cb_on_skip_fail_str_e     (* lambda: self._on_skip_fail(str(e)), e read late *)
| cb_stop_indeterminate
| cb_set_progress (v : Z)
| cb_install_btn_enable
| cb_on_install_complete
| cb_transition.

(** One external call, as logged: a child process with the file system it
    started on, or a download. *)
Inductive call :=
| Ran (c : command) (timeout : option Z) (seen : gmap string node)
| Fetched (url : string).

(** The screens of the application window. *)
Inductive screen := SetupWizard | MainApp.

Record World := {
  fs : gmap string node;
  calls : list call;                 (* the external calls so far, oldest first *)
  PYTHON_EXE : value;                                  (* the module global *)
  printed : list string;                                  (* lines of stdout *)
  queue : list callback;                            (* pending Tk callbacks *)
  e_cell : option exn;      (* the variable [e] of [validate], see [_skip_setup] *)
  self : SetupScreen;                             (* the wizard object *)
  window : option screen;                   (* the screen built in the window *)
}.

Definition with_fs (x : gmap string node) (w : World) : World :=
  {| fs := x; calls := calls w; PYTHON_EXE := PYTHON_EXE w; printed := printed w;
     queue := queue w; e_cell := e_cell w; self := self w; window := window w |}.
Definition with_calls (x : list call) (w : World) : World :=
  {| fs := fs w; calls := x; PYTHON_EXE := PYTHON_EXE w; printed := printed w;
     queue := queue w; e_cell := e_cell w; self := self w; window := window w |}.
Definition with_PYTHON_EXE (x : value) (w : World) : World :=
  {| fs := fs w; calls := calls w; PYTHON_EXE := x; printed := printed w;
     queue := queue w; e_cell := e_cell w; self := self w; window := window w |}.
Definition with_printed (x : list string) (w : World) : World :=
  {| fs := fs w; calls := calls w; PYTHON_EXE := PYTHON_EXE w; printed := x;
     queue := queue w; e_cell := e_cell w; self := self w; window := window w |}.
Definition with_queue (x : list callback) (w : World) : World :=
  {| fs := fs w; calls := calls w; PYTHON_EXE := PYTHON_EXE w; printed := printed w;
     queue := x; e_cell := e_cell w; self := self w; window := window w |}.
Definition with_e_cell (x : option exn) (w : World) : World :=
  {| fs := fs w; calls := calls w; PYTHON_EXE := PYTHON_EXE w; printed := printed w;
     queue := queue w; e_cell := x; self := self w; window := window w |}.
Definition with_self (x : SetupScreen) (w : World) : World :=
  {| fs := fs w; calls := calls w; PYTHON_EXE := PYTHON_EXE w; printed := printed w;
     queue := queue w; e_cell := e_cell w; self := x; window := window w |}.
Definition with_window (x : option screen) (w : World) : World :=
  {| fs := fs w; calls := calls w; PYTHON_EXE := PYTHON_EXE w; printed := printed w;
     queue := queue w; e_cell := e_cell w; self := self w; window := x |}.

(** ** The monad: state and exceptions *)

Inductive result (A : Type) := Ok (a : A) | Raise (e : exn).
Arguments Ok {A} a.
Arguments Raise {A} e.

Definition M (A : Type) : Type := World → result A * World.

Definition ret {A} (a : A) : M A := λ w, (Ok a, w).
Definition raise {A} (e : exn) : M A := λ w, (Raise e, w).
Definition bind {A B} (m : M A) (k : A → M B) : M B :=
  λ w, match m w with
       | (Ok a, w') => k a w'
       | (Raise e, w') => (Raise e, w')
       end.

(** [try: body  except <classes selected by catches> as e: handler e] *)
Definition try_except {A} (body : M A) (catches : exn → bool) (handler : exn → M A) : M A :=
  λ w, match body w with
       | (Ok a, w') => (Ok a, w')
       | (Raise e, w') => if catches e then handler e w' else (Raise e, w')
       end.

Definition Exception (e : exn) : bool := true.

Definition get : M World := λ w, (Ok w, w).
Definition modify (f : World → World) : M unit := λ w, (Ok tt, f w).

Declare Scope M_scope.
Delimit Scope M_scope with M.
Notation "x <- m ;; k" := (bind m (λ x, k))
  (at level 100, m at next level, k at level 200, right associativity) : M_scope.
Notation "m ;; k" := (bind m (λ _, k))
  (at level 100, k at level 200, right associativity, only parsing) : M_scope.
Bind Scope M_scope with M.
Local Open Scope M_scope.

(** [if b: m] *)
Definition when (b : bool) (m : M unit) : M unit := if b then m else ret tt.


(** ** The file system *)

Definition is_file (f : gmap string node) (p : string) : bool :=
  match f !! p with Some (File _ _) => true | _ => false end.

Definition is_dir (f : gmap string node) (p : string) : bool :=
  match f !! p with Some Dir => true | _ => false end.

(** [os.path.join a b] *)
Definition path_join (a b : string) : string :=
  match a with EmptyString => b | _ => a ++ "\" ++ b end.

(** [p] lies below the directory [d]. *)
Definition under (d p : string) : bool :=
  String.prefix (d ++ "\") p || String.prefix (d ++ "/") p.

Definition busy_file (n : node) : bool :=
  match n with File _ true => true | _ => false end.

(** The directory [d] holds a file that is in use. *)
Definition holds_busy (f : gmap string node) (d : string) : bool :=
  bool_decide (map_Exists (λ q n, under d q = true ∧ busy_file n = true) f).

(** A node that no deletion removes: a file in use, or a directory that
    holds one. *)
Definition stuck (f : gmap string node) (p : string) (n : node) : bool :=
  match n with File _ b => b | Dir => holds_busy f p end.

(** [p] is the directory [d] or lies below it. *)
Definition at_or_under (d p : string) : bool := String.eqb p d || under d p.

Definition os_path_isfile (p : string) : M bool := λ w, (Ok (is_file (fs w) p), w).
Definition os_path_isdir (p : string) : M bool := λ w, (Ok (is_dir (fs w) p), w).

(** [os.remove(p)] *)
Definition os_remove (p : string) : M unit :=
  λ w, match fs w !! p with
       | None => (Raise (Exn FileNotFoundError p), w)
       | Some Dir | Some (File _ true) => (Raise (Exn PermissionError p), w)
       | Some (File _ false) => (Ok tt, with_fs (delete p (fs w)) w)
       end.

(** [with open(p, "w") as f: f.write(text)] *)
Definition write_file (p text : string) : M unit :=
  λ w, match fs w !! p with
       | Some Dir | Some (File _ true) => (Raise (Exn PermissionError p), w)
       | _ => (Ok tt, with_fs (<[p := File text false]> (fs w)) w)
       end.

(** [with open(p, "r") as f: f.read()] *)
Definition read_file (p : string) : M string :=
  λ w, match fs w !! p with
       | Some (File text _) => (Ok text, w)
       | Some Dir => (Raise (Exn PermissionError p), w)
       | None => (Raise (Exn FileNotFoundError p), w)
       end.

(** [os.makedirs(p, exist_ok=True)] *)
Definition os_makedirs (p : string) : M unit :=
  λ w, match fs w !! p with
       | Some (File _ _) => (Raise (Exn FileExistsError p), w)
       | _ => (Ok tt, with_fs (<[p := Dir]> (fs w)) w)
       end.

(** [root.after(ms, f)]: the callback joins the queue of the main loop. *)
Definition root_after (cb : callback) : M unit :=
  modify (λ w, with_queue (queue w ++ [cb]) w).

(** ** The program *)

Section Program.

Variable h : Host.

(** *** What the host decides about deleting and printing *)

(** What is left of the file system after [shutil.rmtree(d)]: outside [d]
    everything, at and below [d] the nodes that no deletion removes and the
    nodes the host leaves (a read-only or protected file, a tree that cannot
    be listed, everything when [d] is a junction; without [ignore_errors]
    also what comes after the first failure).  Nothing is added or
    rewritten. *)
Definition rmtree_fs (ignore_errors : bool) (d : string) (f : gmap string node) :
    gmap string node :=
  filter (λ kv, (negb (at_or_under d kv.1) || stuck f kv.1 kv.2
                 || rmtree_keeps h ignore_errors d f kv.1) = true) f.

(** Something at or below [d] is left in [f]. *)
Definition leftover (d : string) (f : gmap string node) : bool :=
  bool_decide (map_Exists (λ q _, at_or_under d q = true) f).

(** [shutil.rmtree(d, ignore_errors=...)]: without [ignore_errors] a node
    that is left behind raises. *)
Definition shutil_rmtree (d : string) (ignore_errors : bool) : M unit :=
  λ w, match fs w !! d with
       | Some Dir =>
           let f' := rmtree_fs ignore_errors d (fs w) in
           if ignore_errors || negb (leftover d f')
           then (Ok tt, with_fs f' w)
           else (Raise (Exn PermissionError d), with_fs f' w)
       | Some (File _ _) => if ignore_errors then (Ok tt, w) else (Raise (Exn OSError d), w)
       | None => if ignore_errors then (Ok tt, w) else (Raise (Exn FileNotFoundError d), w)
       end.

(** [print(line)]: the line goes to standard output, or nothing does and
    [UnicodeEncodeError] is raised. *)
Definition print (line : string) : M unit :=
  λ w, if stdout_encodes h line
       then (Ok tt, with_printed (printed w ++ [line]) w)
       else (Raise (Exn UnicodeEncodeError line), w).

(** *** Paths and constants *)

Definition APP_DIR : string := path_join (home h) ".quickanimations".
Definition VENV_DIR : string := path_join APP_DIR "venv".
Definition SETUP_MARKER : string := path_join APP_DIR "setup_complete.json".
(** The value the module binds to the global [PYTHON_EXE] when it loads. *)
Definition PYTHON_EXE_initial : string :=
  path_join (path_join VENV_DIR "Scripts") "python.exe".

Definition PYTHON_VERSION : string := "3.11.9".
Definition PYTHON_EMBED_URL : string :=
  "https://www.python.org/ftp/python/" ++ PYTHON_VERSION ++ "/python-"
    ++ PYTHON_VERSION ++ "-embed-amd64.zip".
Definition GET_PIP_URL : string := "https://bootstrap.pypa.io/get-pip.py".

(** *** Child processes and downloads *)

(** [subprocess.run(c, timeout=...)] *)
Definition subprocess_run (c : command) (timeout : option Z) : M CompletedProcess :=
  λ w, let '(r, f') := run h (length (calls w)) c timeout (fs w) in
       let w' := with_fs f' (with_calls (calls w ++ [Ran c timeout (fs w)]) w) in
       match r with
       | inl e => (Raise e, w')
       | inr cp => (Ok cp, w')
       end.

(** [urllib.request.urlopen(...)] and the reading of the response. *)
Definition urlopen (url : string) : M download :=
  λ w, (Ok (fetch h (length (calls w)) url), with_calls (calls w ++ [Fetched url]) w).

(** *** The setup check *)

(** The probe both the setup check and the skip path run. *)
Definition import_manim (python : string) : command :=
  Argv [python; "-c"; "import manim; print('ok')"].

(** [os.path.isfile(v)]: a path is looked up; a number or a boolean is
    taken for a file descriptor ([True] is 1, [False] is 0). *)
Definition isfile_value (v : value) : M bool :=
  match v with
  | VStr p => os_path_isfile p
  | VInt n => ret (fd_isfile h n)
  | VBool b => ret (fd_isfile h (if b then 1 else 0))
  end.

(** The first argument of a child process must be text: [subprocess.run]
    raises [TypeError] before it starts anything otherwise. *)
Definition as_program (v : value) : M string :=
  match v with
  | VStr p => ret p
  | _ => raise (Exn TypeError "expected str, bytes or os.PathLike object")
  end.

(** [if os.path.isfile(saved_exe): PYTHON_EXE = saved_exe] *)
Definition adopt (saved_exe : value) : M unit :=
  ok <- isfile_value saved_exe;;
  when ok (modify (with_PYTHON_EXE saved_exe)).

(** The [try] block of [is_setup_complete] that loads the saved path.  A
    marker that is not an object has no [get]; [os.path.isfile] raises
    [TypeError] for null, a float, a list and an object. *)
Definition load_saved_exe : M unit :=
  text <- read_file SETUP_MARKER;;
  match json_load h text with
  | None => raise (Exn ValueError "json")
  | Some (JObj members) =>
      w <- get;;
      match assoc "python_exe" members with
      | None => adopt (PYTHON_EXE w)
      | Some (JStr s) => adopt (VStr s)
      | Some (JNum n) => adopt (VInt n)
      | Some (JBool b) => adopt (VBool b)
      | Some _ => raise (Exn TypeError "isfile")
      end
  | Some _ => raise (Exn AttributeError "get")
  end.

Definition is_setup_complete : M bool :=
  marker <- os_path_isfile SETUP_MARKER;;
  if negb marker then ret false else
  try_except load_saved_exe Exception (λ _, ret tt);;
  w <- get;;
  exe <- isfile_value (PYTHON_EXE w);;
  if negb exe then ret false else
  try_except
    (python <- as_program (PYTHON_EXE w);;
     result <- subprocess_run (import_manim python) (Some 15);;
     ret (String.eqb (Str.strip (stdout result)) "ok"))
    Exception (λ _, ret false).

(** *** The interpreter locator *)

Definition candidates (n : nat) : list (option string) :=
  [which h n "python"; which h n "python3"; which h n "py"] ++
  flat_map (λ ver,
      [Some (path_join (localappdata h) ("Programs\Python\Python" ++ ver ++ "\python.exe"));
       Some ("C:\Python" ++ ver ++ "\python.exe")])
    ["311"; "312"; "310"; "39"; "313"].

(** The test on the text a candidate prints for [--version]: [Some true]
    accepts, [Some false] rejects, [None] is the [ValueError] of [int]. *)
Definition version_ok (ver_str : string) : option bool :=
  if Str.contains "Python 3." ver_str then
    match Str.split "." ver_str with
    | _ :: minor :: _ => (λ m, 8 <=? m) <$> Str.int minor
    | _ => Some false
    end
  else Some false.

(** The body of the [try] for one candidate: [true] is [return path]. *)
Definition probe (path : string) : M bool :=
  result <- subprocess_run (Argv [path; "--version"]) (Some 5);;
  match version_ok (Str.strip (stdout result)) with
  | Some b => ret b
  | None => raise (Exn ValueError "int")
  end.

(** The [for path in candidates] loop. *)
Fixpoint first_working (l : list (option string)) : M (option string) :=
  match l with
  | [] => ret None
  | c :: rest =>
      match c with
      | Some path =>
          present <- os_path_isfile path;;
          if negb (String.eqb path "") && present then
            hit <- try_except (probe path) Exception (λ _, ret false);;
            if hit then ret (Some path) else first_working rest
          else first_working rest
      | None => first_working rest
      end
  end.

Definition find_system_python : M (option string) :=
  w <- get;;
  first_working (candidates (length (calls w))).

(** *** The wizard: widgets and callbacks *)

Definition set_checks (k : check_key) (st : check_state) (s : SetupScreen) : SetupScreen :=
  {| checks := λ k', if check_key_eqb k' k then st else checks s k';
     descs := descs s; status_var := status_var s;
     install_btn_disabled := install_btn_disabled s;
     skip_btn_disabled := skip_btn_disabled s; _installing := _installing s;
     progress_animating := progress_animating s; progress := progress s |}.
Definition set_descs (k : check_key) (text : string) (s : SetupScreen) : SetupScreen :=
  {| checks := checks s;
     descs := λ k', if check_key_eqb k' k then text else descs s k';
     status_var := status_var s;
     install_btn_disabled := install_btn_disabled s;
     skip_btn_disabled := skip_btn_disabled s; _installing := _installing s;
     progress_animating := progress_animating s; progress := progress s |}.
Definition set_status_var (text : string) (s : SetupScreen) : SetupScreen :=
  {| checks := checks s; descs := descs s; status_var := text;
     install_btn_disabled := install_btn_disabled s;
     skip_btn_disabled := skip_btn_disabled s; _installing := _installing s;
     progress_animating := progress_animating s; progress := progress s |}.
Definition set_install_btn (b : bool) (s : SetupScreen) : SetupScreen :=
  {| checks := checks s; descs := descs s; status_var := status_var s;
     install_btn_disabled := b;
     skip_btn_disabled := skip_btn_disabled s; _installing := _installing s;
     progress_animating := progress_animating s; progress := progress s |}.
Definition set_skip_btn (b : bool) (s : SetupScreen) : SetupScreen :=
  {| checks := checks s; descs := descs s; status_var := status_var s;
     install_btn_disabled := install_btn_disabled s;
     skip_btn_disabled := b; _installing := _installing s;
     progress_animating := progress_animating s; progress := progress s |}.
Definition set_installing (b : bool) (s : SetupScreen) : SetupScreen :=
  {| checks := checks s; descs := descs s; status_var := status_var s;
     install_btn_disabled := install_btn_disabled s;
     skip_btn_disabled := skip_btn_disabled s; _installing := b;
     progress_animating := progress_animating s; progress := progress s |}.
Definition set_animating (b : bool) (s : SetupScreen) : SetupScreen :=
  {| checks := checks s; descs := descs s; status_var := status_var s;
     install_btn_disabled := install_btn_disabled s;
     skip_btn_disabled := skip_btn_disabled s; _installing := _installing s;
     progress_animating := b; progress := progress s |}.
(** [GlowProgressBar.set_progress]: the value is clamped to 0..1. *)
Definition set_progress (v : Z) (s : SetupScreen) : SetupScreen :=
  {| checks := checks s; descs := descs s; status_var := status_var s;
     install_btn_disabled := install_btn_disabled s;
     skip_btn_disabled := skip_btn_disabled s; _installing := _installing s;
     progress_animating := progress_animating s; progress := Z.max 0 (Z.min 1 v) |}.

(** [SetupScreen.__init__] and [_build_ui]. *)
Definition SetupScreen_init : SetupScreen :=
  {| checks := λ _, pending;
     descs := λ k, match k with
                   | k_python => "Sistem Python'u bulunacak veya indirilecek"
                   | k_venv => "İzole bir Python ortamı oluşturulacak"
                   | k_pip => "pip kurulacak"
                   | k_manim => "Manim ve bağımlılıkları yüklenecek"
                   | k_ffmpeg => "Video kodlama aracı kontrol edilecek"
                   end;
     status_var := "Kuruluma başlamak için butona tıklayın";
     install_btn_disabled := false; skip_btn_disabled := false;
     _installing := false; progress_animating := false; progress := 0 |}.

Definition on_self (f : SetupScreen → SetupScreen) : M unit :=
  modify (λ w, with_self (f (self w)) w).

(** [_set_check(key, state)] redraws the dot of one row. *)
Definition _set_check (key : check_key) (state : check_state) : M unit :=
  on_self (set_checks key state).

Definition _update_status (text : string) (check : option (check_key * check_state)) : M unit :=
  root_after (cb_status text);;
  match check with
  | Some (key, state) => root_after (cb_set_check key state)
  | None => ret tt
  end.

Definition _update_desc (key : check_key) (text : string) : M unit :=
  root_after (cb_desc key text).

Definition _transition : M unit :=
  modify (with_window (Some MainApp)).

Definition _on_skip_success (python_path : string) : M unit :=
  _set_check k_python done_;; _set_check k_venv done_;; _set_check k_pip done_;;
  _set_check k_manim done_;; _set_check k_ffmpeg done_;;
  on_self (set_status_var ("✅  Mevcut kurulum doğrulandı: " ++ python_path));;
  on_self (set_progress 1);;
  root_after cb_transition.

Definition _on_skip_fail (error : string) : M unit :=
  on_self (set_status_var ("❌  Bu Python'da manim bulunamadı: " ++ error));;
  on_self (set_install_btn false);;
  on_self (set_skip_btn false).

Definition _on_install_complete : M unit :=
  on_self (set_animating false);;
  on_self (set_progress 1);;
  on_self (set_status_var "✅  Kurulum tamamlandı! Uygulama başlatılıyor…");;
  root_after cb_transition.

Definition _fail (message : string) (check_key : option check_key) : M unit :=
  match check_key with
  | Some key => root_after (cb_set_check key error)
  | None => ret tt
  end;;
  root_after cb_stop_indeterminate;;
  root_after (cb_set_progress 0);;
  root_after (cb_status ("❌  " ++ message));;
  root_after cb_install_btn_enable;;
  on_self (set_installing false).

(** What the main loop does with one queued callback.  An exception raised
    inside a callback is reported by Tk and dropped; the only callback that
    can raise is the one that reads [e] after the [except] clause that
    bound it has ended. *)
Definition run_callback (cb : callback) : M unit :=
  match cb with
  | cb_status text => on_self (set_status_var text)
  | cb_set_check key state => _set_check key state
  | cb_desc key text => on_self (set_descs key text)
  | cb_on_skip_success chosen => _on_skip_success chosen
  | cb_on_skip_fail err => _on_skip_fail err
  | cb_on_skip_fail_str_e =>
      w <- get;;
      match e_cell w with
      | Some e => _on_skip_fail (exn_str e)
      | None => raise (Exn NameError "e")
      end
  | cb_stop_indeterminate => on_self (set_animating false)
  | cb_set_progress v => on_self (set_progress v)
  | cb_install_btn_enable => on_self (set_install_btn false)
  | cb_on_install_complete => _on_install_complete
  | cb_transition => _transition
  end.

(** The main loop takes the callbacks in order until none is left. *)
Fixpoint drain (fuel : nat) (w : World) : World :=
  match fuel, queue w with
  | S fuel', cb :: rest => drain fuel' (run_callback cb (with_queue rest w)).2
  | _, _ => w
  end.

(** A callback queues at most one more, which queues none. *)
Definition mainloop (w : World) : World := drain (2 * length (queue w)) w.

(** *** The skip path *)

(** The record [validate] dumps into the marker. *)
Definition skip_record (chosen : string) : json :=
  JObj [("python_version", JStr "custom");
        ("venv_dir", JStr (dirname h (dirname h chosen)));
        ("python_exe", JStr chosen);
        ("skipped_setup", JBool true)].

(** The thread body [validate] of [_skip_setup].  Python unbinds [e] when
    the [except] clause ends; the queued lambda reads it when it runs. *)
Definition validate (chosen : string) : M unit :=
  try_except
    (result <- subprocess_run (import_manim chosen) (Some 20);;
     if String.eqb (Str.strip (stdout result)) "ok" then
       os_makedirs APP_DIR;;
       write_file SETUP_MARKER (json_dump h (skip_record chosen));;
       modify (with_PYTHON_EXE (VStr chosen));;
       root_after (cb_on_skip_success chosen)
     else
       let err := if String.eqb (stderr result) "" then "manim import edilemedi"
                  else Str.take 200 (stderr result) in
       root_after (cb_on_skip_fail err))
    Exception
    (λ e, modify (with_e_cell (Some e));;
          root_after cb_on_skip_fail_str_e;;
          modify (with_e_cell None)).

(** [_skip_setup], with the answer of the file dialog as argument (the
    empty string when the user cancels). *)
Definition _skip_setup (chosen : string) : M unit :=
  w <- get;;
  if _installing (self w) then ret tt else
  if String.eqb chosen "" then ret tt else
  on_self (set_status_var "Seçilen Python kontrol ediliyor…");;
  on_self (set_install_btn true);;
  on_self (set_skip_btn true);;
  validate chosen.

(** *** The bootstrap worker *)

Definition post_progress (msgs : list string) : M unit :=
  foldr (λ m k, _update_status m None;; k) (ret tt) msgs.

Definition _download_file (url dest : string) : M unit :=
  try_except
    (d <- urlopen url;;
     match d with
     | Refused e => raise e
     | Broken total msgs partial e =>
         write_file dest partial;; post_progress (if 0 <? total then msgs else []);; raise e
     | Ended total msgs received =>
         write_file dest received;; post_progress (if 0 <? total then msgs else [])
     end)
    Exception
    (λ e, raise (Exn RuntimeError ("İndirme hatası: " ++ exn_str e))).

(** [zipfile.ZipFile(zip_path).extractall(dir)] *)
Definition extractall (zip_path dir : string) : M unit :=
  text <- read_file zip_path;;
  match unzip h text with
  | inl e => raise e
  | inr entries =>
      os_makedirs dir;;
      foldr (λ e k, write_file (path_join dir e.1) e.2;; k) (ret tt) entries
  end.

Definition _download_python : M (option string) :=
  try_except
    (let nuget_dir := path_join APP_DIR "python_standalone" in
     os_makedirs nuget_dir;;
     let zip_path := path_join APP_DIR "python_embed.zip" in
     _download_file PYTHON_EMBED_URL zip_path;;
     let embed_dir := path_join APP_DIR "python_embed" in
     d <- os_path_isdir embed_dir;;
     when d (shutil_rmtree embed_dir false);;
     extractall zip_path embed_dir;;
     os_remove zip_path;;
     let installer_url :=
       "https://www.python.org/ftp/python/" ++ PYTHON_VERSION ++ "/python-"
         ++ PYTHON_VERSION ++ "-amd64.exe" in
     let installer_path := path_join APP_DIR "python_installer.exe" in
     _update_status "Python yükleyicisi indiriliyor…" None;;
     _download_file installer_url installer_path;;
     let python_install_dir := path_join APP_DIR "python" in
     _update_status "Python yükleniyor…" None;;
     _ <- subprocess_run
            (Argv [installer_path; "/quiet"; "InstallAllUsers=0";
                   "TargetDir=" ++ python_install_dir; "PrependPath=0";
                   "Include_test=0"; "Include_launcher=0"; "Include_pip=1"])
            (Some 300);;
     try_except (os_remove installer_path) is_OSError (λ _, ret tt);;
     shutil_rmtree embed_dir true;;
     let python_exe := path_join python_install_dir "python.exe" in
     ok <- os_path_isfile python_exe;;
     ret (if ok then Some python_exe else None))
    Exception (λ _, ret None).

Definition venv_python : string := path_join (path_join VENV_DIR "Scripts") "python.exe".

(** Step 1: the base interpreter, or [None] after [_fail]. *)
Definition step_python : M (option string) :=
  _update_status "Python interpreter aranıyor…" (Some (k_python, active));;
  system_python <- find_system_python;;
  match system_python with
  | Some p =>
      _update_desc k_python ("Bulundu: " ++ p);;
      _update_status "Sistem Python'u bulundu" (Some (k_python, done_));;
      ret (Some p)
  | None =>
      _update_status ("Python " ++ PYTHON_VERSION ++ " indiriliyor… (bu biraz sürebilir)")
        (Some (k_python, active));;
      python_for_venv <- _download_python;;
      match python_for_venv with
      | None =>
          _fail "Python indirilemedi. İnternet bağlantınızı kontrol edin." (Some k_python);;
          ret None
      | Some p =>
          _update_desc k_python ("İndirildi: Python " ++ PYTHON_VERSION);;
          _update_status "Python başarıyla indirildi" (Some (k_python, done_));;
          ret (Some p)
      end
  end.

(** Step 2: the environment; [false] after [_fail]. *)
Definition step_venv (python_for_venv : string) : M bool :=
  _update_status "Sanal ortam oluşturuluyor…" (Some (k_venv, active));;
  d <- os_path_isdir VENV_DIR;;
  when d (shutil_rmtree VENV_DIR true);;
  result <- subprocess_run (Argv [python_for_venv; "-m"; "venv"; VENV_DIR]) (Some 120);;
  if negb (returncode result =? 0) then
    _fail ("venv oluşturulamadı: " ++ Str.take 200 (stderr result)) (Some k_venv);;
    ret false
  else
    _update_desc k_venv VENV_DIR;;
    _update_status "Sanal ortam oluşturuldu" (Some (k_venv, done_));;
    ret true.

(** Step 3: pip; [false] after [_fail]. *)
Definition step_pip : M bool :=
  _update_status "pip kontrol ediliyor…" (Some (k_pip, active));;
  result <- subprocess_run (Argv [venv_python; "-m"; "pip"; "--version"]) (Some 30);;
  ok <- (if negb (returncode result =? 0) then
           _update_status "pip indiriliyor…" (Some (k_pip, active));;
           let get_pip_path := path_join APP_DIR "get-pip.py" in
           _download_file GET_PIP_URL get_pip_path;;
           result <- subprocess_run (Argv [venv_python; get_pip_path]) (Some 120);;
           if negb (returncode result =? 0) then
             _fail ("pip kurulamadı: " ++ Str.take 200 (stderr result)) (Some k_pip);;
             ret false
           else
             try_except (os_remove get_pip_path) is_OSError (λ _, ret tt);;
             ret true
         else ret true);;
  if negb ok then ret false else
  _ <- subprocess_run (Argv [venv_python; "-m"; "pip"; "install"; "--upgrade"; "pip"])
         (Some 120);;
  _update_desc k_pip "pip hazır";;
  _update_status "pip hazır" (Some (k_pip, done_));;
  ret true.

(** Step 4: Manim; [false] after [_fail]. *)
Definition step_manim : M bool :=
  _update_status "Manim yükleniyor… (bu birkaç dakika sürebilir)" (Some (k_manim, active));;
  result <- subprocess_run (Argv [venv_python; "-m"; "pip"; "install"; "manim"]) (Some 600);;
  if negb (returncode result =? 0) then
    _fail ("Manim yüklenemedi: " ++ Str.take 300 (stderr result)) (Some k_manim);;
    ret false
  else
    _update_desc k_manim "Manim Community Edition yüklendi";;
    _update_status "Manim yüklendi" (Some (k_manim, done_));;
    ret true.

(** Step 5: FFmpeg. *)
Definition step_ffmpeg : M unit :=
  _update_status "FFmpeg kontrol ediliyor…" (Some (k_ffmpeg, active));;
  ffmpeg_ok <-
    try_except
      (_ <- subprocess_run
              (Argv [venv_python; "-c"; "from manim.utils.file_ops import *; print('ok')"])
              (Some 15);;
       ff_result <- subprocess_run (Argv ["ffmpeg"; "-version"]) (Some 10);;
       ret (returncode ff_result =? 0))
      is_FileNotFoundError (λ _, ret false);;
  (if negb ffmpeg_ok then
     _ <- subprocess_run (Argv [venv_python; "-m"; "pip"; "install"; "imageio[ffmpeg]"])
            (Some 120);;
     _update_desc k_ffmpeg "imageio-ffmpeg ile sağlandı"
   else _update_desc k_ffmpeg "Sistem FFmpeg bulundu");;
  _update_status "FFmpeg hazır" (Some (k_ffmpeg, done_)).

(** The record the worker dumps into the marker. *)
Definition install_record (python_exe : value) : json :=
  JObj [("python_version", JStr PYTHON_VERSION);
        ("venv_dir", JStr VENV_DIR);
        ("python_exe", to_json python_exe)].

(** Done: write the marker and announce it. *)
Definition write_marker : M unit :=
  w <- get;;
  write_file SETUP_MARKER (json_dump h (install_record (PYTHON_EXE w)));;
  root_after cb_on_install_complete.

(** The five steps in order, each [return] of the source ending the chain. *)
Definition install_steps : M unit :=
  os_makedirs APP_DIR;;
  python_for_venv <- step_python;;
  match python_for_venv with
  | None => ret tt
  | Some p =>
      ok <- step_venv p;;
      if negb ok then ret tt else
      ok <- step_pip;;
      if negb ok then ret tt else
      ok <- step_manim;;
      if negb ok then ret tt else
      step_ffmpeg;;
      write_marker
  end.

Definition _install_worker : M unit :=
  try_except install_steps Exception
    (λ e, _fail ("Beklenmeyen hata: " ++ Str.take 200 (exn_str e)) None).

Definition _start_install : M unit :=
  w <- get;;
  if _installing (self w) then ret tt else
  on_self (set_installing true);;
  on_self (set_install_btn true);;
  on_self (set_skip_btn true);;
  on_self (set_animating true);;
  _install_worker.

(** *** The headless renderer and the entry point *)

Definition script_path : string := path_join (tempdir h) "manim_temp.py".

(** [os.path.join(os.path.expanduser("~/Desktop"), f"{stem}_animation.mp4")] *)
Definition output_path (svg_path : string) : string :=
  path_join (home h ++ "/Desktop") (stem h svg_path ++ "_animation.mp4").

Definition nl : string := String (ascii_of_nat 10) EmptyString.

Definition python_code (svg_path : string) : string :=
  let svg_escaped := Str.replace "\" "\\" svg_path in
  "from manim import *" ++ nl ++
  "class LogoAnimation(Scene):" ++ nl ++
  "    def construct(self):" ++ nl ++
  "        m = SVGMobject(r'" ++ svg_escaped ++ "').scale(1).shift(UP)" ++ nl ++
  "        t = Text(r'" ++ stem h svg_path ++ "').scale(1.5).next_to(m, DOWN)" ++ nl ++
  "        self.play(Write(m, run_time=2))" ++ nl ++
  "        self.play(Write(t, run_time=1))" ++ nl ++
  "        self.wait(2)" ++ nl.

Definition render_command (python_exe svg_path : string) : command :=
  Shell (Str.dq ++ python_exe ++ Str.dq ++ " -m manim " ++ Str.dq ++ script_path ++ Str.dq
         ++ " LogoAnimation -r 3840,2160 -f 60 --renderer=cairo --write_to_movie "
         ++ "--output_file " ++ Str.dq ++ output_path svg_path ++ Str.dq).

Definition remove_script : M unit :=
  try_except (os_remove script_path) is_FileNotFoundError (λ _, ret tt).

Definition _process_svg_cli (svg_path : string) : M unit :=
  present <- os_path_isfile svg_path;;
  if negb present then print ("Hata: Dosya bulunamadı: " ++ svg_path) else
  ready <- is_setup_complete;;
  if negb ready then
    print "Hata: Ortam henüz kurulmamış. Önce GUI'yi çalıştırın: python QuickAnimations.py"
  else
  remove_script;;
  write_file script_path (python_code svg_path);;
  w <- get;;
  _ <- subprocess_run (render_command (py_str (PYTHON_EXE w)) svg_path) None;;
  remove_script;;
  made <- os_path_isfile (output_path svg_path);;
  if made then print ("✓ Video oluşturuldu: " ++ output_path svg_path)
  else print "✗ Video oluşturulamadı.".

(** [SetupScreen(root, ...)] and [QuickAnimationsApp(root)] *)
Definition show_setup : M unit :=
  modify (λ w, with_window (Some SetupWizard) (with_self SetupScreen_init w)).
Definition show_main : M unit := modify (with_window (Some MainApp)).

(** [main()], with [sys.argv] as argument. *)
Definition main (argv : list string) : M unit :=
  match argv with
  | _ :: arg :: rest =>
      if String.eqb arg "--setup" then show_setup
      else if String.eqb arg "--cli" then
        match rest with
        | path :: _ => _process_svg_cli path
        | [] => print ("Kullanım: python QuickAnimations.py --cli "
                       ++ Str.dq ++ "dosya.svg" ++ Str.dq)
        end
      else _process_svg_cli arg
  | _ =>
      ready <- is_setup_complete;;
      if ready then show_main else show_setup
  end.

End Program.

(** * Specifications

    The notions the properties are stated with. *)

(** [os.path.isfile] says yes to the value: a path that is a file, or a
    number or a boolean whose file descriptor is one. *)
Definition names_file (h : Host) (f : gmap string node) (v : value) : bool :=
  match v with
  | VStr p => is_file f p
  | VInt n => fd_isfile h n
  | VBool b => fd_isfile h (if b then 1 else 0)
  end.

(** The value of [python_exe] saved in the marker, when the marker decodes
    to an object that has one which is text, a number or a boolean. *)
Definition saved_exe (h : Host) (w : World) : option value :=
  match fs w !! SETUP_MARKER h with
  | Some (File text _) =>
      match json_load h text with
      | Some (JObj members) =>
          match assoc "python_exe" members with
          | Some (JStr s) => Some (VStr s)
          | Some (JNum n) => Some (VInt n)
          | Some (JBool b) => Some (VBool b)
          | _ => None
          end
      | _ => None
      end
  | _ => None
  end.

(** The interpreter in effect once the marker has been looked at: the value
    saved in the marker when [os.path.isfile] says yes to it, the current
    global otherwise. *)
Definition effective_exe (h : Host) (w : World) : value :=
  match saved_exe h w with
  | Some v => if names_file h (fs w) v then v else PYTHON_EXE w
  | None => PYTHON_EXE w
  end.

(** The import probe of [python] on the world [w] prints ok. *)
Definition probe_prints_ok (h : Host) (w : World) (python : string) : Prop :=
  ∃ cp f', run h (length (calls w)) (import_manim python) (Some 15) (fs w) = (inr cp, f')
           ∧ Str.strip (stdout cp) = "ok".

Definition probe_cmd (path : string) : command := Argv [path; "--version"].

(** The world once [path] has been asked for its version. *)
Definition after_probe (h : Host) (path : string) (w : World) : World :=
  with_fs (run h (length (calls w)) (probe_cmd path) (Some 5) (fs w)).2
    (with_calls (calls w ++ [Ran (probe_cmd path) (Some 5) (fs w)]) w).

(** The version probe of [path] completes (with whatever exit code) and
    prints a text that holds "Python 3." and whose second dot-separated part
    reads as an integer that is at least 8. *)
Definition probe_accepts (h : Host) (path : string) (w : World) : bool :=
  match (run h (length (calls w)) (probe_cmd path) (Some 5) (fs w)).1 with
  | inr cp =>
      match version_ok (Str.strip (stdout cp)) with
      | Some true => true
      | _ => false
      end
  | inl _ => false
  end.

(** The search as the specification words it: take the candidates in order,
    pass over one that is no path, no file, or whose probe does not accept,
    stop at the first that accepts, and answer not-found at the end. *)
Fixpoint locate (h : Host) (l : list (option string)) (w : World) : option string * World :=
  match l with
  | [] => (None, w)
  | None :: rest => locate h rest w
  | Some path :: rest =>
      if negb (String.eqb path "") && is_file (fs w) path then
        if probe_accepts h path w then (Some path, after_probe h path w)
        else locate h rest (after_probe h path w)
      else locate h rest w
  end.

(** The node at [p], if any, can be deleted and rewritten. *)
Definition free (f : gmap string node) (p : string) : bool :=
  match f !! p with
  | Some Dir | Some (File _ true) => false
  | _ => true
  end.

(** What a queued callback does to the wizard when it runs; [cell] is the
    value of [e] at that time. *)
Definition screen_effect (cell : option exn) (cb : callback) (s : SetupScreen) : SetupScreen :=
  match cb with
  | cb_status text => set_status_var text s
  | cb_set_check key state => set_checks key state s
  | cb_desc key text => set_descs key text s
  | cb_on_skip_success chosen =>
      set_progress 1
        (set_status_var ("✅  Mevcut kurulum doğrulandı: " ++ chosen)
           (set_checks k_ffmpeg done_ (set_checks k_manim done_ (set_checks k_pip done_
              (set_checks k_venv done_ (set_checks k_python done_ s))))))
  | cb_on_skip_fail err =>
      set_skip_btn false (set_install_btn false
        (set_status_var ("❌  Bu Python'da manim bulunamadı: " ++ err) s))
  | cb_on_skip_fail_str_e =>
      match cell with
      | Some e => set_skip_btn false (set_install_btn false
                    (set_status_var ("❌  Bu Python'da manim bulunamadı: " ++ exn_str e) s))
      | None => s
      end
  | cb_stop_indeterminate => set_animating false s
  | cb_set_progress v => set_progress v s
  | cb_install_btn_enable => set_install_btn false s
  | cb_on_install_complete =>
      set_status_var "✅  Kurulum tamamlandı! Uygulama başlatılıyor…"
        (set_progress 1 (set_animating false s))
  | cb_transition => s
  end.

(** The callbacks a callback queues in turn. *)
Definition spawn (cb : callback) : list callback :=
  match cb with
  | cb_on_skip_success _ | cb_on_install_complete => [cb_transition]
  | _ => []
  end.

Definition replay (cell : option exn) (q : list callback) (s : SetupScreen) : SetupScreen :=
  foldl (λ s cb, screen_effect cell cb s) s q.

Definition cost (cb : callback) : nat := S (length (spawn cb)).

(** The callbacks that end in the main screen. *)
Definition opens_main (cb : callback) : bool :=
  match cb with
  | cb_on_skip_success _ | cb_on_install_complete | cb_transition => true
  | _ => false
  end.

(** [s] is the text [t[-k:]] for some [k]. *)
Definition ends_with (s t : string) : bool :=
  String.eqb (substring (String.length t - String.length s) (String.length s) t) s.

(** The text [validate] hands to [_on_skip_fail] for a probe that completed
    without printing ok. *)
Definition skip_diagnostic (cp : CompletedProcess) : string :=
  if String.eqb (stderr cp) "" then "manim import edilemedi" else Str.take 200 (stderr cp).

(** No child process touches the marker file. *)
Definition marker_safe (h : Host) : Prop :=
  ∀ n c t f, (run h n c t f).2 !! SETUP_MARKER h = f !! SETUP_MARKER h.

(** The callbacks the steps of the bootstrap worker queue. *)
Definition worker_cb (cb : callback) : bool :=
  match cb with
  | cb_on_skip_success _ | cb_on_skip_fail _ | cb_on_skip_fail_str_e
  | cb_on_install_complete | cb_transition => false
  | _ => true
  end.

(** The callbacks that only set the status line. *)
Definition status_cb (cb : callback) : bool :=
  match cb with cb_status _ => true | _ => false end.

(** [w'] comes from [w] by steps that keep the interpreter global, the
    printed lines and the window, keep the marker file (when child processes
    do), only add external calls and callbacks of the kind [P], and reset
    [_installing] at most where the re-enabling of the install button may be
    queued (that is, in [_fail]). *)
Record frame (h : Host) (P : callback → bool) (w w' : World) : Prop := {
  frame_exe : PYTHON_EXE w' = PYTHON_EXE w;
  frame_printed : printed w' = printed w;
  frame_cell : e_cell w' = e_cell w;
  frame_window : window w' = window w;
  frame_marker : marker_safe h → fs w' !! SETUP_MARKER h = fs w !! SETUP_MARKER h;
  frame_calls : ∃ cs, calls w' = (calls w ++ cs)%list;
  frame_queue : ∃ qs, queue w' = (queue w ++ qs)%list ∧ forallb P qs = true;
  frame_self : self w' = self w
               ∨ (P cb_install_btn_enable = true ∧ self w' = set_installing false (self w));
}.

Definition framed (h : Host) (P : callback → bool) {A} (m : M A) : Prop :=
  ∀ w, frame h P w (m w).2.

(** The callbacks [qs] are worker callbacks that leave row [k] in state [st]
    and the other rows as they were. *)
Definition marks (k : check_key) (st : check_state) (qs : list callback) : Prop :=
  forallb worker_cb qs = true
  ∧ ∀ cell s j, checks (replay cell qs s) j = if check_key_eqb j k then st else checks s j.

(** The state a step leaves its row in: done after success, error after
    [_fail], active when an exception ended it. *)
Definition row_after (r : result bool) : check_state :=
  match r with Ok true => done_ | Ok false => error | Raise _ => active end.

(** [_installing] is reset exactly where [_fail] ran. *)
Definition self_after (r : result bool) (s : SetupScreen) : SetupScreen :=
  match r with Ok false => set_installing false s | _ => s end.

(** The run from [w] arrives at step [k] in world [wk], all earlier steps
    having succeeded, with [p] the base interpreter found by step 1. *)
Inductive reaches (h : Host) (w : World) : check_key → string → World → Prop :=
| reaches_venv w0 p w1 :
    os_makedirs (APP_DIR h) w = (Ok tt, w0) →
    step_python h w0 = (Ok (Some p), w1) →
    reaches h w k_venv p w1
| reaches_pip p w1 w2 :
    reaches h w k_venv p w1 → step_venv h p w1 = (Ok true, w2) →
    reaches h w k_pip p w2
| reaches_manim p w2 w3 :
    reaches h w k_pip p w2 → step_pip h w2 = (Ok true, w3) →
    reaches h w k_manim p w3
| reaches_ffmpeg p w3 w4 :
    reaches h w k_manim p w3 → step_manim h w3 = (Ok true, w4) →
    reaches h w k_ffmpeg p w4.

(** The run from [w] fails at step [k] by that step's own test (no usable
    interpreter, or a non-zero exit status), which calls [_fail] and returns,
    leaving the world [wk]. *)
Inductive halts_at (h : Host) (w : World) : check_key → World → Prop :=
| halts_python w0 w1 :
    os_makedirs (APP_DIR h) w = (Ok tt, w0) →
    step_python h w0 = (Ok None, w1) →
    halts_at h w k_python w1
| halts_venv p w1 w2 :
    reaches h w k_venv p w1 → step_venv h p w1 = (Ok false, w2) →
    halts_at h w k_venv w2
| halts_pip p w2 w3 :
    reaches h w k_pip p w2 → step_pip h w2 = (Ok false, w3) →
    halts_at h w k_pip w3
| halts_manim p w3 w4 :
    reaches h w k_manim p w3 → step_manim h w3 = (Ok false, w4) →
    halts_at h w k_manim w4.

(** What is left of [install_steps] from step [k] on. *)
Definition from_ffmpeg (h : Host) : M unit := step_ffmpeg h;; write_marker h.
Definition from_manim (h : Host) : M unit :=
  ok <- step_manim h;; if negb ok then ret tt else from_ffmpeg h.
Definition from_pip (h : Host) : M unit :=
  ok <- step_pip h;; if negb ok then ret tt else from_manim h.
Definition from_venv (h : Host) (p : string) : M unit :=
  ok <- step_venv h p;; if negb ok then ret tt else from_pip h.
Definition from_step (h : Host) (p : string) (k : check_key) : M unit :=
  match k with
  | k_python | k_venv => from_venv h p
  | k_pip => from_pip h
  | k_manim => from_manim h
  | k_ffmpeg => from_ffmpeg h
  end.

(** The rows above [k] are done, the others as they were. *)
Definition done_above (k : check_key) (qs : list callback) : Prop :=
  forallb worker_cb qs = true
  ∧ ∀ cell s j, checks (replay cell qs s) j
                = if (rank j <? rank k)%nat then done_ else checks s j.

(** The run from [w] gets through all five steps and writes the marker,
    ending in [w']. *)
Definition succeeds (h : Host) (w w' : World) : Prop :=
  ∃ p w4 w5, reaches h w k_ffmpeg p w4
             ∧ step_ffmpeg h w4 = (Ok tt, w5)
             ∧ write_marker h w5 = (Ok tt, w').

Definition manim_probe (h : Host) : command :=
  Argv [venv_python h; "-c"; "from manim.utils.file_ops import *; print('ok')"].
Definition ffmpeg_probe : command := Argv ["ffmpeg"; "-version"].
Definition fallback_install (h : Host) : command :=
  Argv [venv_python h; "-m"; "pip"; "install"; "imageio[ffmpeg]"].

(** A child process completes (with any exit status) or is not found. *)
Definition completes_or_absent (o : exn + CompletedProcess) : Prop :=
  match o with inr _ => True | inl e => is_FileNotFoundError e = true end.

Definition completes (o : exn + CompletedProcess) : Prop :=
  match o with inr _ => True | inl _ => False end.

Definition venv_command (h : Host) (python_for_venv : string) : command :=
  Argv [python_for_venv; "-m"; "venv"; VENV_DIR h].

(** After a run of the worker the interpreter global is as before, and the
    marker is as before or holds the record of a completed bootstrap. *)
Definition kept_or_written (h : Host) (w w' : World) : Prop :=
  PYTHON_EXE w' = PYTHON_EXE w
  ∧ (fs w' !! SETUP_MARKER h = fs w !! SETUP_MARKER h
     ∨ fs w' !! SETUP_MARKER h
       = Some (File (json_dump h (install_record h (PYTHON_EXE w))) false)).

(** * Machines to run the program on *)

Module Demo.

Definition dump_value (j : json) : string :=
  match j with
  | JStr s => Str.dq ++ s ++ Str.dq
  | JBool true => "true"
  | JBool false => "false"
  | JNum n => py_str (VInt n)
  | JFloat text => text
  | _ => "null"
  end.

(** A printer for the flat records of the program. *)
Definition dump (j : json) : string :=
  match j with
  | JObj members =>
      "{" ++ String.concat ", "
               (map (λ kv : string * json, Str.dq ++ kv.1 ++ Str.dq ++ ": " ++ dump_value kv.2)
                    members) ++ "}"
  | v => dump_value v
  end.

(** A decoder that knows the documents of [known]. *)
Definition load (known : list json) (text : string) : option json :=
  List.find (λ j, String.eqb (dump j) text) known.

(** The text after the last backslash, up to its last dot. *)
Definition stem_of (p : string) : string :=
  let name := List.last (Str.split "\" p) "" in
  match rev (Str.split "." name) with
  | _ :: (_ :: _) as front => String.concat "." (rev front)
  | _ => name
  end.

(** The text before the last backslash. *)
Definition dirname_of (p : string) : string :=
  match rev (Str.split "\" p) with
  | _ :: front => String.concat "\" (rev front)
  | [] => ""
  end.

(** A machine whose standard streams are a console (no descriptor is a
    file, every line can be printed) and on which every deletion that can
    succeed does. *)
Definition pc (known : list json) (which : nat → string → option string)
    (run : nat → command → option Z → gmap string node →
           (exn + CompletedProcess) * gmap string node)
    (fetch : nat → string → download) : Host :=
  {| home := "C:\Users\me"; localappdata := "C:\Users\me\AppData\Local";
     tempdir := "C:\Temp"; which := which; run := run; fetch := fetch;
     unzip := λ _, inl (Exn OtherException "not a zip file");
     fd_isfile := λ _, false; stdout_encodes := λ _, true;
     rmtree_keeps := λ _ _ _ _, false;
     json_load := load known; json_dump := dump;
     stem := stem_of; dirname := dirname_of |}.

(** The same machine with its standard output sent to a file (descriptor 1
    is a file then) that takes the lines [encodes] accepts. *)
Definition redirected (encodes : string → bool) (h : Host) : Host :=
  {| home := home h; localappdata := localappdata h; tempdir := tempdir h;
     which := which h; run := run h; fetch := fetch h; unzip := unzip h;
     fd_isfile := λ n, n =? 1; stdout_encodes := encodes;
     rmtree_keeps := rmtree_keeps h;
     json_load := json_load h; json_dump := json_dump h;
     stem := stem h; dirname := dirname h |}.

Definition offline : nat → string → download :=
  λ _ _, Refused (Exn OtherException "no route to host").

(** A process start-up world on the file system [f]. *)
Definition boot (h : Host) (f : gmap string node) : World :=
  {| fs := f; calls := []; PYTHON_EXE := VStr (PYTHON_EXE_initial h); printed := [];
     queue := []; e_cell := None; self := SetupScreen_init; window := None |}.

Definition exits (code : Z) (out err : string) : exn + CompletedProcess :=
  inr {| returncode := code; stdout := out; stderr := err |}.

End Demo.

Module Lost_manim.
Import Demo.

Definition record : json :=
  JObj [("python_version", JStr "custom"); ("venv_dir", JStr "C:\Tools");
        ("python_exe", JStr "C:\Tools\Scripts\python.exe"); ("skipped_setup", JBool true)].

(** Every child process fails: Manim cannot be imported. *)
Definition h : Host :=
  pc [record] (λ _ _, None)
     (λ _ _ _ f, (exits 1 "" "ModuleNotFoundError: No module named 'manim'", f)) offline.

Definition w : World :=
  boot h (<[SETUP_MARKER h := File (dump record) false]>
          (<["C:\Tools\Scripts\python.exe" := File "MZ" false]> ∅)).

End Lost_manim.

Module Odd_exit.
Import Demo.

Definition python : string := "C:\Apps\Python\python.exe".

(** The interpreter on the search path prints its version and exits with
    status 1. *)
Definition h : Host :=
  pc [] (λ _ name, if String.eqb name "python" then Some python else None)
     (λ _ _ _ f, (exits 1 "Python 3.11.9" "", f)) offline.

Definition w : World := boot h (<[python := File "MZ" false]> ∅).

End Odd_exit.

Module Plain_machine.
Import Demo.
Definition h : Host := pc [] (λ _ _, None) (λ _ _ _ f, (exits 0 "" "", f)) offline.
Definition w : World := boot h ∅.
End Plain_machine.

Module Render_example.
Import Demo.

Definition svg : string := "C:\art\logo.svg".
Definition base : Host := pc [] (λ _ _, None) (λ _ _ _ f, (exits 0 "" "", f)) offline.
Definition record : json := install_record base (VStr (PYTHON_EXE_initial base)).
Definition video : string := output_path base svg.

(** The import probe prints ok; the renderer writes the video. *)
Definition h : Host :=
  pc [record] (λ _ _, None)
     (λ _ c _ f, match c with
                 | Shell _ => (exits 0 "" "", <[video := File "mp4" false]> f)
                 | Argv _ => (exits 0 ("ok" ++ nl) "", f)
                 end)
     offline.

Definition disk : gmap string node :=
  <[svg := File "<svg/>" false]>
    (<[SETUP_MARKER h := File (dump record) false]>
       (<[PYTHON_EXE_initial h := File "MZ" false]> ∅)).

Definition w : World := boot h disk.


End Render_example.

Module No_manim.
Import Demo.

Definition chosen : string := "C:\Python312\python.exe".

Definition trace : string :=
  "C:\Python312\Lib\site-packages\pkg_resources\__init__.py:2871: DeprecationWarning: "
  ++ "Deprecated call to pkg_resources.declare_namespace('google')." ++ nl
  ++ "Implementing implicit namespace packages (as specified in PEP 420) is preferred."
  ++ nl ++ "Traceback (most recent call last):" ++ nl
  ++ "  File <string>, line 1, in <module>" ++ nl
  ++ "ModuleNotFoundError: No module named 'manim'" ++ nl.

(** The chosen interpreter has no Manim: the probe prints a warning and a
    traceback and exits with status 1. *)
Definition h : Host := pc [] (λ _ _, None) (λ _ _ _ f, (exits 1 "" trace, f)) offline.

Definition w : World := boot h (<[chosen := File "MZ" false]> ∅).

End No_manim.

Module Bootstrap_example.
Import Demo.

Definition python : string := "C:\Python311\python.exe".
Definition base : Host := pc [] (λ _ _, None) (λ _ _ _ f, (exits 0 "" "", f)) offline.

Definition has (word : string) (args : list string) : bool :=
  existsb (String.eqb word) args.

(** The child processes of a bootstrap: the interpreter on the search path
    reports 3.11.9; creating the environment ends as [venv] says and, when
    it completes, leaves the interpreter of the environment on disk;
    installing Manim exits with [manim]; asking FFmpeg for its version ends
    as [ffmpeg] says; installing the fallback encoder exits with 1; every
    other command exits with 0. *)
Definition children (venv : exn + CompletedProcess) (manim : Z)
    (ffmpeg : exn + CompletedProcess) :
    nat → command → option Z → gmap string node →
    (exn + CompletedProcess) * gmap string node :=
  λ _ c _ f,
    match c with
    | Shell _ => (exits 0 "" "", f)
    | Argv args =>
        if has "--version" args then (exits 0 "Python 3.11.9" "", f)
        else if has "venv" args then
          (venv, if venv is inr _ then
                   <[venv_python base := File "MZ" false]> (<[VENV_DIR base := Dir]> f)
                 else f)
        else if has "manim" args then (exits manim "" "ERROR: No matching distribution", f)
        else if has "ffmpeg" args then (ffmpeg, f)
        else if has "imageio[ffmpeg]" args then (exits 1 "" "ERROR: no network", f)
        else (exits 0 "" "", f)
    end.

Definition machine_with (known : list json) (venv : exn + CompletedProcess) (manim : Z)
    (ffmpeg : exn + CompletedProcess) : Host :=
  pc known (λ _ name, if String.eqb name "python" then Some python else None)
     (children venv manim ffmpeg) offline.

Definition machine := machine_with [].

Definition disk : gmap string node := <[python := File "MZ" false]> ∅.

(** Installing Manim fails with exit status 1. *)
Definition h_manim : Host := machine (exits 0 "" "") 1 (exits 0 "" "").
Definition w_manim : World := boot h_manim disk.

(** Everything installs; there is no FFmpeg on the search path. *)
Definition h_bare : Host :=
  machine (exits 0 "" "") 0 (inl (Exn FileNotFoundError "ffmpeg")).
Definition w_bare : World := boot h_bare disk.

(** Everything installs; FFmpeg does not answer within its time limit. *)
Definition h_hung : Host :=
  machine (exits 0 "" "") 0 (inl (Exn TimeoutExpired "timed out after 10 seconds")).
Definition w_hung : World := boot h_hung disk.



(** Creating the environment runs into its time limit. *)
Definition h_slow : Host :=
  machine (inl (Exn TimeoutExpired "timed out after 120 seconds")) 0 (exits 0 "" "").
Definition w_slow : World := boot h_slow disk.

End Bootstrap_example.

(** * The widgets and the main window

    [round_rect], [ModernButton] and [QuickAnimationsApp].  A canvas is the
    list of the items drawn on it, oldest first; a widget is the record of
    what it shows. *)

(** The colour palette [C]. *)
Module C.

Definition bg : string := "#0f0f13".
Definition surface : string := "#1a1a24".
Definition surface2 : string := "#22222f".
Definition surface3 : string := "#2a2a3a".
Definition border : string := "#333346".
Definition border_hover : string := "#5555aa".
Definition accent : string := "#7c5cfc".
Definition accent_hover : string := "#9b80ff".
Definition accent_press : string := "#6344e0".
Definition success : string := "#3dd68c".
Definition error : string := "#ff5c6c".
Definition warning : string := "#ffb84d".
Definition text : string := "#e8e8f0".
Definition text_dim : string := "#8888a0".
Definition text_muted : string := "#55556a".

End C.

Module Widgets.

(** An item of a canvas. *)
Inductive item :=
| Polygon (points : list Z) (fill outline : string)    (* create_polygon, smooth *)
| Text (x y : Z) (text fill : string) (font_size : Z).         (* create_text *)

(** The coordinate list [round_rect] hands to [create_polygon]. *)
Definition round_rect (x1 y1 x2 y2 radius : Z) : list Z :=
  [ x1 + radius; y1;
    x2 - radius; y1;
    x2; y1; x2; y1 + radius;
    x2; y2 - radius;
    x2; y2; x2 - radius; y2;
    x1 + radius; y2;
    x1; y2; x1; y2 - radius;
    x1; y1 + radius;
    x1; y1; x1 + radius; y1 ].

(** The points of a flat coordinate list. *)
Fixpoint points_of (l : list Z) : list (Z * Z) :=
  match l with
  | x :: y :: rest => (x, y) :: points_of rest
  | _ => []
  end.

(** [x or default] on an optional text: [None] and the empty text are
    false. *)
Definition or_else (x : option string) (default : string) : string :=
  match x with
  | Some s => if String.eqb s "" then default else s
  | None => default
  end.

(** [ModernButton]; [A] is what [command] may be bound to. *)
Record ModernButton (A : Type) := {
  command : option A;
  w : Z;
  h : Z;
  radius : Z;
  bg_color : string;
  fg_color : string;
  hover_color : string;
  press_color : string;
  label_text : string;
  font_size : Z;
  _disabled : bool;
  items : list item;                               (* what the canvas holds *)
  cursor : string;                         (* the cursor option of the canvas *)
}.
Arguments command {A} _.
Arguments w {A} _.
Arguments h {A} _.
Arguments radius {A} _.
Arguments bg_color {A} _.
Arguments fg_color {A} _.
Arguments hover_color {A} _.
Arguments press_color {A} _.
Arguments label_text {A} _.
Arguments font_size {A} _.
Arguments _disabled {A} _.
Arguments items {A} _.
Arguments cursor {A} _.

Section Button.

Context {A : Type}.

Definition with_fg_color (x : string) (b : ModernButton A) : ModernButton A :=
  {| command := command b; w := w b; h := h b; radius := radius b;
     bg_color := bg_color b; fg_color := x; hover_color := hover_color b;
     press_color := press_color b; label_text := label_text b;
     font_size := font_size b; _disabled := _disabled b; items := items b;
     cursor := cursor b |}.
Definition with_disabled (x : bool) (b : ModernButton A) : ModernButton A :=
  {| command := command b; w := w b; h := h b; radius := radius b;
     bg_color := bg_color b; fg_color := fg_color b; hover_color := hover_color b;
     press_color := press_color b; label_text := label_text b;
     font_size := font_size b; _disabled := x; items := items b;
     cursor := cursor b |}.
Definition with_items (x : list item) (b : ModernButton A) : ModernButton A :=
  {| command := command b; w := w b; h := h b; radius := radius b;
     bg_color := bg_color b; fg_color := fg_color b; hover_color := hover_color b;
     press_color := press_color b; label_text := label_text b;
     font_size := font_size b; _disabled := _disabled b; items := x;
     cursor := cursor b |}.
Definition with_cursor (x : string) (b : ModernButton A) : ModernButton A :=
  {| command := command b; w := w b; h := h b; radius := radius b;
     bg_color := bg_color b; fg_color := fg_color b; hover_color := hover_color b;
     press_color := press_color b; label_text := label_text b;
     font_size := font_size b; _disabled := _disabled b; items := items b;
     cursor := x |}.

(** [_draw(color)]: the canvas is cleared, then holds the rounded body and
    the label. *)
Definition _draw (color : string) (b : ModernButton A) : ModernButton A :=
  with_items
    [ Polygon (round_rect 2 2 (w b - 2) (h b - 2) (radius b)) color "";
      Text (w b / 2) (h b / 2) (label_text b) (fg_color b) (font_size b) ]
    b.

(** [ModernButton(parent, text, icon, command, width, height, bg, fg,
    hover_bg, font_size, corner_radius)]; a new canvas has the empty
    cursor. *)
Definition ModernButton_init (text icon : string) (command : option A) (width height : Z)
    (bg fg hover_bg : option string) (font_size corner_radius : Z) : ModernButton A :=
  _draw (or_else bg C.accent)
    {| command := command; w := width; h := height; radius := corner_radius;
       bg_color := or_else bg C.accent; fg_color := or_else fg "#ffffff";
       hover_color := or_else hover_bg C.accent_hover; press_color := C.accent_press;
       label_text := if String.eqb icon "" then text else icon ++ "  " ++ text;
       font_size := font_size; _disabled := false; items := []; cursor := "" |}.

Definition set_disabled (disabled : bool) (b : ModernButton A) : ModernButton A :=
  let b := with_disabled disabled b in
  if disabled then _draw C.surface3 (with_fg_color C.text_muted b)
  else let b := with_fg_color "#ffffff" b in _draw (bg_color b) b.

End Button.

(** The four events the constructor binds. *)
Inductive event := Enter | Leave | ButtonPress_1 | ButtonRelease_1.


(** The handlers of the events.  The button is an object of the program:
    [S] is the state of the program, [button] reads the button in it and
    [set_button] puts it back; [call c] is what the program does when the
    function the command [c] stands for is called, to the button as well as
    to everything else. *)
Section Handlers.

Context {A S : Type}.
Variable button : S → ModernButton A.
Variable set_button : ModernButton A → S → S.
Variable call : A → S → result unit * S.

Definition _on_enter (s : S) : S :=
  let b := button s in
  if negb (_disabled b) then set_button (with_cursor "hand2" (_draw (hover_color b) b)) s
  else s.

Definition _on_leave (s : S) : S :=
  let b := button s in
  if negb (_disabled b) then set_button (with_cursor "" (_draw (bg_color b) b)) s
  else s.

Definition _on_press (s : S) : S :=
  let b := button s in
  if negb (_disabled b) then set_button (_draw (press_color b) b) s else s.

(** [_on_release] redraws the button and then calls the command. *)
Definition _on_release (s : S) : result unit * S :=
  let b := button s in
  if negb (_disabled b) then
    let s := set_button (_draw (hover_color b) b) s in
    match command b with
    | Some c => call c s
    | None => (Ok tt, s)
    end
  else (Ok tt, s).

Definition handle (ev : event) (s : S) : result unit * S :=
  match ev with
  | Enter => (Ok tt, _on_enter s)
  | Leave => (Ok tt, _on_leave s)
  | ButtonPress_1 => (Ok tt, _on_press s)
  | ButtonRelease_1 => _on_release s
  end.


End Handlers.

End Widgets.

Module Gui.

(** What the render button is bound to: [self._start_render]. *)
Inductive bound := call_start_render.

(** The [QuickAnimationsApp] object: its variables and what its widgets
    show.  The progress bar is kept as for the wizard. *)
Record QuickAnimationsApp := {
  svg_path : string;                                         (* tk.StringVar *)
  status_text : string;                                      (* tk.StringVar *)
  is_processing : bool;
  res_var : string;
  fps_var : string;
  status_dot : string;                           (* the colour of the dot *)
  drop_highlight : string;           (* highlightbackground of drop_frame *)
  drop_cursor : string;             (* cursor of the four drop-zone widgets *)
  drop_icon : string;
  drop_label : string * string;                              (* text and fg *)
  file_label : string;
  render_btn : Widgets.ModernButton bound;
  progress_animating : bool;                   (* GlowProgressBar._animating *)
  progress : Z;                                 (* GlowProgressBar._progress *)
  toasts : list (string * string);   (* open toasts: message and file name *)
}.

Definition set_svg_path (x : string) (a : QuickAnimationsApp) : QuickAnimationsApp :=
  {| svg_path := x; status_text := status_text a; is_processing := is_processing a;
     res_var := res_var a; fps_var := fps_var a; status_dot := status_dot a;
     drop_highlight := drop_highlight a; drop_cursor := drop_cursor a;
     drop_icon := drop_icon a; drop_label := drop_label a; file_label := file_label a;
     render_btn := render_btn a; progress_animating := progress_animating a;
     progress := progress a; toasts := toasts a |}.
Definition set_status_text (x : string) (a : QuickAnimationsApp) : QuickAnimationsApp :=
  {| svg_path := svg_path a; status_text := x; is_processing := is_processing a;
     res_var := res_var a; fps_var := fps_var a; status_dot := status_dot a;
     drop_highlight := drop_highlight a; drop_cursor := drop_cursor a;
     drop_icon := drop_icon a; drop_label := drop_label a; file_label := file_label a;
     render_btn := render_btn a; progress_animating := progress_animating a;
     progress := progress a; toasts := toasts a |}.
Definition set_is_processing (x : bool) (a : QuickAnimationsApp) : QuickAnimationsApp :=
  {| svg_path := svg_path a; status_text := status_text a; is_processing := x;
     res_var := res_var a; fps_var := fps_var a; status_dot := status_dot a;
     drop_highlight := drop_highlight a; drop_cursor := drop_cursor a;
     drop_icon := drop_icon a; drop_label := drop_label a; file_label := file_label a;
     render_btn := render_btn a; progress_animating := progress_animating a;
     progress := progress a; toasts := toasts a |}.
Definition set_status_dot (x : string) (a : QuickAnimationsApp) : QuickAnimationsApp :=
  {| svg_path := svg_path a; status_text := status_text a; is_processing := is_processing a;
     res_var := res_var a; fps_var := fps_var a; status_dot := x;
     drop_highlight := drop_highlight a; drop_cursor := drop_cursor a;
     drop_icon := drop_icon a; drop_label := drop_label a; file_label := file_label a;
     render_btn := render_btn a; progress_animating := progress_animating a;
     progress := progress a; toasts := toasts a |}.
Definition set_drop_highlight (x : string) (a : QuickAnimationsApp) : QuickAnimationsApp :=
  {| svg_path := svg_path a; status_text := status_text a; is_processing := is_processing a;
     res_var := res_var a; fps_var := fps_var a; status_dot := status_dot a;
     drop_highlight := x; drop_cursor := drop_cursor a;
     drop_icon := drop_icon a; drop_label := drop_label a; file_label := file_label a;
     render_btn := render_btn a; progress_animating := progress_animating a;
     progress := progress a; toasts := toasts a |}.
Definition set_drop_cursor (x : string) (a : QuickAnimationsApp) : QuickAnimationsApp :=
  {| svg_path := svg_path a; status_text := status_text a; is_processing := is_processing a;
     res_var := res_var a; fps_var := fps_var a; status_dot := status_dot a;
     drop_highlight := drop_highlight a; drop_cursor := x;
     drop_icon := drop_icon a; drop_label := drop_label a; file_label := file_label a;
     render_btn := render_btn a; progress_animating := progress_animating a;
     progress := progress a; toasts := toasts a |}.
Definition set_drop_icon (x : string) (a : QuickAnimationsApp) : QuickAnimationsApp :=
  {| svg_path := svg_path a; status_text := status_text a; is_processing := is_processing a;
     res_var := res_var a; fps_var := fps_var a; status_dot := status_dot a;
     drop_highlight := drop_highlight a; drop_cursor := drop_cursor a;
     drop_icon := x; drop_label := drop_label a; file_label := file_label a;
     render_btn := render_btn a; progress_animating := progress_animating a;
     progress := progress a; toasts := toasts a |}.
Definition set_drop_label (x : string * string) (a : QuickAnimationsApp) : QuickAnimationsApp :=
  {| svg_path := svg_path a; status_text := status_text a; is_processing := is_processing a;
     res_var := res_var a; fps_var := fps_var a; status_dot := status_dot a;
     drop_highlight := drop_highlight a; drop_cursor := drop_cursor a;
     drop_icon := drop_icon a; drop_label := x; file_label := file_label a;
     render_btn := render_btn a; progress_animating := progress_animating a;
     progress := progress a; toasts := toasts a |}.
Definition set_file_label (x : string) (a : QuickAnimationsApp) : QuickAnimationsApp :=
  {| svg_path := svg_path a; status_text := status_text a; is_processing := is_processing a;
     res_var := res_var a; fps_var := fps_var a; status_dot := status_dot a;
     drop_highlight := drop_highlight a; drop_cursor := drop_cursor a;
     drop_icon := drop_icon a; drop_label := drop_label a; file_label := x;
     render_btn := render_btn a; progress_animating := progress_animating a;
     progress := progress a; toasts := toasts a |}.
Definition set_render_btn (x : Widgets.ModernButton bound) (a : QuickAnimationsApp) : QuickAnimationsApp :=
  {| svg_path := svg_path a; status_text := status_text a; is_processing := is_processing a;
     res_var := res_var a; fps_var := fps_var a; status_dot := status_dot a;
     drop_highlight := drop_highlight a; drop_cursor := drop_cursor a;
     drop_icon := drop_icon a; drop_label := drop_label a; file_label := file_label a;
     render_btn := x; progress_animating := progress_animating a;
     progress := progress a; toasts := toasts a |}.
Definition set_progress_animating (x : bool) (a : QuickAnimationsApp) : QuickAnimationsApp :=
  {| svg_path := svg_path a; status_text := status_text a; is_processing := is_processing a;
     res_var := res_var a; fps_var := fps_var a; status_dot := status_dot a;
     drop_highlight := drop_highlight a; drop_cursor := drop_cursor a;
     drop_icon := drop_icon a; drop_label := drop_label a; file_label := file_label a;
     render_btn := render_btn a; progress_animating := x;
     progress := progress a; toasts := toasts a |}.
(** [GlowProgressBar.set_progress]: the value is clamped to 0..1. *)
Definition set_progress (v : Z) (a : QuickAnimationsApp) : QuickAnimationsApp :=
  {| svg_path := svg_path a; status_text := status_text a; is_processing := is_processing a;
     res_var := res_var a; fps_var := fps_var a; status_dot := status_dot a;
     drop_highlight := drop_highlight a; drop_cursor := drop_cursor a;
     drop_icon := drop_icon a; drop_label := drop_label a; file_label := file_label a;
     render_btn := render_btn a; progress_animating := progress_animating a;
     progress := Z.max 0 (Z.min 1 v); toasts := toasts a |}.
Definition set_toasts (x : list (string * string)) (a : QuickAnimationsApp) : QuickAnimationsApp :=
  {| svg_path := svg_path a; status_text := status_text a; is_processing := is_processing a;
     res_var := res_var a; fps_var := fps_var a; status_dot := status_dot a;
     drop_highlight := drop_highlight a; drop_cursor := drop_cursor a;
     drop_icon := drop_icon a; drop_label := drop_label a; file_label := file_label a;
     render_btn := render_btn a; progress_animating := progress_animating a;
     progress := progress a; toasts := x |}.

(** [QuickAnimationsApp.__init__] and [_build_ui]. *)
Definition QuickAnimationsApp_init : QuickAnimationsApp :=
  {| svg_path := "";
     status_text := "Bir SVG dosyası seçerek başlayın";
     is_processing := false;
     res_var := "3840x2160 (4K)";
     fps_var := "60";
     status_dot := C.text_muted;
     drop_highlight := C.border;
     drop_cursor := "";
     drop_icon := "📂";
     drop_label := ("SVG dosyası seçmek için tıklayın", C.text_dim);
     file_label := "";
     render_btn := Widgets.ModernButton_init "Animasyonu Oluştur" "▶" (Some call_start_render)
                     504 48 None None None 12 12;
     progress_animating := false;
     progress := 0;
     toasts := [] |}.

(** The functions the main window hands to [root.after]. *)
Inductive callback :=
| cb_set_status (text : string) (dot_color : option string)
| cb_on_render_success (output_path : string)
| cb_on_render_error (error_msg : string)
| cb_on_render_error_str_e   (* lambda: self._on_render_error(str(e)), e read late *)
| cb_toast_destroy.

(** The process with the main window in it: the world, the application
    object, the pending callbacks of the main loop, and the variable [e] of
    [_render_worker]. *)
Record State := {
  world : World;
  app : QuickAnimationsApp;
  after : list callback;
  e_var : option exn;
}.

Definition with_world (x : World) (g : State) : State :=
  {| world := x; app := app g; after := after g; e_var := e_var g |}.
Definition with_app (x : QuickAnimationsApp) (g : State) : State :=
  {| world := world g; app := x; after := after g; e_var := e_var g |}.
Definition with_after (x : list callback) (g : State) : State :=
  {| world := world g; app := app g; after := x; e_var := e_var g |}.
Definition with_e_var (x : option exn) (g : State) : State :=
  {| world := world g; app := app g; after := after g; e_var := x |}.

(** State and exceptions, over [State]. *)
Definition G (A : Type) : Type := State → result A * State.

Definition ret {A} (a : A) : G A := λ g, (Ok a, g).
Definition bind {A B} (m : G A) (k : A → G B) : G B :=
  λ g, match m g with
       | (Ok a, g') => k a g'
       | (Raise e, g') => (Raise e, g')
       end.
Definition try_except {A} (body : G A) (catches : exn → bool) (handler : exn → G A) : G A :=
  λ g, match body g with
       | (Ok a, g') => (Ok a, g')
       | (Raise e, g') => if catches e then handler e g' else (Raise e, g')
       end.
Definition raise {A} (e : exn) : G A := λ g, (Raise e, g).
Definition get : G State := λ g, (Ok g, g).
Definition modify (f : State → State) : G unit := λ g, (Ok tt, f g).

(** A step of the program of the wizard part, run on the world. *)
Definition lift {A} (m : M A) : G A :=
  λ g, let '(r, w') := m (world g) in (r, with_world w' g).

Declare Scope G_scope.
Delimit Scope G_scope with G.
Notation "x <- m ;; k" := (bind m (λ x, k))
  (at level 100, m at next level, k at level 200, right associativity) : G_scope.
Notation "m ;; k" := (bind m (λ _, k))
  (at level 100, k at level 200, right associativity, only parsing) : G_scope.
Bind Scope G_scope with G.
Local Open Scope G_scope.

Definition on_app (f : QuickAnimationsApp → QuickAnimationsApp) : G unit :=
  modify (λ g, with_app (f (app g)) g).

Definition root_after (cb : callback) : G unit :=
  modify (λ g, with_after (after g ++ [cb]) g).

Section Main_window.

Variable h : Host.
(** [Path(p).name] *)
Variable Path_name : string → string.

Definition _draw_dot (color : string) : G unit := on_app (set_status_dot color).

Definition _drop_hover (entering : bool) : G unit :=
  if entering then
    on_app (set_drop_highlight C.border_hover);; on_app (set_drop_cursor "hand2")
  else
    on_app (set_drop_highlight C.border);; on_app (set_drop_cursor "").

Definition _set_status (text : string) (dot_color : option string) : G unit :=
  on_app (set_status_text text);;
  match dot_color with
  | Some color => if String.eqb color "" then ret tt else _draw_dot color
  | None => ret tt
  end.

(** [_browse_file], with the answer of the file dialog as argument (the
    empty string when the user cancels). *)
Definition _browse_file (path : string) : G unit :=
  g <- get;;
  if is_processing (app g) then ret tt else
  if String.eqb path "" then ret tt else
  on_app (set_svg_path path);;
  let name := Path_name path in
  on_app (set_drop_icon "✅");;
  on_app (set_drop_label (name, C.text));;
  on_app (set_file_label path);;
  _set_status "Hazır — Oluştur butonuna basın" (Some C.success).

Definition _parse_resolution (self : QuickAnimationsApp) : string :=
  let val := res_var self in
  if Str.contains "3840" val then "3840,2160"
  else if Str.contains "2560" val then "2560,1440"
  else "1920,1080".

(** [s[-n:]] for a positive [n]: the last [n] characters. *)
Definition last_chars (n : nat) (s : string) : string :=
  Str.drop (Str.len s - n) s.

(** The command line of the render, for the menu values [resolution] and
    [fps]. *)
Definition render_command (python_exe svg_path resolution fps : string) : command :=
  Shell (Str.dq ++ python_exe ++ Str.dq ++ " -m manim " ++ Str.dq ++ script_path h ++ Str.dq
         ++ " LogoAnimation " ++ "-r " ++ resolution ++ " -f " ++ fps
         ++ " --renderer=cairo --write_to_movie "
         ++ "--output_file " ++ Str.dq ++ output_path h svg_path ++ Str.dq).

(** The thread body [_render_worker].  Python unbinds [e] when the [except]
    clause ends; the queued lambda reads it when it runs. *)
Definition _render_worker (svg_path : string) : G unit :=
  try_except
    (g <- get;;
     let resolution := _parse_resolution (app g) in
     let fps := fps_var (app g) in
     lift (remove_script h);;
     lift (write_file (script_path h) (python_code h svg_path));;
     root_after (cb_set_status "Manim render ediliyor… bu biraz sürebilir" (Some C.accent));;
     g <- get;;
     result <- lift (subprocess_run h
                       (render_command (py_str (PYTHON_EXE (world g))) svg_path resolution fps)
                       None);;
     lift (remove_script h);;
     made <- lift (os_path_isfile (output_path h svg_path));;
     if made then root_after (cb_on_render_success (output_path h svg_path))
     else
       let err := if String.eqb (stderr result) "" then "Bilinmeyen hata"
                  else last_chars 300 (stderr result) in
       root_after (cb_on_render_error err))
    Exception
    (λ e, modify (with_e_var (Some e));;
          root_after cb_on_render_error_str_e;;
          modify (with_e_var None)).

Definition _start_render : G unit :=
  g <- get;;
  let svg := svg_path (app g) in
  invalid <- (if String.eqb svg "" then ret true
              else present <- lift (os_path_isfile svg);; ret (negb present));;
  if invalid then
    _set_status "⚠  Lütfen geçerli bir SVG dosyası seçin" (Some C.warning)
  else
  if is_processing (app g) then ret tt else
  on_app (set_is_processing true);;
  on_app (λ a, set_render_btn (Widgets.set_disabled true (render_btn a)) a);;
  _set_status "Render başlatılıyor…" (Some C.accent);;
  on_app (set_progress_animating true);;
  _render_worker svg.

(** The toast: its message and the name of the file; it is closed by a
    timer. *)
Definition _show_toast (message file_path : string) : G unit :=
  on_app (λ a, set_toasts (toasts a ++ [("✅  " ++ message, Path_name file_path)]) a);;
  root_after cb_toast_destroy.

Definition _on_render_success (output_path : string) : G unit :=
  on_app (set_progress_animating false);;
  on_app (set_progress 1);;
  on_app (set_is_processing false);;
  on_app (λ a, set_render_btn (Widgets.set_disabled false (render_btn a)) a);;
  _set_status ("✓  Tamamlandı — " ++ Path_name output_path) (Some C.success);;
  _show_toast "Animasyon başarıyla oluşturuldu!" output_path.

Definition _on_render_error (error_msg : string) : G unit :=
  on_app (set_progress_animating false);;
  on_app (set_progress 0);;
  on_app (set_is_processing false);;
  on_app (λ a, set_render_btn (Widgets.set_disabled false (render_btn a)) a);;
  _set_status "✗  Render başarısız oldu" (Some C.error).

(** What the main loop does with one queued callback; an exception raised
    inside a callback is reported by Tk and dropped. *)
Definition run_callback (cb : callback) : G unit :=
  match cb with
  | cb_set_status text dot_color => _set_status text dot_color
  | cb_on_render_success output_path => _on_render_success output_path
  | cb_on_render_error error_msg => _on_render_error error_msg
  | cb_on_render_error_str_e =>
      g <- get;;
      match e_var g with
      | Some e => _on_render_error (exn_str e)
      | None => raise (Exn NameError "e")
      end
  | cb_toast_destroy => on_app (λ a, set_toasts (tail (toasts a)) a)
  end.

(** The main loop takes the callbacks in order until none is left. *)
Fixpoint drain (fuel : nat) (g : State) : State :=
  match fuel, after g with
  | S fuel', cb :: rest => drain fuel' (run_callback cb (with_after rest g)).2
  | _, _ => g
  end.

(** A callback queues at most one more, which queues none. *)
Definition mainloop (g : State) : State := drain (2 * length (after g)) g.

(** What can happen in the window: a pointer event on the render button, a
    click on the drop zone (with the answer of the file dialog), the pointer
    entering or leaving the drop zone, and the main loop taking the oldest
    pending callback. *)
Inductive event :=
| On_render_btn (ev : Widgets.event)
| On_drop_click (chosen : string)
| On_drop_enter
| On_drop_leave
| Next_callback.

(** The render button in the process, and what its command calls. *)
Definition the_render_btn (g : State) : Widgets.ModernButton bound := render_btn (app g).
Definition put_render_btn (b : Widgets.ModernButton bound) (g : State) : State :=
  with_app (set_render_btn b (app g)) g.
Definition call (c : bound) : G unit :=
  match c with call_start_render => _start_render end.

Definition dispatch (ev : event) : G unit :=
  match ev with
  | On_render_btn ev => Widgets.handle the_render_btn put_render_btn call ev
  | On_drop_click chosen => _browse_file chosen
  | On_drop_enter => _drop_hover true
  | On_drop_leave => _drop_hover false
  | Next_callback =>
      g <- get;;
      match after g with
      | cb :: rest =>
          modify (with_after rest);;
          try_except (run_callback cb) Exception (λ _, ret tt)
      | [] => ret tt
      end
  end.

End Main_window.

(** The callbacks that run a handler that ends the render, and those that
    only set the status. *)
Definition ends_render (cb : callback) : bool :=
  match cb with
  | cb_on_render_success _ | cb_on_render_error _ => true
  | _ => false
  end.

Definition sets_status (cb : callback) : bool :=
  match cb with cb_set_status _ _ => true | _ => false end.

End Gui.

(** ** The end of a bootstrap *)

(** The wizard as [_start_install] leaves it for the worker. *)
Definition started (w : World) : World :=
  with_self (set_animating true (set_skip_btn true (set_install_btn true
               (set_installing true (self w))))) w.

(** Once the callbacks [qs] have run, the wizard shows a failure: the install
    button is enabled, the bar is at rest and empty, and the status line
    starts with the cross. *)
Definition shows_failure (qs : list callback) : Prop :=
  ∀ cell s,
    install_btn_disabled (replay cell qs s) = false
    ∧ progress_animating (replay cell qs s) = false
    ∧ progress (replay cell qs s) = 0
    ∧ ∃ msg, status_var (replay cell qs s) = "❌  " ++ msg.

(** ** A main window to run *)

Module Window_example.

(** The text after the last backslash. *)
Definition name_of (p : string) : string := List.last (Str.split "\" p) "".

(** The main window on the machine of [Render_example], the SVG file
    selected. *)
Definition g : Gui.State :=
  {| Gui.world := Render_example.w;
     Gui.app := Gui.set_svg_path Render_example.svg Gui.QuickAnimationsApp_init;
     Gui.after := []; Gui.e_var := None |}.

(** The same window while a render is being processed. *)
Definition g_busy : Gui.State :=
  Gui.with_app
    (Gui.set_render_btn (Widgets.set_disabled true (Gui.render_btn (Gui.app g)))
       (Gui.set_is_processing true (Gui.app g))) g.

End Window_example.

(** ** A download that breaks off *)

Module Download_example.

Definition url : string := "https://bootstrap.pypa.io/get-pip.py".
Definition dest : string := "C:\Users\me\.quickanimations\get-pip.py".

(** The connection is reset after the first bytes. *)
Definition h : Host :=
  Demo.pc [] (λ _ _, None) (λ _ _ _ f, (Demo.exits 0 "" "", f))
    (λ _ _, Broken 0 [] "#!/usr/bin/env python" (Exn OtherException "connection reset")).

Definition w : World := Demo.boot h ∅.



End Download_example.

(** ** An environment created without pip *)

Module Pip_example.

(** Asking pip for its version fails; every other command exits with 0; the
    installer script, of 21 bytes, downloads. *)
Definition h : Host :=
  Demo.pc [] (λ _ _, None)
    (λ _ c _ f,
       match c with
       | Argv args =>
           if Bootstrap_example.has "--version" args
           then (Demo.exits 1 "" "No module named pip", f)
           else (Demo.exits 0 "" "", f)
       | Shell _ => (Demo.exits 0 "" "", f)
       end)
    (λ _ _, Ended 21 ["İndiriliyor… 0.0 / 0.0 MB (100%)"] "#!/usr/bin/env python").

Definition w : World := Demo.boot h ∅.

End Pip_example.

(** ** Notions for the further properties *)

(** The render button is disabled exactly while a render is being
    processed. *)
Definition button_tracks_processing (g : Gui.State) : Prop :=
  Widgets._disabled (Gui.render_btn (Gui.app g)) = Gui.is_processing (Gui.app g).

(** The commands and the path of step 3. *)
Definition pip_version (h : Host) : command := Argv [venv_python h; "-m"; "pip"; "--version"].
Definition pip_upgrade (h : Host) : command :=
  Argv [venv_python h; "-m"; "pip"; "install"; "--upgrade"; "pip"].
Definition get_pip_path (h : Host) : string := path_join (APP_DIR h) "get-pip.py".
Definition run_get_pip (h : Host) : command := Argv [venv_python h; get_pip_path h].

(** ** How a step of the bootstrap fails, by what the machine answers *)

(** A step fails by the test the worker makes after it, or by raising. *)
Inductive failure := by_test | by_exception (e : exn).

(** A child process whose exit status the worker tests: it fails the test
    with a status other than 0, and it may raise (a time-out, a program that
    cannot be started). *)
Definition child_failure (o : exn + CompletedProcess) : option failure :=
  match o with
  | inl e => Some (by_exception e)
  | inr cp => if returncode cp =? 0 then None else Some by_test
  end.

(** A child process whose exit status the worker ignores. *)
Definition child_raises (o : exn + CompletedProcess) : option failure :=
  match o with inl e => Some (by_exception e) | inr _ => None end.

(** Step 2: the environment creation, started on what the removal of an
    earlier environment left. *)
Definition venv_start (h : Host) (w : World) : gmap string node :=
  if is_dir (fs w) (VENV_DIR h) then rmtree_fs h true (VENV_DIR h) (fs w) else fs w.

Definition venv_failure (h : Host) (p : string) (w : World) : option failure :=
  child_failure (run h (length (calls w)) (venv_command h p) (Some 120) (venv_start h w)).1.

(** Step 4: the installation of the library. *)
Definition manim_install (h : Host) : command :=
  Argv [venv_python h; "-m"; "pip"; "install"; "manim"].

Definition manim_failure (h : Host) (w : World) : option failure :=
  child_failure (run h (length (calls w)) (manim_install h) (Some 600) (fs w)).1.

(** The exception [_download_file] makes of the exception [e]. *)
Definition download_error (e : exn) : exn :=
  Exn RuntimeError ("İndirme hatası: " ++ exn_str e).

(** Step 3: the version query of pip; when it exits with another status
    than 0, the download of get-pip.py and its run, whose exit status is the
    test of the step; then the upgrade of pip, whose exit status is
    ignored. *)
Definition pip_failure (h : Host) (w : World) : option failure :=
  let n := length (calls w) in
  let dest := get_pip_path h in
  match run h n (pip_version h) (Some 30) (fs w) with
  | (inl e, _) => Some (by_exception e)
  | (inr cp1, f1) =>
      if returncode cp1 =? 0 then child_raises (run h (S n) (pip_upgrade h) (Some 120) f1).1
      else
        match fetch h (S n) GET_PIP_URL with
        | Refused e => Some (by_exception (download_error e))
        | Broken _ _ _ e =>
            Some (by_exception
                    (download_error (if free f1 dest then e else Exn PermissionError dest)))
        | Ended _ _ received =>
            if free f1 dest then
              match run h (S (S n)) (run_get_pip h) (Some 120)
                      (<[dest := File received false]> f1) with
              | (inl e, _) => Some (by_exception e)
              | (inr cp2, f2) =>
                  if returncode cp2 =? 0 then
                    child_raises (run h (S (S (S n))) (pip_upgrade h) (Some 120)
                                    (if free f2 dest then delete dest f2 else f2)).1
                  else Some by_test
              end
            else Some (by_exception (download_error (Exn PermissionError dest)))
        end
  end.

(** Step 1 fails when the locator finds no interpreter and the download
    fallback answers with none; it never raises. *)
Definition python_failure (h : Host) (w : World) : option failure :=
  let w1 := (_update_status "Python interpreter aranıyor…" (Some (k_python, active)) w).2 in
  match find_system_python h w1 with
  | (Ok None, w2) =>
      let w3 := (_update_status
                   ("Python " ++ PYTHON_VERSION ++ " indiriliyor… (bu biraz sürebilir)")
                   (Some (k_python, active)) w2).2 in
      match (_download_python h w3).1 with
      | Ok None => Some by_test
      | _ => None
      end
  | _ => None
  end.


(** The run from [w] arrives at step [k] in the world [wk]: the machine has
    let every earlier step pass; [p] is the base interpreter of step 1. *)
Inductive arrives (h : Host) (w : World) : check_key → string → World → Prop :=
| arrives_venv w0 p :
    os_makedirs (APP_DIR h) w = (Ok tt, w0) →
    (step_python h w0).1 = Ok (Some p) →
    arrives h w k_venv p (step_python h w0).2
| arrives_pip p w1 :
    arrives h w k_venv p w1 → venv_failure h p w1 = None →
    arrives h w k_pip p (step_venv h p w1).2
| arrives_manim p w2 :
    arrives h w k_pip p w2 → pip_failure h w2 = None →
    arrives h w k_manim p (step_pip h w2).2
| arrives_ffmpeg p w3 :
    arrives h w k_manim p w3 → manim_failure h w3 = None →
    arrives h w k_ffmpeg p (step_manim h w3).2.

(** The run from [w] fails at step [k] in the way [how], the step leaving
    the world [wk]. *)
Inductive fails_at (h : Host) (w : World) : check_key → failure → World → Prop :=
| fails_python w0 how :
    os_makedirs (APP_DIR h) w = (Ok tt, w0) →
    python_failure h w0 = Some how →
    fails_at h w k_python how (step_python h w0).2
| fails_venv p w1 how :
    arrives h w k_venv p w1 → venv_failure h p w1 = Some how →
    fails_at h w k_venv how (step_venv h p w1).2
| fails_pip p w2 how :
    arrives h w k_pip p w2 → pip_failure h w2 = Some how →
    fails_at h w k_pip how (step_pip h w2).2
| fails_manim p w3 how :
    arrives h w k_manim p w3 → manim_failure h w3 = Some how →
    fails_at h w k_manim how (step_manim h w3).2.

(** ** A standard output that lacks a character *)

Module Redirected.

(** A code page without the dotless i (1252, for one). *)
Definition encodes (line : string) : bool := negb (Str.contains "ı" line).

(** The plain machine with its output sent to a file in that code page. *)
Definition h : Host := Demo.redirected encodes Plain_machine.h.
Definition w : World := Demo.boot h ∅.

(** The machine of [Render_example] with a marker whose [python_exe] is the
    number 1, and with the output sent to a file. *)
Definition record : json :=
  JObj [("python_version", JStr "3.11.9"); ("venv_dir", JStr "C:\Users\me\.quickanimations\venv");
        ("python_exe", JNum 1)].

Definition h_fd : Host :=
  Demo.redirected (λ _, true)
    (Demo.pc [record] (λ _ _, None)
       (λ _ _ _ f, (Demo.exits 0 ("ok" ++ nl) "", f)) Demo.offline).

Definition w_fd : World :=
  Demo.boot h_fd (<[SETUP_MARKER h_fd := File (Demo.dump record) false]>
                    (<[PYTHON_EXE_initial h_fd := File "MZ" false]> ∅)).

End Redirected.

(** * Properties *)

(** ** Reasoning about monadic code *)

Lemma with_PYTHON_EXE_same (w : World) : with_PYTHON_EXE (PYTHON_EXE w) w = w.
Proof. by destruct w. Qed.

Lemma result_eta {A B} (p : A * B) (a : A) : p.1 = a → p = (a, p.2).
Proof. intros <-. by destruct p. Defined.

Ltac unfold_M :=
  unfold when, on_self, root_after, print, os_path_isfile, os_path_isdir in *;
  unfold bind, ret, raise, try_except, get, modify in *.

(** ** The setup check *)

Lemma adopt_effect (h : Host) (v : value) (w : World) :
  adopt h v w = (Ok tt, if names_file h (fs w) v then with_PYTHON_EXE v w else w).
Proof.
  unfold adopt, isfile_value, names_file. unfold_M.
  destruct v as [p|n|b]; simpl; by destruct (_ : bool).
Qed.

Lemma load_saved_exe_effect (h : Host) (w : World) :
  try_except (load_saved_exe h) Exception (λ _, ret tt) w
  = (Ok tt, with_PYTHON_EXE (effective_exe h w) w).
Proof.
  unfold load_saved_exe, effective_exe, saved_exe, read_file.
  unfold try_except, bind, get, raise, ret.
  destruct (fs w !! SETUP_MARKER h) as [[text b|]|]; simpl;
    rewrite ?with_PYTHON_EXE_same; try done.
  destruct (json_load h text) as [[| | | | |?|members]|]; simpl;
    rewrite ?with_PYTHON_EXE_same; try done.
  destruct (assoc "python_exe" members) as [[| | | | | |]|]; simpl;
    rewrite ?adopt_effect; rewrite ?with_PYTHON_EXE_same; try done.
  all: unfold names_file; destruct (_ : bool); by rewrite ?with_PYTHON_EXE_same.
Qed.

Lemma is_setup_complete_unfold (h : Host) (w : World) :
  is_setup_complete h w =
  if negb (is_file (fs w) (SETUP_MARKER h)) then (Ok false, w) else
  let exe := effective_exe h w in
  let w1 := with_PYTHON_EXE exe w in
  if negb (names_file h (fs w) exe) then (Ok false, w1) else
  match exe with
  | VStr python =>
      let '(r, f') := run h (length (calls w)) (import_manim python) (Some 15) (fs w) in
      let w2 := with_fs f' (with_calls (calls w ++ [Ran (import_manim python) (Some 15) (fs w)])
                              w1) in
      match r with
      | inl _ => (Ok false, w2)
      | inr cp => (Ok (String.eqb (Str.strip (stdout cp)) "ok"), w2)
      end
  | _ => (Ok false, w1)
  end.
Proof.
  unfold is_setup_complete. unfold bind at 1. unfold os_path_isfile at 1.
  destruct (is_file (fs w) (SETUP_MARKER h)); simpl; [|done].
  unfold bind at 1. rewrite load_saved_exe_effect.
  unfold bind at 1. unfold get at 1. unfold bind at 1. simpl.
  assert (isfile_value h (effective_exe h w) (with_PYTHON_EXE (effective_exe h w) w)
          = (Ok (names_file h (fs w) (effective_exe h w)),
             with_PYTHON_EXE (effective_exe h w) w)) as ->.
  { unfold isfile_value, names_file. by destruct (effective_exe h w). }
  destruct (names_file h (fs w) (effective_exe h w)); simpl; [|done].
  unfold as_program, subprocess_run. unfold_M.
  destruct (effective_exe h w) as [python|n|b]; simpl; [|done..].
  destruct (run h _ _ _ _) as [[e|cp] f']; done.
Qed.


(** C1 (as amended): the setup check never raises, and it answers yes exactly
    when the marker is a file, the interpreter in effect is a path that is a
    file, and the import probe run with that interpreter prints ok.  The
    interpreter in effect is the saved [python_exe] when [os.path.isfile]
    accepts it; a saved number or boolean that is accepted (its descriptor is
    a file) is no path, and the check answers no.  In particular the check
    answers no when the marker is absent, and the probe runs on every
    launch. *)
Theorem is_setup_complete_spec (h : Host) (w : World) :
  ∃ b w', is_setup_complete h w = (Ok b, w') ∧
    (b = true ↔ is_file (fs w) (SETUP_MARKER h) = true
                ∧ ∃ python, effective_exe h w = VStr python
                            ∧ is_file (fs w) python = true
                            ∧ probe_prints_ok h w python).
Proof.
  rewrite is_setup_complete_unfold. unfold probe_prints_ok.
  destruct (is_file (fs w) (SETUP_MARKER h)); simpl.
  2: { eexists _, _. split; [done|]. split; [done | by intros [? _]]. }
  destruct (names_file h (fs w) (effective_exe h w)) eqn:Hn; simpl.
  2: { eexists _, _. split; [done|]. split; [done|].
       intros (_ & python & He & Hf & _). rewrite He in Hn. simpl in Hn. congruence. }
  destruct (effective_exe h w) as [python|n|b] eqn:He.
  2,3: eexists _, _; split; [done|]; split; [done|]; by intros (_ & python & [=] & _).
  simpl in Hn. destruct (run h _ _ _ _) as [[e|cp] f'] eqn:Hrun.
  - eexists _, _. split; [done|]. split; [done|].
    intros (_ & p & [= <-] & _ & cp & f & Heq & _). congruence.
  - eexists _, _. split; [done|]. rewrite String.eqb_eq. split.
    + intros Hok. split; [done|]. exists python. do 2 (split; [done|]). by exists cp, f'.
    + intros (_ & p & [= <-] & _ & cp' & f & Heq & Hok). rewrite Hrun in Heq.
      by injection Heq as <- _.
Qed.

(** C1 (as stated) fails: the marker is a file and the interpreter path it
    names is a file, yet the check answers no, because the import probe is run
    again and fails. *)
Lemma is_setup_complete_not_two_condition_gate :
  is_file (fs Lost_manim.w) (SETUP_MARKER Lost_manim.h) = true
  ∧ (∃ text b members saved,
        fs Lost_manim.w !! SETUP_MARKER Lost_manim.h = Some (File text b)
        ∧ json_load Lost_manim.h text = Some (JObj members)
        ∧ assoc "python_exe" members = Some (JStr saved)
        ∧ is_file (fs Lost_manim.w) saved = true)
  ∧ (is_setup_complete Lost_manim.h Lost_manim.w).1 = Ok false.
Proof.
  split; [by vm_compute|]. split; [|by vm_compute].
  eexists _, _, _, _. repeat split; by vm_compute.
Qed.

(** A marker whose [python_exe] is the number 1, on a machine whose standard
    output goes to a file: [os.path.isfile(1)] says yes, the global is
    rebound to 1, no process can be started from it, and the check answers
    no although the interpreter the global named is a file whose probe would
    print ok. *)
Example is_setup_complete_descriptor :
  let r := is_setup_complete Redirected.h_fd Redirected.w_fd in
  r.1 = Ok false
  ∧ PYTHON_EXE r.2 = VInt 1
  ∧ calls r.2 = []
  ∧ PYTHON_EXE Redirected.w_fd = VStr (PYTHON_EXE_initial Redirected.h_fd)
  ∧ is_file (fs Redirected.w_fd) (PYTHON_EXE_initial Redirected.h_fd) = true
  ∧ probe_prints_ok Redirected.h_fd Redirected.w_fd (PYTHON_EXE_initial Redirected.h_fd).
Proof.
  repeat split; try (vm_compute; reflexivity).
  exists {| returncode := 0; stdout := "ok" ++ nl; stderr := "" |}, (fs Redirected.w_fd).
  split; [reflexivity | vm_compute; reflexivity].
Qed.

(** ** The interpreter locator *)

Example version_ok_3_11 : version_ok "Python 3.11.9" = Some true.
Proof. reflexivity. Qed.
Example version_ok_3_7 : version_ok "Python 3.7.4" = Some false.
Proof. reflexivity. Qed.
Example version_ok_2_7 : version_ok "Python 2.7.18" = Some false.
Proof. reflexivity. Qed.
Example version_ok_not_a_number : version_ok "Python 3.x" = None.
Proof. reflexivity. Qed.
Example version_ok_empty : version_ok "" = Some false.
Proof. reflexivity. Qed.

Lemma probe_caught (h : Host) (path : string) (w : World) :
  try_except (probe h path) Exception (λ _, ret false) w
  = (Ok (probe_accepts h path w), after_probe h path w).
Proof.
  unfold probe, probe_accepts, after_probe, subprocess_run, probe_cmd. unfold_M.
  destruct (run h _ _ _ _) as [[e|cp] f']; simpl; [done|].
  by destruct (version_ok _) as [[]|].
Qed.

Lemma first_working_locate (h : Host) (l : list (option string)) (w : World) :
  first_working h l w = (Ok (locate h l w).1, (locate h l w).2).
Proof.
  revert w. induction l as [|[path|] rest IH]; intros w; simpl; [done| |done].
  unfold bind at 1. unfold os_path_isfile at 1.
  destruct (negb (String.eqb path "") && is_file (fs w) path); [|done].
  unfold bind at 1. rewrite probe_caught.
  destruct (probe_accepts h path w); [done|]. apply IH.
Qed.

Lemma locate_found (h : Host) (l : list (option string)) (w : World) (path : string) :
  (locate h l w).1 = Some path →
  Some path ∈ l ∧ path ≠ "" ∧
  ∃ w0, is_file (fs w0) path = true ∧ probe_accepts h path w0 = true
        ∧ (locate h l w).2 = after_probe h path w0.
Proof.
  revert w. induction l as [|[p|] rest IH]; intros w; simpl; [done| |].
  - destruct (negb (String.eqb p "") && is_file (fs w) p) eqn:Hc.
    + destruct (probe_accepts h p w) eqn:Ha; simpl.
      * intros [= ->]. apply andb_true_iff in Hc as [Hne Hf].
        split; [left|]. split; [by intros ->|]. by exists w.
      * intros Hr. destruct (IH _ Hr) as (? & ? & ?). split; [by right|done].
    + intros Hr. destruct (IH _ Hr) as (? & ? & ?). split; [by right|done].
  - intros Hr. destruct (IH _ Hr) as (? & ? & ?). split; [by right|done].
Qed.

(** The probe of a candidate accepts exactly when the version query completes
    (with any exit status) and the text it prints, stripped, holds
    [Python 3.], has at least two parts between dots, and its second part
    reads as an integer that is at least 8. *)
Lemma probe_accepts_iff (h : Host) (path : string) (w : World) :
  probe_accepts h path w = true ↔
  ∃ cp f major minor rest m,
    run h (length (calls w)) (Argv [path; "--version"]) (Some 5) (fs w) = (inr cp, f)
    ∧ Str.contains "Python 3." (Str.strip (stdout cp)) = true
    ∧ Str.split "." (Str.strip (stdout cp)) = major :: minor :: rest
    ∧ Str.int minor = Some m
    ∧ 8 ≤ m.
Proof.
  unfold probe_accepts, probe_cmd, version_ok.
  destruct (run h _ _ _ _) as [[e|cp] f] eqn:Hrun; simpl.
  { split; [done|]. by intros (? & ? & ? & ? & ? & ? & [=] & _). }
  split.
  - destruct (Str.contains _ _) eqn:Hc; [|done].
    destruct (Str.split _ _) as [|major [|minor rest]] eqn:Hs; try done.
    destruct (Str.int minor) as [m|] eqn:Hm; simpl; [|done].
    destruct (8 <=? m) eqn:Hle; [|done]. intros _. apply Z.leb_le in Hle.
    by exists cp, f, major, minor, rest, m.
  - intros (cp' & f' & major & minor & rest & m & [= <- <-] & Hc & Hs & Hm & Hle).
    rewrite Hc, Hs, Hm. simpl. apply Z.leb_le in Hle. by rewrite Hle.
Qed.

(** C7 (as amended): for every candidate list the locator returns and never
    raises; its answer is that of the plain search [locate], in which a
    candidate is passed over when it is no path, is no file, or its probe does
    not accept; a path is returned only when it is a candidate, exists as a
    file and its probe accepted, so the answer is not-found when no probe
    accepts.  A probe accepts exactly when the version query completes and
    the text it prints holds [Python 3.], has at least two parts between
    dots and a second part that reads as an integer of at least 8: a probe
    that raises (time-out or any other exception) and a text that fails this
    test are passed over.  The exit code of the probe is not looked at. *)
Theorem find_system_python_never_raises (h : Host) (w : World) :
  let l := candidates h (length (calls w)) in
  find_system_python h w = (Ok (locate h l w).1, (locate h l w).2)
  ∧ match (locate h l w).1 with
    | Some path =>
        Some path ∈ l ∧ path ≠ "" ∧
        ∃ w0, is_file (fs w0) path = true ∧ probe_accepts h path w0 = true
              ∧ (locate h l w).2 = after_probe h path w0
    | None => True
    end
  ∧ (∀ rest path w1,
       first_working h (Some path :: rest) w1
       = if negb (String.eqb path "") && is_file (fs w1) path then
           if probe_accepts h path w1 then (Ok (Some path), after_probe h path w1)
           else first_working h rest (after_probe h path w1)
         else first_working h rest w1)
  ∧ (∀ path w0,
       probe_accepts h path w0 = true ↔
       ∃ cp f major minor rest m,
         run h (length (calls w0)) (Argv [path; "--version"]) (Some 5) (fs w0) = (inr cp, f)
         ∧ Str.contains "Python 3." (Str.strip (stdout cp)) = true
         ∧ Str.split "." (Str.strip (stdout cp)) = major :: minor :: rest
         ∧ Str.int minor = Some m
         ∧ 8 ≤ m).
Proof.
  intros l. split; [|split; [|split]].
  - unfold find_system_python. unfold bind, get. apply first_working_locate.
  - destruct (locate h l w).1 as [path|] eqn:Hr; [|done]. by apply locate_found.
  - intros rest path w1. rewrite !first_working_locate. simpl.
    destruct (negb (String.eqb path "") && is_file (fs w1) path); [|done].
    by destruct (probe_accepts h path w1).
  - intros path w0. apply probe_accepts_iff.
Qed.

(** C7 (as stated) fails: a candidate whose version probe exits with a
    non-zero status is not passed over when its output passes the version
    test. *)
Lemma find_system_python_ignores_exit_code :
  match (run Odd_exit.h 0 (probe_cmd Odd_exit.python) (Some 5) (fs Odd_exit.w)).1 with
  | inr cp => returncode cp ≠ 0
  | inl _ => False
  end
  ∧ (find_system_python Odd_exit.h Odd_exit.w).1 = Ok (Some Odd_exit.python).
Proof. split; by vm_compute. Qed.

(** ** The entry point *)

Lemma process_svg_cli_missing (h : Host) (svg_path : string) (w : World) :
  is_file (fs w) svg_path = false →
  _process_svg_cli h svg_path w = print h ("Hata: Dosya bulunamadı: " ++ svg_path) w.
Proof. intros Hf. unfold _process_svg_cli. unfold bind, os_path_isfile. by rewrite Hf. Qed.



(** C10 (as stated) fails: with [--cli] and nothing after it, on a machine
    whose standard output goes to a file in a code page without the dotless
    i, the program prints no usage line: [UnicodeEncodeError] escapes. *)
Lemma main_cli_usage_not_printed :
  let r := main Redirected.h ["QuickAnimations.py"; "--cli"] Redirected.w in
  (∃ line, r.1 = Raise (Exn UnicodeEncodeError line) ∧ Str.contains "ı" line = true)
  ∧ printed r.2 = printed Redirected.w.
Proof.
  split; [|reflexivity]. eexists. split; [reflexivity|]. vm_compute. reflexivity.
Qed.

(** ** The headless renderer *)

Lemma is_setup_complete_printed (h : Host) (w w1 : World) (b : bool) :
  is_setup_complete h w = (Ok b, w1) → printed w1 = printed w.
Proof.
  rewrite is_setup_complete_unfold.
  destruct (negb (is_file (fs w) (SETUP_MARKER h))); [by intros [= _ <-]|].
  simpl. destruct (negb (names_file h (fs w) (effective_exe h w))); [by intros [= _ <-]|].
  destruct (effective_exe h w) as [python|n|b']; [|by intros [= _ <-]..].
  destruct (run h _ _ _ _) as [[e|cp] f']; by intros [= _ <-].
Qed.

Lemma remove_script_free (h : Host) (w : World) :
  free (fs w) (script_path h) = true →
  remove_script h w = (Ok tt, with_fs (delete (script_path h) (fs w)) w).
Proof.
  unfold free, remove_script, os_remove. unfold_M. intros Hfree.
  destruct (fs w !! script_path h) as [[text []|]|] eqn:Hn; try done. simpl.
  rewrite delete_id; [|done]. by destruct w.
Qed.




(** ** The main loop *)

Lemma run_callback_effect (cb : callback) (w : World) :
  let w' := (run_callback cb w).2 in
  self w' = screen_effect (e_cell w) cb (self w)
  ∧ queue w' = (queue w ++ spawn cb)%list
  ∧ window w' = (match cb with cb_transition => Some MainApp | _ => window w end)
  ∧ fs w' = fs w ∧ calls w' = calls w ∧ PYTHON_EXE w' = PYTHON_EXE w
  ∧ printed w' = printed w ∧ e_cell w' = e_cell w.
Proof.
  destruct cb; simpl; unfold _set_check, _on_skip_fail, _on_skip_success,
    _on_install_complete, _transition; unfold_M; simpl;
    rewrite ?app_nil_r; try done.
  destruct (e_cell w) eqn:Hcell; unfold_M; simpl; by rewrite ?app_nil_r.
Qed.

Lemma drain_effect (n : nat) (w : World) :
  (sum_list_with cost (queue w) ≤ n)%nat →
  let w' := drain n w in
  self w' = replay (e_cell w) (queue w) (self w)
  ∧ queue w' = []
  ∧ fs w' = fs w ∧ calls w' = calls w ∧ PYTHON_EXE w' = PYTHON_EXE w
  ∧ printed w' = printed w ∧ e_cell w' = e_cell w
  ∧ window w' = (if existsb opens_main (queue w) then Some MainApp else window w).
Proof.
  revert w. induction n as [|n IH]; intros w Hn; simpl.
  - destruct (queue w) as [|cb rest] eqn:Hq; [done|]. simpl in Hn. unfold cost in Hn. lia.
  - destruct (queue w) as [|cb rest] eqn:Hq; [done|].
    pose proof (run_callback_effect cb (with_queue rest w)) as Hcb. simpl in Hcb.
    destruct Hcb as (Hs & Hqu & Hwin & Hfs & Hcalls & Hexe & Hpr & Hcell).
    set (w1 := (run_callback cb (with_queue rest w)).2) in *.
    assert (sum_list_with cost (queue w1) ≤ n)%nat as Hn1.
    { rewrite Hqu, sum_list_with_app. simpl in Hn. unfold cost in *.
      destruct cb; simpl in *; lia. }
    destruct (IH w1 Hn1) as (Hs' & Hqu' & Hfs' & Hcalls' & Hexe' & Hpr' & Hcell' & Hwin').
    rewrite Hs', Hqu', Hfs', Hcalls', Hexe', Hpr', Hcell', Hwin'.
    rewrite Hs, Hqu, Hwin, Hfs, Hcalls, Hexe, Hpr, Hcell.
    repeat split; try done.
    + unfold replay. rewrite foldl_app. simpl.
      by destruct cb.
    + rewrite existsb_app. simpl.
      destruct cb; simpl; rewrite ?orb_false_r, ?orb_true_r; try done;
        by destruct (existsb opens_main rest).
Qed.

Lemma mainloop_effect (w : World) :
  let w' := mainloop w in
  self w' = replay (e_cell w) (queue w) (self w)
  ∧ queue w' = []
  ∧ fs w' = fs w ∧ calls w' = calls w ∧ PYTHON_EXE w' = PYTHON_EXE w
  ∧ printed w' = printed w ∧ e_cell w' = e_cell w
  ∧ window w' = (if existsb opens_main (queue w) then Some MainApp else window w).
Proof.
  apply drain_effect. induction (queue w) as [|cb q IH]; simpl; [lia|].
  unfold cost in *. destruct cb; simpl in *; lia.
Qed.

(** ** The skip path *)

(** C5 (as amended): in a skip-validation run whose probe raises, or completes
    without printing ok, the marker is as before (not created, not rewritten)
    as long as the probed interpreter itself leaves it alone, and the
    interpreter global is not rebound; when the probe completes, what the
    wizard shows is the first 200 characters of the probe's error output, or a
    fixed text when that output is empty, and both buttons are enabled again. *)
Theorem skip_setup_failure (h : Host) (chosen : string) (w : World) :
  let child := run h (length (calls w)) (import_manim chosen) (Some 20) (fs w) in
  _installing (self w) = false →
  chosen ≠ "" →
  child.2 !! SETUP_MARKER h = fs w !! SETUP_MARKER h →
  match child.1 with inr cp => Str.strip (stdout cp) ≠ "ok" | inl _ => True end →
  let w' := mainloop (_skip_setup h chosen w).2 in
  (_skip_setup h chosen w).1 = Ok tt
  ∧ fs w' !! SETUP_MARKER h = fs w !! SETUP_MARKER h
  ∧ PYTHON_EXE w' = PYTHON_EXE w
  ∧ match child.1 with
    | inr cp =>
        status_var (self w') = "❌  Bu Python'da manim bulunamadı: " ++ skip_diagnostic cp
        ∧ install_btn_disabled (self w') = false
        ∧ skip_btn_disabled (self w') = false
    | inl _ => True
    end.
Proof.
  intros child Hidle Hchosen Hframe Hfail w'.
  pose proof (mainloop_effect (_skip_setup h chosen w).2) as Hloop.
  fold w' in Hloop. simpl in Hloop.
  destruct Hloop as (Hself & _ & Hfs & _ & Hexe & _).
  rewrite Hself, Hfs, Hexe. clear Hself Hfs Hexe w'.
  apply String.eqb_neq in Hchosen.
  unfold _skip_setup, validate, subprocess_run. unfold_M. rewrite Hidle, Hchosen. simpl.
  subst child. destruct (run h _ _ _ _) as [[e|cp] f'] eqn:Hrun; simpl in *.
  - done.
  - apply String.eqb_neq in Hfail. rewrite Hfail. simpl.
    unfold replay. rewrite foldl_app. by repeat split.
Qed.

Lemma skip_setup_failure_witness :
  let child := run No_manim.h 0 (import_manim No_manim.chosen) (Some 20)
                 (fs No_manim.w) in
  let w' := mainloop (_skip_setup No_manim.h No_manim.chosen No_manim.w).2 in
  (_skip_setup No_manim.h No_manim.chosen No_manim.w).1 = Ok tt
  ∧ fs w' !! SETUP_MARKER No_manim.h = fs No_manim.w !! SETUP_MARKER No_manim.h
  ∧ PYTHON_EXE w' = PYTHON_EXE No_manim.w
  ∧ match child.1 with
    | inr cp =>
        status_var (self w') = "❌  Bu Python'da manim bulunamadı: " ++ skip_diagnostic cp
        ∧ install_btn_disabled (self w') = false
        ∧ skip_btn_disabled (self w') = false
    | inl _ => True
    end.
Proof.
  apply (skip_setup_failure No_manim.h No_manim.chosen No_manim.w);
    [reflexivity | discriminate | reflexivity | discriminate].
Defined.

(** C5 (as stated) fails: what is reported is the head of the probe's error
    output, not its tail.  Here the output is a warning followed by the
    traceback; the wizard shows the first 200 characters, which is no final
    part of the output (and does not reach the line that names the error). *)
Lemma skip_setup_reports_head_not_tail :
  let w' := mainloop (_skip_setup No_manim.h No_manim.chosen No_manim.w).2 in
  match (run No_manim.h 0 (import_manim No_manim.chosen) (Some 20)
           (fs No_manim.w)).1 with
  | inr cp =>
      Str.strip (stdout cp) ≠ "ok"
      ∧ status_var (self w')
        = "❌  Bu Python'da manim bulunamadı: " ++ Str.take 200 (stderr cp)
      ∧ ends_with (Str.take 200 (stderr cp)) (stderr cp) = false
      ∧ Str.contains "ModuleNotFoundError" (Str.take 200 (stderr cp)) = false
  | inl _ => False
  end.
Proof. vm_compute. repeat split; (reflexivity || discriminate). Qed.

(** ** Paths below the application directory *)

Lemma append_cons (x : ascii) (a b : string) : String x a ++ b = String x (a ++ b).
Proof. reflexivity. Qed.

Lemma append_assoc (a b c : string) : (a ++ b) ++ c = a ++ (b ++ c).
Proof. induction a as [|x a IH]; [done|]. rewrite !append_cons. by rewrite IH. Qed.

Lemma append_self_nil (a b : string) : a ++ b = a → b = "".
Proof.
  induction a as [|x a IH]; [done|]. rewrite append_cons. intros [= H]. auto.
Qed.

Lemma prefix_append (a b c : string) : String.prefix (a ++ b) (a ++ c) = String.prefix b c.
Proof.
  induction a as [|x a IH]; [done|]. rewrite !append_cons. cbn [String.prefix].
  destruct (ascii_dec x x); [done|congruence].
Qed.

Lemma path_join_nonempty (a b : string) : b ≠ "" → path_join a b ≠ "".
Proof. by destruct a. Qed.

Lemma APP_DIR_nonempty (h : Host) : APP_DIR h ≠ "".
Proof. by apply path_join_nonempty. Qed.

(** A path directly in the application directory. *)
Lemma in_APP_DIR (h : Host) (name : string) :
  path_join (APP_DIR h) name = APP_DIR h ++ "\" ++ name.
Proof. pose proof (APP_DIR_nonempty h). by destruct (APP_DIR h). Qed.

(** A path two levels below the application directory. *)
Lemma below_APP_DIR (h : Host) (dir name : string) :
  path_join (path_join (APP_DIR h) dir) name = APP_DIR h ++ "\" ++ dir ++ "\" ++ name.
Proof.
  rewrite in_APP_DIR. pose proof (APP_DIR_nonempty h) as Hne.
  destruct (APP_DIR h) as [|x a]; [done|]. rewrite append_cons. cbn [path_join].
  rewrite append_cons. f_equal. by rewrite !append_assoc.
Qed.

Lemma SETUP_MARKER_eq (h : Host) : SETUP_MARKER h = APP_DIR h ++ "\" ++ "setup_complete.json".
Proof. apply in_APP_DIR. Qed.

Lemma APP_DIR_not_marker (h : Host) : APP_DIR h ≠ SETUP_MARKER h.
Proof. rewrite SETUP_MARKER_eq. intros H. symmetry in H. by apply append_self_nil in H. Qed.

Lemma in_APP_DIR_not_marker (h : Host) (name : string) :
  name ≠ "setup_complete.json" → path_join (APP_DIR h) name ≠ SETUP_MARKER h.
Proof.
  intros Hne. rewrite in_APP_DIR, SETUP_MARKER_eq. intros H.
  by do 2 apply (inj (String.append _)) in H.
Qed.

Lemma prefix_of_append (p a b : string) :
  String.prefix p a = false → String.prefix a p = false → String.prefix p (a ++ b) = false.
Proof.
  revert a. induction p as [|x p IH]; intros [|y a]; try done.
  rewrite append_cons. cbn [String.prefix]. destruct (ascii_dec x y), (ascii_dec y x);
    try done; auto; congruence.
Qed.

Lemma below_APP_DIR_not_marker (h : Host) (dir name : string) :
  String.prefix "setup_complete.json" (dir ++ "\") = false →
  String.prefix (dir ++ "\") "setup_complete.json" = false →
  path_join (path_join (APP_DIR h) dir) name ≠ SETUP_MARKER h.
Proof.
  intros Hdir Hdir'. rewrite below_APP_DIR, SETUP_MARKER_eq. intros H.
  do 2 apply (inj (String.append _)) in H.
  pose proof (prefix_of_append _ _ name Hdir Hdir') as Hp.
  rewrite append_assoc, H in Hp. vm_compute in Hp. discriminate.
Qed.

Lemma marker_not_under (h : Host) (dir : string) :
  String.prefix (dir ++ "\") "setup_complete.json" = false →
  String.prefix (dir ++ "/") "setup_complete.json" = false →
  under (path_join (APP_DIR h) dir) (SETUP_MARKER h) = false.
Proof.
  intros H1 H2. unfold under. rewrite in_APP_DIR, SETUP_MARKER_eq.
  rewrite !append_assoc. rewrite !prefix_append. by rewrite H1, H2.
Qed.

(** ** What [shutil.rmtree] leaves *)

Lemma rmtree_fs_outside (h : Host) (i : bool) (d p : string) (f : gmap string node) :
  p ≠ d → under d p = false → rmtree_fs h i d f !! p = f !! p.
Proof.
  intros Hne Hun. unfold rmtree_fs, at_or_under. rewrite map_lookup_filter.
  destruct (f !! p) as [n|]; [|done]. simpl.
  apply String.eqb_neq in Hne. rewrite option_guard_True; [done|].
  simpl. by rewrite Hne, Hun.
Qed.




(** ** What the worker's code leaves untouched *)

Lemma frame_refl (h : Host) (P : callback → bool) (w : World) : frame h P w w.
Proof.
  split; try done; [by exists []; rewrite app_nil_r | | by left].
  exists []. by rewrite app_nil_r.
Qed.

Lemma frame_trans (h : Host) (P : callback → bool) (w1 w2 w3 : World) :
  frame h P w1 w2 → frame h P w2 w3 → frame h P w1 w3.
Proof.
  intros [He1 Hp1 Hc1 Hw1 Hm1 [cs1 Hcs1] (qs1 & Hq1 & Hf1) Hs1]
         [He2 Hp2 Hc2 Hw2 Hm2 [cs2 Hcs2] (qs2 & Hq2 & Hf2) Hs2].
  split; try congruence.
  - intros Hsafe. by rewrite Hm2, Hm1.
  - exists (cs1 ++ cs2)%list. by rewrite Hcs2, Hcs1, app_assoc.
  - exists (qs1 ++ qs2)%list. rewrite Hq2, Hq1, app_assoc. split; [done|].
    by rewrite forallb_app, Hf1, Hf2.
  - destruct Hs1 as [Hs1|[? Hs1]], Hs2 as [Hs2|[? Hs2]]; rewrite Hs2, Hs1; auto.
Qed.

Lemma frame_weaken (h : Host) (P Q : callback → bool) (w w' : World) :
  (∀ cb, P cb = true → Q cb = true) → frame h P w w' → frame h Q w w'.
Proof.
  intros HPQ [He Hp Hc Hw Hm Hcs (qs & Hq & Hf) Hs]. split; try done.
  - exists qs. split; [done|]. rewrite forallb_forall in *. auto.
  - destruct Hs as [Hs|[? Hs]]; auto.
Qed.

Section Framed.
Variable h : Host.
Variable P : callback → bool.

Lemma framed_ret {A} (a : A) : framed h P (ret a).
Proof. intros w. apply frame_refl. Qed.

Lemma framed_raise {A} (e : exn) : framed h P (@raise A e).
Proof. intros w. apply frame_refl. Qed.

Lemma framed_get : framed h P get.
Proof. intros w. apply frame_refl. Qed.

Lemma framed_bind {A B} (m : M A) (k : A → M B) :
  framed h P m → (∀ a, framed h P (k a)) → framed h P (bind m k).
Proof.
  intros Hm Hk w. unfold bind. specialize (Hm w).
  destruct (m w) as [[a|e] w1]; [|done].
  eapply frame_trans; [done|]. apply Hk.
Qed.

Lemma framed_try {A} (body : M A) (catches : exn → bool) (handler : exn → M A) :
  framed h P body → (∀ e, framed h P (handler e)) → framed h P (try_except body catches handler).
Proof.
  intros Hm Hk w. unfold try_except. specialize (Hm w).
  destruct (body w) as [[a|e] w1]; [done|].
  destruct (catches e); [|done].
  eapply frame_trans; [done|]. apply Hk.
Qed.
End Framed.

Section Framed_primitives.
Variable h : Host.
Variable P : callback → bool.

Ltac same_world := intros w; apply frame_refl.

Ltac new_world :=
  split; simpl; try done; try (by exists []; rewrite app_nil_r); try (by left).

Lemma framed_isfile (p : string) : framed h P (os_path_isfile p).
Proof. same_world. Qed.

Lemma framed_isdir (p : string) : framed h P (os_path_isdir p).
Proof. same_world. Qed.

Lemma framed_read_file (p : string) : framed h P (read_file p).
Proof. intros w. unfold read_file. destruct (fs w !! p) as [[]|]; apply frame_refl. Qed.

Lemma framed_root_after (cb : callback) : P cb = true → framed h P (root_after cb).
Proof.
  intros Hcb w. new_world. exists [cb]. split; [done|]. simpl. by rewrite Hcb.
Qed.

Lemma framed_reset_installing :
  P cb_install_btn_enable = true → framed h P (on_self (set_installing false)).
Proof. intros HP w. new_world. by right. Qed.

Lemma framed_subprocess_run (c : command) (t : option Z) : framed h P (subprocess_run h c t).
Proof.
  intros w. unfold subprocess_run.
  pose proof (λ Hs : marker_safe h, Hs (length (calls w)) c t (fs w)) as Hm.
  destruct (run h _ _ _ _) as [[e|cp] f']; new_world; by eexists.
Qed.

Lemma framed_urlopen (url : string) : framed h P (urlopen h url).
Proof. intros w. new_world. by eexists. Qed.

Lemma framed_write_file (p text : string) :
  p ≠ SETUP_MARKER h → framed h P (write_file p text).
Proof.
  intros Hp w. unfold write_file.
  destruct (fs w !! p) as [[? []|]|]; try apply frame_refl;
    new_world; intros _; by rewrite lookup_insert_ne.
Qed.

Lemma framed_os_remove (p : string) : p ≠ SETUP_MARKER h → framed h P (os_remove p).
Proof.
  intros Hp w. unfold os_remove.
  destruct (fs w !! p) as [[? []|]|]; try apply frame_refl.
  new_world. intros _. by rewrite lookup_delete_ne.
Qed.

Lemma framed_os_makedirs (p : string) : p ≠ SETUP_MARKER h → framed h P (os_makedirs p).
Proof.
  intros Hp w. unfold os_makedirs.
  destruct (fs w !! p) as [[]|]; try apply frame_refl;
    new_world; intros _; by rewrite lookup_insert_ne.
Qed.

Lemma framed_rmtree (d : string) (ignore_errors : bool) :
  d ≠ SETUP_MARKER h → under d (SETUP_MARKER h) = false →
  framed h P (shutil_rmtree h d ignore_errors).
Proof.
  intros Hd Hun w. unfold shutil_rmtree.
  destruct (fs w !! d) as [[]|]; destruct ignore_errors; simpl; try apply frame_refl.
  - new_world. intros _. by apply rmtree_fs_outside.
  - destruct (negb _); new_world; intros _; by apply rmtree_fs_outside.
Qed.

End Framed_primitives.

Lemma framed_weaken (h : Host) (P Q : callback → bool) {A} (m : M A) :
  (∀ cb, P cb = true → Q cb = true) → framed h P m → framed h Q m.
Proof. intros HPQ Hm w. by eapply frame_weaken. Qed.

Ltac path_side := solve [apply in_APP_DIR_not_marker; discriminate
                        | apply APP_DIR_not_marker
                        | apply below_APP_DIR_not_marker; reflexivity
                        | apply marker_not_under; reflexivity ].

(** The helpers of the worker queue status lines only. *)
Section Framed_helpers.
Variable h : Host.

Lemma framed_status (text : string) : framed h status_cb (_update_status text None).
Proof.
  unfold _update_status. apply framed_bind; [by apply framed_root_after|]. intros _.
  apply framed_ret.
Qed.

Lemma framed_post_progress (msgs : list string) : framed h status_cb (post_progress msgs).
Proof.
  induction msgs as [|m msgs IH]; simpl; [apply framed_ret|].
  apply framed_bind; [apply framed_status | by intros _].
Qed.

Lemma framed_download_file (url dest : string) :
  dest ≠ SETUP_MARKER h → framed h status_cb (_download_file h url dest).
Proof.
  intros Hd. unfold _download_file.
  apply framed_try; [|intros e; apply framed_raise].
  apply framed_bind; [apply framed_urlopen|]. intros [e|msgs partial e|msgs body].
  - apply framed_raise.
  - apply framed_bind; [by apply framed_write_file|]. intros _.
    apply framed_bind; [apply framed_post_progress | intros _; apply framed_raise].
  - apply framed_bind; [by apply framed_write_file|]. intros _.
    apply framed_post_progress.
Qed.

Lemma framed_extractall (zip_path : string) :
  framed h status_cb (extractall h zip_path (path_join (APP_DIR h) "python_embed")).
Proof.
  unfold extractall. apply framed_bind; [apply framed_read_file|]. intros text.
  destruct (unzip h text) as [e|entries]; [apply framed_raise|].
  apply framed_bind; [apply framed_os_makedirs; path_side|]. intros _.
  induction entries as [|[name body] entries IH]; simpl; [apply framed_ret|].
  apply framed_bind; [|by intros _]. apply framed_write_file. path_side.
Qed.

Lemma framed_download_python : framed h status_cb (_download_python h).
Proof.
  unfold _download_python. apply framed_try; [|intros e; apply framed_ret].
  apply framed_bind; [apply framed_os_makedirs; path_side|]. intros _.
  apply framed_bind; [apply framed_download_file; path_side|]. intros _.
  apply framed_bind; [apply framed_isdir|]. intros d.
  apply framed_bind.
  { destruct d; [|apply framed_ret]. apply framed_rmtree; path_side. }
  intros _. apply framed_bind; [apply framed_extractall|]. intros _.
  apply framed_bind; [apply framed_os_remove; path_side|]. intros _.
  apply framed_bind; [apply framed_status|]. intros _.
  apply framed_bind; [apply framed_download_file; path_side|]. intros _.
  apply framed_bind; [apply framed_status|]. intros _.
  apply framed_bind; [apply framed_subprocess_run|]. intros _.
  apply framed_bind.
  { apply framed_try; [apply framed_os_remove; path_side | intros e; apply framed_ret]. }
  intros _. apply framed_bind; [apply framed_rmtree; path_side|]. intros _.
  apply framed_bind; [apply framed_isfile|]. intros ok. apply framed_ret.
Qed.

Lemma framed_first_working (l : list (option string)) :
  framed h status_cb (first_working h l).
Proof.
  induction l as [|[path|] rest IH]; simpl; [apply framed_ret| |done].
  apply framed_bind; [apply framed_isfile|]. intros present.
  destruct (negb _ && present); [|done].
  apply framed_bind; [|by intros []; [apply framed_ret|]].
  apply framed_try; [|intros e; apply framed_ret].
  unfold probe. apply framed_bind; [apply framed_subprocess_run|]. intros result.
  destruct (version_ok _); [apply framed_ret | apply framed_raise].
Qed.

Lemma framed_find_system_python : framed h status_cb (find_system_python h).
Proof.
  unfold find_system_python. apply framed_bind; [apply framed_get|].
  intros w. apply framed_first_working.
Qed.

End Framed_helpers.

Lemma status_is_worker_cb (cb : callback) : status_cb cb = true → worker_cb cb = true.
Proof. by destruct cb. Qed.

(** The steps of the worker queue worker callbacks only. *)
Section Framed_worker.
Variable h : Host.

Lemma framed_update_status (text : string) (check : option (check_key * check_state)) :
  framed h worker_cb (_update_status text check).
Proof.
  unfold _update_status. apply framed_bind; [by apply framed_root_after|]. intros _.
  destruct check as [[k st]|]; [by apply framed_root_after | apply framed_ret].
Qed.

Lemma framed_update_desc (key : check_key) (text : string) :
  framed h worker_cb (_update_desc key text).
Proof. by apply framed_root_after. Qed.

Lemma framed_fail (message : string) (key : option check_key) :
  framed h worker_cb (_fail message key).
Proof.
  unfold _fail. apply framed_bind.
  { destruct key; [by apply framed_root_after | apply framed_ret]. }
  intros _. repeat (apply framed_bind; [by apply framed_root_after | intros _]).
  by apply framed_reset_installing.
Qed.

Ltac framed_step :=
  first
    [ apply framed_ret | apply framed_raise | apply framed_get
    | apply framed_isfile | apply framed_isdir | apply framed_read_file
    | apply framed_subprocess_run
    | apply framed_update_status | apply framed_update_desc | apply framed_fail
    | apply (framed_weaken h status_cb worker_cb _ status_is_worker_cb);
      first [ apply framed_find_system_python | apply framed_download_python
            | apply framed_download_file; path_side ]
    | apply framed_try; [apply framed_os_remove; path_side | intros ?]
    | apply framed_bind; [|intros ?]
    | apply framed_try; [|intros ?]
    | match goal with
      | |- framed _ _ (if ?b then _ else _) => destruct b
      | |- framed _ _ (match ?x with _ => _ end) => destruct x
      | |- framed _ _ (when ?b _) => unfold when
      end ].

Lemma framed_step_python : framed h worker_cb (step_python h).
Proof. unfold step_python. repeat framed_step. Qed.

Lemma framed_step_venv (p : string) : framed h worker_cb (step_venv h p).
Proof.
  unfold step_venv. apply framed_bind; [apply framed_update_status|]. intros _.
  apply framed_bind; [apply framed_isdir|]. intros d.
  apply framed_bind.
  { destruct d; [|apply framed_ret]. apply framed_rmtree; path_side. }
  intros _. repeat framed_step.
Qed.

Lemma framed_step_pip : framed h worker_cb (step_pip h).
Proof. unfold step_pip. repeat framed_step. Qed.

Lemma framed_step_manim : framed h worker_cb (step_manim h).
Proof. unfold step_manim. repeat framed_step. Qed.

Lemma framed_step_ffmpeg : framed h worker_cb (step_ffmpeg h).
Proof. unfold step_ffmpeg. repeat framed_step. Qed.

End Framed_worker.

(** ** The rows of the checklist after a step *)

Lemma replay_app (cell : option exn) (a b : list callback) (s : SetupScreen) :
  replay cell (a ++ b) s = replay cell b (replay cell a s).
Proof. apply foldl_app. Qed.

Lemma replay_status_checks (cell : option exn) (qs : list callback) (s : SetupScreen) :
  forallb status_cb qs = true → checks (replay cell qs s) = checks s.
Proof.
  revert s. induction qs as [|cb qs IH]; intros s; [done|]. simpl.
  destruct cb; try done. intros Hq. by rewrite IH.
Qed.

Lemma replay_worker_installing (cell : option exn) (qs : list callback) (s : SetupScreen) :
  forallb worker_cb qs = true → _installing (replay cell qs s) = _installing s.
Proof.
  revert s. induction qs as [|cb qs IH]; intros s; [done|]. simpl.
  destruct cb; try done; intros Hq; by rewrite IH.
Qed.

Lemma screen_effect_set_installing (cell : option exn) (cb : callback) (b : bool)
    (s : SetupScreen) :
  screen_effect cell cb (set_installing b s) = set_installing b (screen_effect cell cb s).
Proof. by destruct cb, cell. Qed.

Lemma replay_set_installing (cell : option exn) (qs : list callback) (b : bool) (s : SetupScreen) :
  replay cell qs (set_installing b s) = set_installing b (replay cell qs s).
Proof.
  revert s. induction qs as [|cb qs IH]; intros s; [done|]. simpl.
  by rewrite screen_effect_set_installing, IH.
Qed.

Ltac marks_tac :=
  split;
  [ rewrite ?forallb_app; simpl;
    repeat match goal with
           | H : forallb status_cb ?q = true |- context [forallb worker_cb ?q] =>
               rewrite (proj2 (forallb_forall worker_cb q)
                          (λ cb Hcb, status_is_worker_cb cb
                                       (proj1 (forallb_forall status_cb q) H cb Hcb)))
           end; reflexivity
  | intros ? ? j; rewrite ?replay_app; simpl;
    rewrite ?replay_status_checks by assumption; simpl;
    rewrite ?replay_status_checks by assumption; by destruct j ].

Lemma step_venv_rows (h : Host) (p : string) (w : World) :
  ∃ qs, queue (step_venv h p w).2 = (queue w ++ qs)%list
        ∧ marks k_venv (row_after (step_venv h p w).1) qs
        ∧ self (step_venv h p w).2 = self_after (step_venv h p w).1 (self w).
Proof.
  unfold step_venv, _update_status, _update_desc, _fail, shutil_rmtree, subprocess_run.
  unfold_M. simpl.
  destruct (is_dir (fs w) (VENV_DIR h)) eqn:Hd; simpl.
  - unfold is_dir in Hd. destruct (fs w !! VENV_DIR h) as [[]|]; try done. simpl.
    destruct (run h _ _ _ _) as [[e|cp] f']; simpl.
    + eexists. split; [by rewrite <- !app_assoc|]. split; [marks_tac|done].
    + destruct (returncode cp =? 0); simpl;
        (eexists; split; [by rewrite <- !app_assoc|]; split; [marks_tac|done]).
  - destruct (run h _ _ _ _) as [[e|cp] f']; simpl.
    + eexists. split; [by rewrite <- !app_assoc|]. split; [marks_tac|done].
    + destruct (returncode cp =? 0); simpl;
        (eexists; split; [by rewrite <- !app_assoc|]; split; [marks_tac|done]).
Qed.

Ltac leaf :=
  eexists; split;
  [ simpl; repeat match goal with H : queue _ = _ |- _ => rewrite H end;
    by rewrite <- ?app_assoc
  | split;
    [ marks_tac
    | simpl; repeat match goal with H : self _ = _ |- _ => rewrite H end; done ] ].

Ltac helper_frame H :=
  let Hq := fresh "Hq" in
  let Hst := fresh "Hst" in
  let Hself := fresh "Hself" in
  destruct H as [_ _ _ _ _ _ (? & Hq & Hst) [Hself|[? _]]]; [|discriminate];
  simpl in Hq, Hself.

Lemma step_manim_rows (h : Host) (w : World) :
  ∃ qs, queue (step_manim h w).2 = (queue w ++ qs)%list
        ∧ marks k_manim (row_after (step_manim h w).1) qs
        ∧ self (step_manim h w).2 = self_after (step_manim h w).1 (self w).
Proof.
  unfold step_manim, _update_status, _update_desc, _fail, subprocess_run.
  unfold_M. simpl.
  destruct (run h _ _ _ _) as [[e|cp] f']; simpl; [leaf|].
  destruct (returncode cp =? 0); simpl; leaf.
Qed.

Lemma step_ffmpeg_rows (h : Host) (w : World) :
  ∃ qs, queue (step_ffmpeg h w).2 = (queue w ++ qs)%list
        ∧ marks k_ffmpeg (match (step_ffmpeg h w).1 with Ok _ => done_ | Raise _ => active end) qs
        ∧ self (step_ffmpeg h w).2 = self w.
Proof.
  unfold step_ffmpeg, _update_status, _update_desc, subprocess_run.
  unfold_M. simpl.
  destruct (run h _ _ _ _) as [[e|cp] f1]; simpl.
  - destruct (is_FileNotFoundError e); simpl; [|leaf].
    destruct (run h _ _ _ _) as [[e'|cp'] f2]; simpl; leaf.
  - destruct (run h _ _ _ _) as [[e|cp2] f2]; simpl.
    + destruct (is_FileNotFoundError e); simpl; [|leaf].
      destruct (run h _ _ _ _) as [[e'|cp'] f3]; simpl; leaf.
    + destruct (returncode cp2 =? 0); simpl; [leaf|].
      destruct (run h _ _ _ _) as [[e'|cp'] f3]; simpl; leaf.
Qed.

Lemma step_pip_rows (h : Host) (w : World) :
  ∃ qs, queue (step_pip h w).2 = (queue w ++ qs)%list
        ∧ marks k_pip (row_after (step_pip h w).1) qs
        ∧ self (step_pip h w).2 = self_after (step_pip h w).1 (self w).
Proof.
  unfold step_pip, _update_status, _update_desc, _fail, subprocess_run, os_remove.
  unfold_M. simpl.
  destruct (run h _ _ _ _) as [[e|cp] f1]; simpl; [leaf|].
  destruct (returncode cp =? 0); simpl.
  { destruct (run h _ _ _ _) as [[e|cp2] f2]; simpl; leaf. }
  match goal with
  | |- context [_download_file h ?url ?dest ?W] =>
      pose proof (framed_download_file h url dest ltac:(path_side) W) as Hd;
      destruct (_download_file h url dest W) as [[[]|e] w2]
  end; helper_frame Hd; simpl; [|leaf].
  destruct (run h _ _ _ _) as [[e|cp2] f2]; simpl; [leaf|].
  destruct (returncode cp2 =? 0); simpl; [|leaf].
  destruct (f2 !! path_join (APP_DIR h) "get-pip.py") as [[? []|]|]; simpl;
    (destruct (run h _ _ _ _) as [[e|cp3] f3]; simpl; leaf).
Qed.

Lemma find_system_python_returns (h : Host) (w : World) :
  ∃ r w', find_system_python h w = (Ok r, w').
Proof.
  unfold find_system_python. unfold bind, get. rewrite first_working_locate. eauto.
Qed.

Lemma download_python_returns (h : Host) (w : World) :
  ∃ r w', _download_python h w = (Ok r, w').
Proof.
  unfold _download_python. unfold try_except at 1.
  match goal with |- context [match ?body w with _ => _ end] => destruct (body w) as [[r|e] w'] end;
    simpl; eauto.
Qed.

Ltac leaf_ok :=
  eexists _, _, _; split; [reflexivity|]; split;
  [ simpl; repeat match goal with H : queue _ = _ |- _ => rewrite H end;
    by rewrite <- ?app_assoc
  | split;
    [ marks_tac
    | simpl; repeat match goal with H : self _ = _ |- _ => rewrite H end; done ] ].

Lemma step_python_rows (h : Host) (w : World) :
  ∃ r w' qs, step_python h w = (Ok r, w')
    ∧ queue w' = (queue w ++ qs)%list
    ∧ marks k_python (match r with Some _ => done_ | None => error end) qs
    ∧ self w' = (match r with Some _ => self w | None => set_installing false (self w) end).
Proof.
  unfold step_python. unfold bind at 1. unfold _update_status at 1. unfold_M. simpl.
  match goal with
  | |- context [find_system_python h ?W] =>
      pose proof (framed_find_system_python h W) as Hf;
      destruct (find_system_python_returns h W) as (r1 & w1 & E1); rewrite E1 in *
  end.
  helper_frame Hf. destruct r1 as [p|]; simpl.
  { unfold _update_desc, _update_status. unfold_M. simpl. leaf_ok. }
  unfold_M. simpl.
  match goal with
  | |- context [_download_python h ?W] =>
      pose proof (framed_download_python h W) as Hd;
      destruct (download_python_returns h W) as (r2 & w2 & E2); rewrite E2 in *
  end.
  helper_frame Hd. destruct r2 as [p|]; simpl.
  - unfold _update_desc, _update_status. unfold_M. simpl. leaf_ok.
  - unfold _fail. unfold_M. simpl. leaf_ok.
Qed.

(** ** Runs of the bootstrap worker *)

Lemma step_python_facts (h : Host) (w w' : World) (r : option string) :
  step_python h w = (Ok r, w') →
  frame h worker_cb w w'
  ∧ ∃ qs, queue w' = (queue w ++ qs)%list
          ∧ marks k_python (match r with Some _ => done_ | None => error end) qs
          ∧ self w' = (match r with Some _ => self w | None => set_installing false (self w) end).
Proof.
  intros E. split.
  - pose proof (framed_step_python h w) as F. by rewrite E in F.
  - destruct (step_python_rows h w) as (r' & w'' & qs & E' & H). rewrite E in E'.
    injection E' as <- <-. by exists qs.
Qed.

Lemma step_venv_facts (h : Host) (p : string) (w w' : World) (r : result bool) :
  step_venv h p w = (r, w') →
  frame h worker_cb w w'
  ∧ ∃ qs, queue w' = (queue w ++ qs)%list ∧ marks k_venv (row_after r) qs
          ∧ self w' = self_after r (self w).
Proof.
  intros E. split.
  - pose proof (framed_step_venv h p w) as F. by rewrite E in F.
  - pose proof (step_venv_rows h p w) as H. by rewrite E in H.
Qed.

Lemma step_pip_facts (h : Host) (w w' : World) (r : result bool) :
  step_pip h w = (r, w') →
  frame h worker_cb w w'
  ∧ ∃ qs, queue w' = (queue w ++ qs)%list ∧ marks k_pip (row_after r) qs
          ∧ self w' = self_after r (self w).
Proof.
  intros E. split.
  - pose proof (framed_step_pip h w) as F. by rewrite E in F.
  - pose proof (step_pip_rows h w) as H. by rewrite E in H.
Qed.

Lemma step_manim_facts (h : Host) (w w' : World) (r : result bool) :
  step_manim h w = (r, w') →
  frame h worker_cb w w'
  ∧ ∃ qs, queue w' = (queue w ++ qs)%list ∧ marks k_manim (row_after r) qs
          ∧ self w' = self_after r (self w).
Proof.
  intros E. split.
  - pose proof (framed_step_manim h w) as F. by rewrite E in F.
  - pose proof (step_manim_rows h w) as H. by rewrite E in H.
Qed.

Lemma step_ffmpeg_facts (h : Host) (w w' : World) (r : result unit) :
  step_ffmpeg h w = (r, w') →
  frame h worker_cb w w'
  ∧ ∃ qs, queue w' = (queue w ++ qs)%list
          ∧ marks k_ffmpeg (match r with Ok _ => done_ | Raise _ => active end) qs
          ∧ self w' = self w.
Proof.
  intros E. split.
  - pose proof (framed_step_ffmpeg h w) as F. by rewrite E in F.
  - pose proof (step_ffmpeg_rows h w) as H. by rewrite E in H.
Qed.

Lemma os_makedirs_facts (h : Host) (w w' : World) (r : result unit) :
  os_makedirs (APP_DIR h) w = (r, w') →
  frame h worker_cb w w' ∧ queue w' = queue w ∧ self w' = self w.
Proof.
  intros E. split.
  - pose proof (framed_os_makedirs h worker_cb (APP_DIR h) (APP_DIR_not_marker h) w) as F.
    by rewrite E in F.
  - revert E. unfold os_makedirs. destruct (fs w !! APP_DIR h) as [[]|]; by intros [= _ <-].
Qed.

Lemma done_above_step (k k' : check_key) (qs1 qs2 : list callback) :
  rank k' = S (rank k) →
  done_above k qs1 → marks k done_ qs2 → done_above k' (qs1 ++ qs2).
Proof.
  intros Hk [Hw1 Hr1] [Hw2 Hr2]. split.
  - by rewrite forallb_app, Hw1, Hw2.
  - intros cell s j. rewrite replay_app, Hr2, Hr1.
    destruct k, k', j; simpl in *; try done; lia.
Qed.

Lemma reaches_facts (h : Host) (w : World) (k : check_key) (p : string) (wk : World) :
  reaches h w k p wk →
  frame h worker_cb w wk
  ∧ self wk = self w
  ∧ (∃ qs, queue wk = (queue w ++ qs)%list ∧ done_above k qs)
  ∧ install_steps h w = from_step h p k wk.
Proof.
  induction 1 as [w0 p w1 E0 E1 | p w1 w2 _ IH E | p w2 w3 _ IH E | p w3 w4 _ IH E].
  - destruct (os_makedirs_facts _ _ _ _ E0) as (F0 & Hq0 & Hs0).
    destruct (step_python_facts _ _ _ _ E1) as (F1 & qs & Hq1 & Hm1 & Hs1).
    split; [by eapply frame_trans|]. split; [congruence|]. split.
    + exists qs. split; [congruence|]. destruct Hm1 as [Hw Hr]. split; [done|].
      intros cell s j. rewrite Hr. by destruct j.
    + unfold install_steps. unfold bind at 1. rewrite E0. unfold bind at 1. by rewrite E1.
  - destruct IH as (F & Hs & (qs & Hq & Hd) & Hcode).
    destruct (step_venv_facts _ _ _ _ _ E) as (F' & qs' & Hq' & Hm' & Hs').
    split; [by eapply frame_trans|]. split; [simpl in Hs'; congruence|]. split.
    + exists (qs ++ qs')%list. split; [by rewrite Hq', Hq, app_assoc|].
      by eapply (done_above_step k_venv).
    + rewrite Hcode. simpl. unfold from_venv. unfold bind at 1. by rewrite E.
  - destruct IH as (F & Hs & (qs & Hq & Hd) & Hcode).
    destruct (step_pip_facts _ _ _ _ E) as (F' & qs' & Hq' & Hm' & Hs').
    split; [by eapply frame_trans|]. split; [simpl in Hs'; congruence|]. split.
    + exists (qs ++ qs')%list. split; [by rewrite Hq', Hq, app_assoc|].
      by eapply (done_above_step k_pip).
    + rewrite Hcode. simpl. unfold from_pip. unfold bind at 1. by rewrite E.
  - destruct IH as (F & Hs & (qs & Hq & Hd) & Hcode).
    destruct (step_manim_facts _ _ _ _ E) as (F' & qs' & Hq' & Hm' & Hs').
    split; [by eapply frame_trans|]. split; [simpl in Hs'; congruence|]. split.
    + exists (qs ++ qs')%list. split; [by rewrite Hq', Hq, app_assoc|].
      by eapply (done_above_step k_manim).
    + rewrite Hcode. simpl. unfold from_manim. unfold bind at 1. by rewrite E.
Qed.

Lemma worker_cb_stays (qs : list callback) :
  forallb worker_cb qs = true → existsb opens_main qs = false.
Proof.
  induction qs as [|cb qs IH]; [done|]. simpl. intros [Hcb Hqs]%andb_true_iff.
  rewrite IH by done. by destruct cb.
Qed.

Lemma halt_after_reach (k : check_key) (qs qs' : list callback) :
  done_above k qs → marks k error qs' →
  forallb worker_cb (qs ++ qs') = true
  ∧ ∀ cell s j, checks (replay cell (qs ++ qs') s) j
                = if (rank j <? rank k)%nat then done_
                  else if check_key_eqb j k then error else checks s j.
Proof.
  intros [Hw1 Hr1] [Hw2 Hr2]. split.
  - by rewrite forallb_app, Hw1, Hw2.
  - intros cell s j. rewrite replay_app, Hr2, Hr1. by destruct k, j.
Qed.

Lemma halts_at_facts (h : Host) (w : World) (k : check_key) (wk : World) :
  halts_at h w k wk →
  frame h worker_cb w wk
  ∧ self wk = set_installing false (self w)
  ∧ (∃ qs, queue wk = (queue w ++ qs)%list
           ∧ forallb worker_cb qs = true
           ∧ ∀ cell s j, checks (replay cell qs s) j
                         = if (rank j <? rank k)%nat then done_
                           else if check_key_eqb j k then error else checks s j)
  ∧ install_steps h w = (Ok tt, wk).
Proof.
  destruct 1 as [w0 w1 E0 E1 | p w1 w2 R E | p w2 w3 R E | p w3 w4 R E].
  - destruct (os_makedirs_facts _ _ _ _ E0) as (F0 & Hq0 & Hs0).
    destruct (step_python_facts _ _ _ _ E1) as (F1 & qs & Hq1 & [Hw Hr] & Hs1).
    split; [by eapply frame_trans|]. split; [congruence|]. split.
    + exists qs. split; [congruence|]. split; [done|].
      intros cell s j. rewrite Hr. by destruct j.
    + unfold install_steps. unfold bind at 1. rewrite E0. unfold bind at 1. by rewrite E1.
  - destruct (reaches_facts _ _ _ _ _ R) as (F & Hs & (qs & Hq & Hd) & Hcode).
    destruct (step_venv_facts _ _ _ _ _ E) as (F' & qs' & Hq' & Hm' & Hs').
    split; [by eapply frame_trans|]. split; [simpl in Hs'; congruence|]. split.
    + exists (qs ++ qs')%list. split; [by rewrite Hq', Hq, app_assoc|].
      by apply halt_after_reach.
    + rewrite Hcode. simpl. unfold from_venv. unfold bind at 1. by rewrite E.
  - destruct (reaches_facts _ _ _ _ _ R) as (F & Hs & (qs & Hq & Hd) & Hcode).
    destruct (step_pip_facts _ _ _ _ E) as (F' & qs' & Hq' & Hm' & Hs').
    split; [by eapply frame_trans|]. split; [simpl in Hs'; congruence|]. split.
    + exists (qs ++ qs')%list. split; [by rewrite Hq', Hq, app_assoc|].
      by apply halt_after_reach.
    + rewrite Hcode. simpl. unfold from_pip. unfold bind at 1. by rewrite E.
  - destruct (reaches_facts _ _ _ _ _ R) as (F & Hs & (qs & Hq & Hd) & Hcode).
    destruct (step_manim_facts _ _ _ _ E) as (F' & qs' & Hq' & Hm' & Hs').
    split; [by eapply frame_trans|]. split; [simpl in Hs'; congruence|]. split.
    + exists (qs ++ qs')%list. split; [by rewrite Hq', Hq, app_assoc|].
      by apply halt_after_reach.
    + rewrite Hcode. simpl. unfold from_manim. unfold bind at 1. by rewrite E.
Qed.

(** The worker after a step has raised: [_fail] with the text of the
    exception. *)
Lemma install_worker_raise (h : Host) (w w1 : World) (e : exn) :
  install_steps h w = (Raise e, w1) →
  let msg := "Beklenmeyen hata: " ++ Str.take 200 (exn_str e) in
  _install_worker h w
  = (Ok tt,
     with_self (set_installing false (self w1))
       (with_queue (queue w1 ++ [cb_stop_indeterminate; cb_set_progress 0;
                                 cb_status ("❌  " ++ msg); cb_install_btn_enable]) w1)).
Proof.
  intros E. unfold _install_worker, try_except. rewrite E. unfold Exception. cbv iota.
  unfold _fail. unfold_M. simpl. by rewrite <- !app_assoc.
Qed.

Lemma post_progress_effect (msgs : list string) (w : World) :
  post_progress msgs w = (Ok tt, with_queue (queue w ++ map cb_status msgs) w).
Proof.
  revert w. induction msgs as [|m msgs IH]; intros w.
  - simpl. unfold ret. destruct w; simpl. by rewrite app_nil_r.
  - simpl. unfold _update_status. unfold_M. simpl. rewrite IH. simpl.
    by rewrite <- app_assoc.
Qed.











(** ** A failed step and a time-out on the demonstration machine *)

(** The child processes of the demonstration machines leave the marker alone. *)
Lemma machine_marker_safe known venv manim ffmpeg :
  marker_safe (Bootstrap_example.machine_with known venv manim ffmpeg).
Proof.
  intros n c t f. simpl. unfold Bootstrap_example.children. destruct c as [args|line]; [|done].
  destruct (Bootstrap_example.has "--version" args); [done|].
  destruct (Bootstrap_example.has "venv" args).
  { destruct venv; [done|]. simpl. by rewrite !lookup_insert_ne. }
  destruct (Bootstrap_example.has "manim" args); [done|]. destruct (Bootstrap_example.has "ffmpeg" args); [done|].
  by destruct (Bootstrap_example.has "imageio[ffmpeg]" args).
Qed.



(** The machine whose environment creation runs into its time limit fails at
    step 2 by an exception; the row of that step is then left active. *)
Example slow_machine_fails :
  ∃ e wk, exn_cls e = TimeoutExpired
          ∧ fails_at Bootstrap_example.h_slow Bootstrap_example.w_slow k_venv
              (by_exception e) wk.
Proof.
  set (h := Bootstrap_example.h_slow). set (w := Bootstrap_example.w_slow).
  set (w0 := (os_makedirs (APP_DIR h) w).2).
  assert (arrives h w k_venv Bootstrap_example.python (step_python h w0).2) as A1.
  { apply (arrives_venv h w w0); vm_compute; reflexivity. }
  eexists _, _. split; [|apply (fails_venv h w _ _ _ A1); vm_compute; reflexivity].
  reflexivity.
Qed.


(** ** The run that completes *)

Lemma write_marker_facts (h : Host) (w w' : World) :
  write_marker h w = (Ok tt, w') →
  fs w' !! SETUP_MARKER h
  = Some (File (json_dump h (install_record h (PYTHON_EXE w))) false)
  ∧ PYTHON_EXE w' = PYTHON_EXE w ∧ self w' = self w ∧ window w' = window w
  ∧ queue w' = (queue w ++ [cb_on_install_complete])%list.
Proof.
  unfold write_marker, write_file. unfold_M. simpl.
  destruct (fs w !! SETUP_MARKER h) as [[? []|]|]; simpl; try done;
    intros [= <-]; simpl; by rewrite lookup_insert_eq.
Qed.

Lemma succeeds_facts (h : Host) (w w' : World) :
  succeeds h w w' →
  _install_worker h w = (Ok tt, w')
  ∧ fs w' !! SETUP_MARKER h
    = Some (File (json_dump h (install_record h (PYTHON_EXE w))) false)
  ∧ PYTHON_EXE w' = PYTHON_EXE w ∧ self w' = self w ∧ window w' = window w
  ∧ ∃ qs, queue w' = (queue w ++ qs ++ [cb_on_install_complete])%list
          ∧ forallb worker_cb qs = true
          ∧ ∀ cell s j, checks (replay cell qs s) j = done_.
Proof.
  intros (p & w4 & w5 & R & E5 & E6).
  destruct (reaches_facts _ _ _ _ _ R) as (F & Hs & (qs & Hq & [Hw Hr]) & Hcode).
  destruct (step_ffmpeg_facts _ _ _ _ E5) as (F5 & qs5 & Hq5 & [Hw5 Hr5] & Hs5).
  destruct (write_marker_facts _ _ _ E6) as (Hm & He & Hs6 & Hwin & Hq6).
  split; [|split; [|split; [|split; [|split]]]].
  - unfold _install_worker, try_except. rewrite Hcode. simpl. unfold from_ffmpeg.
    unfold bind at 1. rewrite E5. by rewrite E6.
  - rewrite Hm. by rewrite (frame_exe _ _ _ _ F5), (frame_exe _ _ _ _ F).
  - by rewrite He, (frame_exe _ _ _ _ F5), (frame_exe _ _ _ _ F).
  - congruence.
  - by rewrite Hwin, (frame_window _ _ _ _ F5), (frame_window _ _ _ _ F).
  - exists (qs ++ qs5)%list. split; [by rewrite Hq6, Hq5, Hq, <- !app_assoc|].
    split; [by rewrite forallb_app, Hw, Hw5|].
    intros cell s j. rewrite replay_app, Hr5, Hr. by destruct j.
Qed.

(** The wizard once the main loop has run the callbacks of a completed run
    that started with none pending. *)
Lemma succeeds_screen (h : Host) (w w' : World) :
  succeeds h w w' → queue w = [] →
  (∀ j, checks (self (mainloop w')) j = done_)
  ∧ window (mainloop w') = Some MainApp
  ∧ fs (mainloop w') = fs w'.
Proof.
  intros Hs Hempty.
  destruct (succeeds_facts _ _ _ Hs) as (_ & _ & _ & Hself & _ & qs & Hq & Hw & Hr).
  destruct (mainloop_effect w') as (Hself' & _ & Hfs & _ & _ & _ & _ & Hwin).
  rewrite Hself', Hwin, Hfs, Hq, Hempty. simpl. split; [|split; [|done]].
  - intros j. rewrite replay_app. simpl. apply Hr.
  - rewrite existsb_app. simpl. by rewrite orb_true_r.
Qed.

(** ** The encoder step *)

Lemma step_ffmpeg_returns (h : Host) (w : World) :
  (∀ n t f, completes_or_absent (run h n (manim_probe h) t f).1) →
  (∀ n t f, completes_or_absent (run h n ffmpeg_probe t f).1) →
  (∀ n t f, completes (run h n (fallback_install h) t f).1) →
  (step_ffmpeg h w).1 = Ok tt.
Proof.
  intros Hprobe Hff Hfb.
  unfold step_ffmpeg, _update_status, _update_desc, subprocess_run.
  unfold_M. simpl.
  match goal with
  | |- context [run h ?n (Argv [venv_python h; "-c"; ?s]) ?t ?f] =>
      pose proof (Hprobe n t f) as H1; unfold manim_probe in H1;
      destruct (run h n (Argv [venv_python h; "-c"; s]) t f) as [[e|cp] f1]
  end; simpl in *.
  - rewrite H1. simpl.
    match goal with
    | |- context [run h ?n (Argv [venv_python h; "-m"; "pip"; "install"; ?s]) ?t ?f] =>
        pose proof (Hfb n t f) as H3; unfold fallback_install in H3;
        destruct (run h n (Argv [venv_python h; "-m"; "pip"; "install"; s]) t f)
          as [[e3|cp3] f3]
    end; simpl in *; done.
  - match goal with
    | |- context [run h ?n (Argv ["ffmpeg"; "-version"]) ?t ?f] =>
        pose proof (Hff n t f) as H2; unfold ffmpeg_probe in H2;
        destruct (run h n (Argv ["ffmpeg"; "-version"]) t f) as [[e2|cp2] f2]
    end; simpl in *.
    + rewrite H2. simpl.
      match goal with
      | |- context [run h ?n (Argv [venv_python h; "-m"; "pip"; "install"; ?s]) ?t ?f] =>
          pose proof (Hfb n t f) as H3; unfold fallback_install in H3;
          destruct (run h n (Argv [venv_python h; "-m"; "pip"; "install"; s]) t f)
            as [[e3|cp3] f3]
      end; simpl in *; done.
    + destruct (returncode cp2 =? 0); simpl; [done|].
      match goal with
      | |- context [run h ?n (Argv [venv_python h; "-m"; "pip"; "install"; ?s]) ?t ?f] =>
          pose proof (Hfb n t f) as H3; unfold fallback_install in H3;
          destruct (run h n (Argv [venv_python h; "-m"; "pip"; "install"; s]) t f)
            as [[e3|cp3] f3]
      end; simpl in *; done.
Qed.

Lemma write_marker_free (h : Host) (w : World) :
  free (fs w) (SETUP_MARKER h) = true → ∃ w', write_marker h w = (Ok tt, w').
Proof.
  unfold free, write_marker, write_file. unfold_M. simpl.
  destruct (fs w !! SETUP_MARKER h) as [[? []|]|]; try done; eauto.
Qed.

(** C3 (as amended): in a run that reaches the encoder step, started with no
    callback pending and with a marker path that can be written, no exit
    status of the two probes or of the fallback install, and no absence of a
    probed program (file not found), aborts provisioning: the step is marked
    done, the marker is written and the run ends in the main screen. *)
Theorem encoder_step_never_aborts (h : Host) (w : World) (p : string) (w4 : World) :
  reaches h w k_ffmpeg p w4 →
  queue w = [] →
  marker_safe h →
  free (fs w) (SETUP_MARKER h) = true →
  (∀ n t f, completes_or_absent (run h n (manim_probe h) t f).1) →
  (∀ n t f, completes_or_absent (run h n ffmpeg_probe t f).1) →
  (∀ n t f, completes (run h n (fallback_install h) t f).1) →
  let w' := mainloop (_install_worker h w).2 in
  (_install_worker h w).1 = Ok tt
  ∧ checks (self w') k_ffmpeg = done_
  ∧ fs w' !! SETUP_MARKER h
    = Some (File (json_dump h (install_record h (PYTHON_EXE w))) false)
  ∧ window w' = Some MainApp.
Proof.
  intros R Hempty Hsafe Hfree Hprobe Hff Hfb.
  pose proof (step_ffmpeg_returns h w4 Hprobe Hff Hfb) as E5.
  destruct (step_ffmpeg h w4) as [r5 w5] eqn:E5'. simpl in E5. subst r5.
  destruct (reaches_facts _ _ _ _ _ R) as (F & _).
  destruct (step_ffmpeg_facts _ _ _ _ E5') as (F5 & _).
  assert (free (fs w5) (SETUP_MARKER h) = true) as Hfree5.
  { unfold free in *.
    by rewrite (frame_marker _ _ _ _ F5 Hsafe), (frame_marker _ _ _ _ F Hsafe). }
  destruct (write_marker_free _ _ Hfree5) as [w6 E6].
  assert (succeeds h w w6) as Hs by (by exists p, w4, w5).
  destruct (succeeds_facts _ _ _ Hs) as (Hrun & Hm & _).
  destruct (succeeds_screen _ _ _ Hs Hempty) as (Hrows & Hwin & Hfs).
  rewrite Hrun. simpl. by rewrite Hrows, Hwin, Hfs.
Qed.

Lemma encoder_step_never_aborts_witness :
  let h := Bootstrap_example.h_bare in
  let w := Bootstrap_example.w_bare in
  let w' := mainloop (_install_worker h w).2 in
  (_install_worker h w).1 = Ok tt
  ∧ checks (self w') k_ffmpeg = done_
  ∧ fs w' !! SETUP_MARKER h
    = Some (File (json_dump h (install_record h (PYTHON_EXE w))) false)
  ∧ window w' = Some MainApp.
Proof.
  intros h w.
  set (w0 := (os_makedirs (APP_DIR h) w).2).
  set (w1 := (step_python h w0).2).
  set (w2 := (step_venv h Bootstrap_example.python w1).2).
  set (w3 := (step_pip h w2).2).
  set (w4 := (step_manim h w3).2).
  refine (encoder_step_never_aborts h w Bootstrap_example.python w4 _ _ _ _ _ _ _).
  - apply (reaches_ffmpeg h w _ w3 w4); [|vm_compute; reflexivity].
    apply (reaches_manim h w _ w2 w3); [|vm_compute; reflexivity].
    apply (reaches_pip h w _ w1 w2); [|vm_compute; reflexivity].
    apply (reaches_venv h w w0 _ w1); vm_compute; reflexivity.
  - reflexivity.
  - apply machine_marker_safe.
  - vm_compute; reflexivity.
  - intros n t f. vm_compute. exact I.
  - intros n t f. vm_compute. reflexivity.
  - intros n t f. vm_compute. exact I.
Defined.

(** C3 (as stated) fails: the run reaches the encoder step, the version query
    of FFmpeg runs into its time limit, and provisioning is aborted: the row
    is left active, no marker is written and the wizard stays on screen. *)
Lemma encoder_timeout_aborts :
  let h := Bootstrap_example.h_hung in
  let w := Bootstrap_example.w_hung in
  let w' := mainloop (_install_worker h w).2 in
  (∃ p w4, reaches h w k_ffmpeg p w4)
  ∧ checks (self w') k_ffmpeg = active
  ∧ fs w' !! SETUP_MARKER h = None
  ∧ window w' = None.
Proof.
  intros h w w'. split; [|by vm_compute].
  set (w0 := (os_makedirs (APP_DIR h) w).2).
  set (w1 := (step_python h w0).2).
  set (w2 := (step_venv h Bootstrap_example.python w1).2).
  set (w3 := (step_pip h w2).2).
  set (w4 := (step_manim h w3).2).
  exists Bootstrap_example.python, w4.
  apply (reaches_ffmpeg h w _ w3 w4); [|vm_compute; reflexivity].
  apply (reaches_manim h w _ w2 w3); [|vm_compute; reflexivity].
  apply (reaches_pip h w _ w1 w2); [|vm_compute; reflexivity].
  apply (reaches_venv h w w0 _ w1); vm_compute; reflexivity.
Qed.

(** ** Replacing the environment *)








(** ** What the program writes into the marker *)

Lemma frame_kept (h : Host) (w w' : World) :
  marker_safe h → frame h worker_cb w w' → kept_or_written h w w'.
Proof. intros Hsafe F. split; [apply F | left; by apply F]. Qed.

Lemma install_steps_marker (h : Host) (w w' : World) (r : result unit) :
  marker_safe h → install_steps h w = (r, w') → kept_or_written h w w'.
Proof.
  intros Hsafe. unfold install_steps.
  unfold bind at 1. destruct (os_makedirs (APP_DIR h) w) as [[[]|e] w0] eqn:E0;
    destruct (os_makedirs_facts _ _ _ _ E0) as (F0 & _);
    [|intros [= _ <-]; by apply frame_kept].
  unfold bind at 1. destruct (step_python h w0) as [[[p|]|e] w1] eqn:E1;
    pose proof (framed_step_python h w0) as F1; rewrite E1 in F1; simpl in F1;
    pose proof (frame_trans _ _ _ _ _ F0 F1) as G1;
    [|intros [= _ <-]; by apply frame_kept..].
  unfold bind at 1. destruct (step_venv h p w1) as [[[]|e] w2] eqn:E2;
    destruct (step_venv_facts _ _ _ _ _ E2) as (F2 & _);
    pose proof (frame_trans _ _ _ _ _ G1 F2) as G2; simpl;
    [|intros [= _ <-]; by apply frame_kept..].
  unfold bind at 1. destruct (step_pip h w2) as [[[]|e] w3] eqn:E3;
    destruct (step_pip_facts _ _ _ _ E3) as (F3 & _);
    pose proof (frame_trans _ _ _ _ _ G2 F3) as G3; simpl;
    [|intros [= _ <-]; by apply frame_kept..].
  unfold bind at 1. destruct (step_manim h w3) as [[[]|e] w4] eqn:E4;
    destruct (step_manim_facts _ _ _ _ E4) as (F4 & _);
    pose proof (frame_trans _ _ _ _ _ G3 F4) as G4; simpl;
    [|intros [= _ <-]; by apply frame_kept..].
  unfold bind at 1. destruct (step_ffmpeg h w4) as [[[]|e] w5] eqn:E5;
    destruct (step_ffmpeg_facts _ _ _ _ E5) as (F5 & _);
    pose proof (frame_trans _ _ _ _ _ G4 F5) as G5; simpl;
    [|intros [= _ <-]; by apply frame_kept].
  unfold write_marker, write_file. unfold_M. simpl.
  destruct (fs w5 !! SETUP_MARKER h) as [[? []|]|] eqn:Hm; simpl;
    intros [= _ <-]; try (by apply frame_kept);
    (split; [apply G5|]); right; simpl;
    by rewrite lookup_insert_eq, (frame_exe _ _ _ _ G5).
Qed.

Lemma install_worker_marker (h : Host) (w : World) :
  marker_safe h → kept_or_written h w (_install_worker h w).2.
Proof.
  intros Hsafe. unfold _install_worker, try_except.
  destruct (install_steps h w) as [[[]|e] w1] eqn:E;
    pose proof (install_steps_marker h w _ _ Hsafe E) as [He Hm]; [done|].
  unfold Exception. cbv iota. unfold kept_or_written.
  match goal with
  | |- context [_fail ?m ?k w1] =>
      pose proof (framed_fail h m k w1) as F; set (w2 := (_fail m k w1).2) in *
  end.
  split; [by rewrite (frame_exe _ _ _ _ F)|].
  by rewrite (frame_marker _ _ _ _ F Hsafe).
Qed.

Lemma skip_setup_marker (h : Host) (chosen : string) (w : World) :
  marker_safe h →
  let w' := (_skip_setup h chosen w).2 in
  fs w' !! SETUP_MARKER h = fs w !! SETUP_MARKER h
  ∨ (fs w' !! SETUP_MARKER h = Some (File (json_dump h (skip_record h chosen)) false)
     ∧ PYTHON_EXE w' = VStr chosen).
Proof.
  intros Hsafe. unfold _skip_setup, validate, subprocess_run, os_makedirs, write_file.
  unfold_M. simpl.
  destruct (_installing (self w)); [by left|].
  destruct (String.eqb chosen ""); [by left|]. simpl.
  pose proof (Hsafe (length (calls w)) (import_manim chosen) (Some 20) (fs w)) as Hrun.
  destruct (run h _ _ _ _) as [[e|cp] f1]; simpl in *; [by left|].
  destruct (String.eqb _ "ok"); simpl; [|by left].
  destruct (f1 !! APP_DIR h) as [[]|] eqn:Happ; simpl; [by left| |].
  all: rewrite lookup_insert_ne by apply APP_DIR_not_marker.
  all: destruct (f1 !! SETUP_MARKER h) as [[? []|]|] eqn:Hm; simpl;
    rewrite ?lookup_insert_ne by apply APP_DIR_not_marker;
    try (left; congruence); right; by rewrite lookup_insert_eq.
Qed.

Lemma skip_setup_success (h : Host) (chosen : string) (w : World)
    (cp : CompletedProcess) (f1 : gmap string node) :
  _installing (self w) = false →
  chosen ≠ "" →
  run h (length (calls w)) (import_manim chosen) (Some 20) (fs w) = (inr cp, f1) →
  Str.strip (stdout cp) = "ok" →
  is_file f1 (APP_DIR h) = false →
  free f1 (SETUP_MARKER h) = true →
  let w' := (_skip_setup h chosen w).2 in
  fs w' !! SETUP_MARKER h = Some (File (json_dump h (skip_record h chosen)) false)
  ∧ PYTHON_EXE w' = VStr chosen
  ∧ window (mainloop w') = Some MainApp.
Proof.
  intros Hidle Hchosen Hrun Hok Happ Hfree.
  apply String.eqb_neq in Hchosen. apply String.eqb_eq in Hok.
  assert (∀ w1, window (mainloop w1)
                = if existsb opens_main (queue w1) then Some MainApp else window w1) as Hloop.
  { intros w1. by destruct (mainloop_effect w1) as (_ & _ & _ & _ & _ & _ & _ & ?). }
  cbv zeta. rewrite Hloop.
  unfold _skip_setup, validate, subprocess_run, os_makedirs, write_file.
  unfold_M. rewrite Hidle, Hchosen. simpl. rewrite Hrun, Hok. simpl.
  unfold is_file in Happ. unfold free in Hfree.
  destruct (f1 !! APP_DIR h) as [[]|] eqn:Happ'; try done; simpl.
  all: rewrite lookup_insert_ne by apply APP_DIR_not_marker.
  all: destruct (f1 !! SETUP_MARKER h) as [[? []|]|] eqn:Hm; try done; simpl.
  all: rewrite lookup_insert_eq, existsb_app; simpl; by rewrite orb_true_r.
Qed.

(** C6: the marker changes only by one of two writes.  A run of the worker
    leaves it as it was or leaves an object with exactly the keys
    [python_version] (the configured version), [venv_dir] and [python_exe],
    and a run that completes leaves that object; a skip-validation leaves it
    as it was or leaves an object with the keys [python_version] (the text
    custom), [venv_dir], [python_exe] and [skipped_setup] (true), and a
    skip-validation that succeeds leaves that object. *)
Theorem setup_record_contents (h : Host) :
  (∀ w, marker_safe h →
     let w' := (_install_worker h w).2 in
     fs w' !! SETUP_MARKER h = fs w !! SETUP_MARKER h
     ∨ fs w' !! SETUP_MARKER h
       = Some (File (json_dump h
                       (JObj [("python_version", JStr PYTHON_VERSION);
                              ("venv_dir", JStr (VENV_DIR h));
                              ("python_exe", to_json (PYTHON_EXE w))])) false))
  ∧ (∀ w w', succeeds h w w' →
       fs w' !! SETUP_MARKER h
       = Some (File (json_dump h
                       (JObj [("python_version", JStr PYTHON_VERSION);
                              ("venv_dir", JStr (VENV_DIR h));
                              ("python_exe", to_json (PYTHON_EXE w))])) false))
  ∧ (∀ chosen w, marker_safe h →
       let w' := (_skip_setup h chosen w).2 in
       fs w' !! SETUP_MARKER h = fs w !! SETUP_MARKER h
       ∨ fs w' !! SETUP_MARKER h
         = Some (File (json_dump h
                         (JObj [("python_version", JStr "custom");
                                ("venv_dir", JStr (dirname h (dirname h chosen)));
                                ("python_exe", JStr chosen);
                                ("skipped_setup", JBool true)])) false))
  ∧ (∀ chosen w cp f1,
       _installing (self w) = false →
       chosen ≠ "" →
       run h (length (calls w)) (import_manim chosen) (Some 20) (fs w) = (inr cp, f1) →
       Str.strip (stdout cp) = "ok" →
       is_file f1 (APP_DIR h) = false →
       free f1 (SETUP_MARKER h) = true →
       fs (_skip_setup h chosen w).2 !! SETUP_MARKER h
       = Some (File (json_dump h
                       (JObj [("python_version", JStr "custom");
                              ("venv_dir", JStr (dirname h (dirname h chosen)));
                              ("python_exe", JStr chosen);
                              ("skipped_setup", JBool true)])) false)).
Proof.
  split; [|split; [|split]].
  - intros w Hsafe. apply (install_worker_marker h w Hsafe).
  - intros w w' Hs. apply (succeeds_facts _ _ _ Hs).
  - intros chosen w Hsafe. destruct (skip_setup_marker h chosen w Hsafe) as [?|[? _]]; auto.
  - intros chosen w cp f1 H1 H2 H3 H4 H5 H6.
    apply (skip_setup_success h chosen w cp f1 H1 H2 H3 H4 H5 H6).
Qed.


(** ** Completed runs on the demonstration machine *)

Lemma reaches_ffmpeg_run (h : Host) (w : World) (p : string) :
  let w0 := (os_makedirs (APP_DIR h) w).2 in
  let w1 := (step_python h w0).2 in
  let w2 := (step_venv h p w1).2 in
  let w3 := (step_pip h w2).2 in
  let w4 := (step_manim h w3).2 in
  (os_makedirs (APP_DIR h) w).1 = Ok tt →
  (step_python h w0).1 = Ok (Some p) →
  (step_venv h p w1).1 = Ok true →
  (step_pip h w2).1 = Ok true →
  (step_manim h w3).1 = Ok true →
  reaches h w k_ffmpeg p w4.
Proof.
  intros w0 w1 w2 w3 w4 E0 E1 E2 E3 E4.
  apply (reaches_ffmpeg h w p w3 w4); [|subst w4; by destruct (step_manim h w3); simplify_eq/=].
  apply (reaches_manim h w p w2 w3); [|subst w3; by destruct (step_pip h w2); simplify_eq/=].
  apply (reaches_pip h w p w1 w2); [|subst w2; by destruct (step_venv h p w1); simplify_eq/=].
  apply (reaches_venv h w w0 p w1).
  - subst w0. by destruct (os_makedirs (APP_DIR h) w); simplify_eq/=.
  - subst w1. by destruct (step_python h w0); simplify_eq/=.
Qed.

Lemma succeeds_run (h : Host) (w : World) (p : string) :
  let w4 := (step_manim h (step_pip h (step_venv h p (step_python h
               (os_makedirs (APP_DIR h) w).2).2).2).2).2 in
  reaches h w k_ffmpeg p w4 →
  (step_ffmpeg h w4).1 = Ok tt →
  (write_marker h (step_ffmpeg h w4).2).1 = Ok tt →
  succeeds h w (write_marker h (step_ffmpeg h w4).2).2.
Proof.
  intros w4 R E5 E6. exists p, w4, (step_ffmpeg h w4).2. split; [done|]. split.
  - by destruct (step_ffmpeg h w4); simplify_eq/=.
  - by destruct (write_marker h _); simplify_eq/=.
Qed.

Lemma bare_machine_succeeds :
  succeeds Bootstrap_example.h_bare Bootstrap_example.w_bare
    (_install_worker Bootstrap_example.h_bare Bootstrap_example.w_bare).2.
Proof.
  assert ((_install_worker Bootstrap_example.h_bare Bootstrap_example.w_bare).2
          = (write_marker Bootstrap_example.h_bare
               (step_ffmpeg Bootstrap_example.h_bare
                  (step_manim Bootstrap_example.h_bare
                     (step_pip Bootstrap_example.h_bare
                        (step_venv Bootstrap_example.h_bare Bootstrap_example.python
                           (step_python Bootstrap_example.h_bare
                              (os_makedirs (APP_DIR Bootstrap_example.h_bare)
                                 Bootstrap_example.w_bare).2).2).2).2).2).2).2) as ->
    by (vm_compute; reflexivity).
  apply succeeds_run; [|vm_compute; reflexivity..].
  apply reaches_ffmpeg_run; vm_compute; reflexivity.
Defined.


Lemma setup_record_contents_witness :
  fs (_install_worker Bootstrap_example.h_bare Bootstrap_example.w_bare).2
    !! SETUP_MARKER Bootstrap_example.h_bare
  = Some (File (json_dump Bootstrap_example.h_bare
                  (JObj [("python_version", JStr PYTHON_VERSION);
                         ("venv_dir", JStr (VENV_DIR Bootstrap_example.h_bare));
                         ("python_exe", to_json (PYTHON_EXE Bootstrap_example.w_bare))])) false)
  ∧ fs (_skip_setup Render_example.h No_manim.chosen (Demo.boot Render_example.h ∅)).2
      !! SETUP_MARKER Render_example.h
    = Some (File (json_dump Render_example.h
                    (JObj [("python_version", JStr "custom");
                           ("venv_dir",
                            JStr (dirname Render_example.h (dirname Render_example.h No_manim.chosen)));
                           ("python_exe", JStr No_manim.chosen);
                           ("skipped_setup", JBool true)])) false).
Proof.
  destruct (setup_record_contents Bootstrap_example.h_bare) as (_ & Hworker & _).
  destruct (setup_record_contents Render_example.h) as (_ & _ & _ & Hskip).
  split.
  - apply Hworker. apply bare_machine_succeeds.
  - apply (Hskip No_manim.chosen (Demo.boot Render_example.h ∅)
             {| returncode := 0; stdout := "ok" ++ nl; stderr := "" |} ∅);
      [reflexivity | discriminate | reflexivity | reflexivity | reflexivity | reflexivity].
Defined.


Lemma is_setup_complete_spec_witness :
  ∃ w', is_setup_complete Render_example.h Render_example.w = (Ok true, w').
Proof.
  destruct (is_setup_complete_spec Render_example.h Render_example.w) as (b & w' & E & Hiff).
  exists w'. rewrite E. f_equal. f_equal. apply Hiff.
  split; [vm_compute; reflexivity|].
  exists (PYTHON_EXE_initial Render_example.h).
  split; [vm_compute; reflexivity|]. split; [vm_compute; reflexivity|].
  exists {| returncode := 0; stdout := "ok" ++ nl; stderr := "" |}, Render_example.disk.
  split; [reflexivity | vm_compute; reflexivity].
Defined.

(** When the probe of a skip-validation raises, the callback that is queued
    reads [e] when the main loop runs it; the [except] clause has ended by
    then and Python has unbound [e], so the callback raises [NameError], the
    failure handler never runs, and the wizard keeps its two buttons disabled
    and the text it showed while probing. *)
Remark skip_setup_probe_raises_shows_nothing (h : Host) (chosen : string) (w : World)
    (e : exn) (f1 : gmap string node) :
  _installing (self w) = false →
  chosen ≠ "" →
  queue w = [] →
  run h (length (calls w)) (import_manim chosen) (Some 20) (fs w) = (inl e, f1) →
  let w' := mainloop (_skip_setup h chosen w).2 in
  status_var (self w') = "Seçilen Python kontrol ediliyor…"
  ∧ install_btn_disabled (self w') = true
  ∧ skip_btn_disabled (self w') = true.
Proof.
  intros Hidle Hchosen Hempty Hrun. cbv zeta.
  destruct (mainloop_effect (_skip_setup h chosen w).2) as (Hself & _).
  rewrite Hself. clear Hself. apply String.eqb_neq in Hchosen.
  unfold _skip_setup, validate, subprocess_run. unfold_M.
  rewrite Hidle, Hchosen. simpl. rewrite Hrun. simpl. by rewrite Hempty.
Qed.

(** * Further properties *)

(** * The widgets *)

(** X1: the polygon of [round_rect] has thirteen points and ends where it
    starts; all its points lie in the rectangle it is asked to round exactly
    when the radius is not negative and fits in both sides. *)
Theorem round_rect_within_box (x1 y1 x2 y2 radius : Z) :
  let pts := Widgets.points_of (Widgets.round_rect x1 y1 x2 y2 radius) in
  length pts = 13%nat
  ∧ head pts = last pts
  ∧ (Forall (λ p, x1 ≤ p.1 ≤ x2 ∧ y1 ≤ p.2 ≤ y2) pts
     ↔ 0 ≤ radius ∧ radius ≤ x2 - x1 ∧ radius ≤ y2 - y1).
Proof.
  simpl. split; [done|]. split; [done|]. split.
  - intros H. repeat (apply Forall_cons in H as [? H]). simpl in *. lia.
  - intros (H0 & Hx & Hy). repeat (apply Forall_cons; split; [simpl; lia|]). constructor.
Qed.



(** X3: disabling a button and enabling it again gives back the button it was
    exactly when it was enabled, had a white label and was drawn in its
    resting colour; in every case the label ends up white, so a label colour
    given to the constructor is lost. *)
Theorem modern_button_disable_enable {A} (b : Widgets.ModernButton A) :
  let b' := Widgets.set_disabled false (Widgets.set_disabled true b) in
  Widgets.fg_color b' = "#ffffff"
  ∧ Widgets._disabled b' = false
  ∧ (b' = b ↔ Widgets._disabled b = false
              ∧ Widgets.fg_color b = "#ffffff"
              ∧ Widgets.items b = Widgets.items (Widgets._draw (Widgets.bg_color b) b)).
Proof.
  cbv zeta. split; [done|]. split; [done|]. split.
  - intros H.
    pose proof (f_equal Widgets._disabled H) as H1.
    pose proof (f_equal Widgets.fg_color H) as H2.
    pose proof (f_equal Widgets.items H) as H3.
    simpl in H1, H2, H3. split; [done|]. split; [done|].
    rewrite <- H3. unfold Widgets._draw. simpl. by rewrite <- H2.
  - intros (H1 & H2 & H3). destruct b as [c w h r bg fg hov pr lab fs d its cur].
    simpl in H1, H2, H3. subst d fg its. reflexivity.
Qed.

(** * Downloads *)


Lemma bind_ok {A B} (m : M A) (k : A → M B) (w w' : World) (b : B) :
  bind m k w = (Ok b, w') → ∃ a w1, m w = (Ok a, w1) ∧ k a w1 = (Ok b, w').
Proof.
  unfold bind. destruct (m w) as [[a|e] w1]; [eauto|done].
Qed.

(** X5: [_download_python] never raises; it leaves the interpreter global, the
    printed lines, the window and the wizard object as they were and queues
    only status lines; and when it answers with a path, that path is
    [python.exe] in the [python] directory of the application directory and
    is a file. *)
Theorem download_python_outcome (h : Host) (w : World) :
  ∃ r w', _download_python h w = (Ok r, w')
    ∧ PYTHON_EXE w' = PYTHON_EXE w ∧ printed w' = printed w ∧ window w' = window w
    ∧ self w' = self w
    ∧ (∃ qs, queue w' = (queue w ++ qs)%list ∧ forallb status_cb qs = true)
    ∧ match r with
      | Some p => p = path_join (path_join (APP_DIR h) "python") "python.exe"
                  ∧ is_file (fs w') p = true
      | None => True
      end.
Proof.
  destruct (download_python_returns h w) as (r & w' & E). exists r, w'.
  pose proof (framed_download_python h w) as F. rewrite E in F. simpl in F.
  destruct F as [He Hp _ Hw _ _ Hq [Hs|[? _]]]; [|discriminate].
  split; [done|]. do 4 (split; [done|]). split; [done|].
  destruct r as [p|]; [|done]. unfold _download_python, try_except in E.
  match type of E with context [match ?body w with _ => _ end] =>
    destruct (body w) as [[r0|e] w0] eqn:Eb end; [|done].
  injection E as -> ->.
  repeat (apply bind_ok in Eb as (? & ? & ? & Eb)).
  match goal with H : os_path_isfile _ _ = _ |- _ => unfold os_path_isfile in H; injection H as <- <- end.
  unfold ret in Eb.
  match type of Eb with context [is_file ?f ?q] => destruct (is_file f q) eqn:Hf end;
    [|done].
  by injection Eb as <- <-.
Qed.

(** * The version test of the locator *)

Lemma split_no_sep (c : ascii) (s : string) :
  Str.contains (String c "") s = false → Str.split c s = [s].
Proof.
  induction s as [|a s IH]; [done|]. simpl.
  destruct (ascii_dec c a) as [->|Hne].
  - by destruct s.
  - simpl. intros Hs.
    assert (Ascii.eqb a c = false) as -> by (apply Ascii.eqb_neq; congruence).
    by rewrite (IH Hs).
Qed.

Lemma split_at_sep (c : ascii) (s t : string) :
  Str.contains (String c "") s = false →
  Str.split c (s ++ String c t) = s :: Str.split c t.
Proof.
  induction s as [|a s IH].
  - intros _. simpl. by rewrite Ascii.eqb_refl.
  - rewrite append_cons. simpl.
    destruct (ascii_dec c a) as [->|Hne].
    + by destruct s.
    + simpl. intros Hs.
      assert (Ascii.eqb a c = false) as -> by (apply Ascii.eqb_neq; congruence).
      by rewrite (IH Hs).
Qed.

Lemma contains_prefix (needle hay : string) :
  String.prefix needle hay = true → Str.contains needle hay = true.
Proof.
  intros H. destruct hay; simpl in *; by rewrite H.
Qed.

(** X6: the version test on a line [Python 3.<minor>] or
    [Python 3.<minor>.<rest>], where [<minor>] holds no dot: the line is
    accepted exactly when [int(<minor>)] is at least 8, and the test raises
    ([ValueError]) when [<minor>] does not read as an integer; nothing after
    the second dot matters. *)
Theorem version_ok_minor (minor rest : string) :
  Str.contains "." minor = false →
  version_ok ("Python 3." ++ minor) = (λ m, 8 <=? m) <$> Str.int minor
  ∧ version_ok ("Python 3." ++ minor ++ "." ++ rest) = (λ m, 8 <=? m) <$> Str.int minor.
Proof.
  intros Hdot. unfold version_ok.
  assert (∀ t, Str.contains "Python 3." ("Python 3." ++ t) = true) as Hc.
  { intros t. apply contains_prefix.
    change (String.prefix ("Python 3." ++ "") ("Python 3." ++ t) = true).
    rewrite prefix_append. by destruct t. }
  rewrite !Hc. split.
  - change ("Python 3." ++ minor) with ("Python 3" ++ String "." minor).
    rewrite (split_at_sep "." "Python 3" minor) by done.
    by rewrite (split_no_sep "." minor Hdot).
  - change ("Python 3." ++ minor ++ "." ++ rest)
      with ("Python 3" ++ String "." (minor ++ String "." rest)).
    rewrite (split_at_sep "." "Python 3") by done.
    by rewrite (split_at_sep "." minor rest Hdot).
Qed.

Lemma version_ok_minor_witness :
  version_ok "Python 3.11" = Some true ∧ version_ok "Python 3.11.9" = Some true.
Proof.
  apply (version_ok_minor "11" "9"). reflexivity.
Defined.

(** * What the setup check touches *)

Lemma effective_exe_cases (h : Host) (w : World) :
  effective_exe h w = PYTHON_EXE w ∨ names_file h (fs w) (effective_exe h w) = true.
Proof.
  unfold effective_exe. destruct (saved_exe h w) as [v|]; [|by left].
  destruct (names_file h (fs w) v) eqn:Hs; [by right|by left].
Qed.

(** X7: the setup check prints nothing, queues nothing and leaves the wizard
    and the window alone; it rebinds the interpreter global at most to a
    value [os.path.isfile] accepts (a path that is a file, or a number or a
    boolean whose descriptor is a file); it writes no file itself and runs at
    most one child process, the import probe of the interpreter in effect
    with a limit of 15 seconds; and when there is no marker file it changes
    nothing at all. *)
Theorem is_setup_complete_effects (h : Host) (w : World) :
  let r := is_setup_complete h w in
  let exe := PYTHON_EXE r.2 in
  printed r.2 = printed w ∧ queue r.2 = queue w ∧ self r.2 = self w ∧ window r.2 = window w
  ∧ (exe = PYTHON_EXE w ∨ names_file h (fs w) exe = true)
  ∧ ((calls r.2 = calls w ∧ fs r.2 = fs w)
     ∨ (∃ python, exe = VStr python
          ∧ calls r.2 = (calls w ++ [Ran (import_manim python) (Some 15) (fs w)])%list
          ∧ fs r.2 = (run h (length (calls w)) (import_manim python) (Some 15) (fs w)).2))
  ∧ (is_file (fs w) (SETUP_MARKER h) = false → r = (Ok false, w)).
Proof.
  cbv zeta. rewrite is_setup_complete_unfold.
  destruct (is_file (fs w) (SETUP_MARKER h)); simpl.
  2: { repeat split; try done; [by left | left; split; done]. }
  pose proof (effective_exe_cases h w) as Hexe.
  destruct (names_file h (fs w) (effective_exe h w)) eqn:Hf; simpl.
  2: { destruct Hexe as [He|?]; [|done]. repeat split; try done; [by left | left; split; done]. }
  destruct (effective_exe h w) as [python|n|b] eqn:He.
  2,3: simpl; (do 4 (split; [done|])); (split; [by right|]); (split; [|done]); by left.
  destruct (run h _ _ _ _) as [[e|cp] f'] eqn:Hrun; simpl;
    (do 4 (split; [done|])); (split; [by right|]); (split; [|done]); right;
    exists python; by rewrite Hrun.
Qed.

Lemma is_setup_complete_effects_witness :
  is_setup_complete Plain_machine.h Plain_machine.w = (Ok false, Plain_machine.w).
Proof.
  apply (is_setup_complete_effects Plain_machine.h Plain_machine.w). reflexivity.
Defined.

Lemma is_setup_complete_returns (h : Host) (w : World) :
  ∃ b w', is_setup_complete h w = (Ok b, w').
Proof.
  rewrite is_setup_complete_unfold.
  destruct (negb (is_file (fs w) (SETUP_MARKER h))); [eauto|]. simpl.
  destruct (negb (names_file h (fs w) (effective_exe h w))); [eauto|].
  destruct (effective_exe h w) as [python|n|b]; [|eauto..].
  destruct (run h _ _ _ _) as [[e|cp] f']; eauto.
Qed.

(** * What the headless renderer prints *)

Lemma remove_script_effect (h : Host) (w w' : World) (r : result unit) :
  remove_script h w = (r, w') →
  printed w' = printed w ∧ (r = Ok tt → fs w' !! script_path h = None).
Proof.
  unfold remove_script, os_remove, try_except, ret.
  destruct (fs w !! script_path h) as [[? []|]|] eqn:Hs; simpl; intros [= <- <-]; simpl;
    split; try done.
  intros _. apply lookup_delete_eq.
Qed.

Lemma write_file_printed (p text : string) (w w' : World) (r : result unit) :
  write_file p text w = (r, w') → printed w' = printed w.
Proof.
  unfold write_file. by destruct (fs w !! p) as [[? []|]|]; intros [= <- <-].
Qed.

Lemma subprocess_run_printed (h : Host) (c : command) (t : option Z) (w w' : World)
    (r : result CompletedProcess) :
  subprocess_run h c t w = (r, w') → printed w' = printed w.
Proof.
  unfold subprocess_run. by destruct (run h _ _ _ _) as [[e|cp] f']; intros [= <- <-].
Qed.

Lemma print_effect (h : Host) (line : string) (w : World) :
  print h line w = (Ok tt, with_printed (printed w ++ [line]) w)
  ∨ ∃ e, print h line w = (Raise e, w).
Proof. unfold print. destruct (stdout_encodes h line); eauto. Qed.

(** X8: the headless renderer prints exactly one line whenever it returns: the
    file-not-found line, the not-set-up line, or, once the render command has
    run, the success or the failure line according to whether the output file
    exists, and in that last case the script file is gone; and when an
    exception escapes it has printed nothing. *)
Theorem process_svg_cli_prints_once (h : Host) (svg_path : string) (w : World) :
  let r := _process_svg_cli h svg_path w in
  match r.1 with
  | Ok _ =>
      ∃ line, printed r.2 = (printed w ++ [line])%list
        ∧ (line = "Hata: Dosya bulunamadı: " ++ svg_path
           ∨ line = "Hata: Ortam henüz kurulmamış. Önce GUI'yi çalıştırın: python QuickAnimations.py"
           ∨ (line = (if is_file (fs r.2) (output_path h svg_path)
                      then "✓ Video oluşturuldu: " ++ output_path h svg_path
                      else "✗ Video oluşturulamadı.")
              ∧ fs r.2 !! script_path h = None))
  | Raise _ => printed r.2 = printed w
  end.
Proof.
  cbv zeta. destruct (_process_svg_cli h svg_path w) as [res w'] eqn:E0. simpl.
  destruct (is_file (fs w) svg_path) eqn:Hsvg.
  2: { rewrite process_svg_cli_missing in E0 by done.
       destruct (print_effect h ("Hata: Dosya bulunamadı: " ++ svg_path) w) as [E|[e E]];
         rewrite E in E0; injection E0 as <- <-; simpl; eauto. }
  unfold _process_svg_cli in E0. unfold bind at 1 in E0. unfold os_path_isfile at 1 in E0.
  rewrite Hsvg in E0. simpl in E0.
  destruct (is_setup_complete_returns h w) as (b & w1 & E).
  pose proof (is_setup_complete_printed h w w1 b E) as Hp1.
  unfold bind at 1 in E0. rewrite E in E0. destruct b; simpl in E0.
  2: { match type of E0 with print h ?l w1 = _ =>
         destruct (print_effect h l w1) as [E'|[e E']] end;
         rewrite E' in E0; injection E0 as <- <-; simpl; rewrite ?Hp1; eauto. }
  unfold bind at 1 in E0. destruct (remove_script h w1) as [[[]|e1] w2] eqn:E2.
  2: { injection E0 as <- <-. apply remove_script_effect in E2 as [-> _]. done. }
  apply remove_script_effect in E2 as [Hp2 _].
  unfold bind at 1 in E0. destruct (write_file _ _ w2) as [[[]|e3] w3] eqn:E3.
  2: { injection E0 as <- <-. apply write_file_printed in E3. congruence. }
  apply write_file_printed in E3.
  unfold bind at 1 in E0. unfold get at 1 in E0.
  unfold bind at 1 in E0. destruct (subprocess_run h _ _ w3) as [[cp|e4] w4] eqn:E4.
  2: { injection E0 as <- <-. apply subprocess_run_printed in E4. congruence. }
  apply subprocess_run_printed in E4.
  unfold bind at 1 in E0. destruct (remove_script h w4) as [[[]|e5] w5] eqn:E5.
  2: { injection E0 as <- <-. apply remove_script_effect in E5 as [-> _]. congruence. }
  apply remove_script_effect in E5 as [Hp5 Hgone]. specialize (Hgone eq_refl).
  unfold bind, os_path_isfile in E0.
  destruct (is_file (fs w5) (output_path h svg_path)) eqn:Hout;
    match type of E0 with print h ?l w5 = _ =>
      destruct (print_effect h l w5) as [E'|[e E']] end;
    rewrite E' in E0; injection E0 as <- <-; simpl; rewrite ?Hout;
    try (by rewrite Hp5, E4, E3, Hp2, Hp1);
    (eexists; split; [by rewrite Hp5, E4, E3, Hp2, Hp1|]; right; right; done).
Qed.

(** * How a bootstrap ends *)

Lemma shows_failure_app (qs1 qs2 : list callback) :
  shows_failure qs2 → shows_failure (qs1 ++ qs2).
Proof.
  intros H cell s. rewrite !replay_app. apply H.
Qed.

Lemma replay_worker_skip_btn (cell : option exn) (qs : list callback) (s : SetupScreen) :
  forallb worker_cb qs = true → skip_btn_disabled (replay cell qs s) = skip_btn_disabled s.
Proof.
  revert s. induction qs as [|cb qs IH]; intros s; [done|]. simpl.
  intros [Hcb Hqs]%andb_true_iff. unfold replay in *. simpl. rewrite IH by done.
  by destruct cb.
Qed.

Lemma replay_installing (cell : option exn) (qs : list callback) (s : SetupScreen) :
  _installing (replay cell qs s) = _installing s.
Proof.
  revert s. induction qs as [|cb qs IH]; intros s; [done|].
  unfold replay in *. simpl. rewrite IH. destruct cb; try done. simpl. by destruct cell.
Qed.

Ltac fail_leaf :=
  first
    [ by intros [=]
    | intros _; eexists; split;
      [ simpl; repeat match goal with H : queue _ = _ |- _ => rewrite H end;
        by rewrite <- ?app_assoc
      | intros cell s; rewrite ?replay_app; simpl; do 3 (split; [done|]); by eexists ] ].

Lemma step_venv_fail (h : Host) (p : string) (w : World) :
  (step_venv h p w).1 = Ok false →
  ∃ qs, queue (step_venv h p w).2 = (queue w ++ qs)%list ∧ shows_failure qs.
Proof.
  unfold step_venv, _update_status, _update_desc, _fail, shutil_rmtree, subprocess_run.
  unfold_M. simpl.
  destruct (is_dir (fs w) (VENV_DIR h)) eqn:Hd; simpl.
  - unfold is_dir in Hd. destruct (fs w !! VENV_DIR h) as [[]|]; try done. simpl.
    destruct (run h _ _ _ _) as [[e|cp] f']; simpl; [fail_leaf|].
    destruct (returncode cp =? 0); simpl; fail_leaf.
  - destruct (run h _ _ _ _) as [[e|cp] f']; simpl; [fail_leaf|].
    destruct (returncode cp =? 0); simpl; fail_leaf.
Qed.

Lemma step_manim_fail (h : Host) (w : World) :
  (step_manim h w).1 = Ok false →
  ∃ qs, queue (step_manim h w).2 = (queue w ++ qs)%list ∧ shows_failure qs.
Proof.
  unfold step_manim, _update_status, _update_desc, _fail, subprocess_run.
  unfold_M. simpl.
  destruct (run h _ _ _ _) as [[e|cp] f']; simpl; [fail_leaf|].
  destruct (returncode cp =? 0); simpl; fail_leaf.
Qed.

Lemma step_pip_fail (h : Host) (w : World) :
  (step_pip h w).1 = Ok false →
  ∃ qs, queue (step_pip h w).2 = (queue w ++ qs)%list ∧ shows_failure qs.
Proof.
  unfold step_pip, _update_status, _update_desc, _fail, subprocess_run, os_remove.
  unfold_M. simpl.
  destruct (run h _ _ _ _) as [[e|cp] f1]; simpl; [fail_leaf|].
  destruct (returncode cp =? 0); simpl.
  { destruct (run h _ _ _ _) as [[e|cp2] f2]; simpl; fail_leaf. }
  match goal with
  | |- context [_download_file h ?url ?dest ?W] =>
      pose proof (framed_download_file h url dest ltac:(path_side) W) as Hd;
      destruct (_download_file h url dest W) as [[[]|e] w2]
  end; helper_frame Hd; simpl; [|fail_leaf].
  destruct (run h _ _ _ _) as [[e|cp2] f2]; simpl; [fail_leaf|].
  destruct (returncode cp2 =? 0); simpl; [|fail_leaf].
  destruct (f2 !! path_join (APP_DIR h) "get-pip.py") as [[? []|]|]; simpl;
    (destruct (run h _ _ _ _) as [[e|cp3] f3]; simpl; fail_leaf).
Qed.

Lemma step_python_fail (h : Host) (w w' : World) :
  step_python h w = (Ok None, w') →
  ∃ qs, queue w' = (queue w ++ qs)%list ∧ shows_failure qs.
Proof.
  unfold step_python. unfold bind at 1. unfold _update_status at 1. unfold_M. simpl.
  match goal with
  | |- context [find_system_python h ?W] =>
      pose proof (framed_find_system_python h W) as Hf;
      destruct (find_system_python_returns h W) as (r1 & w1 & E1); rewrite E1 in *
  end.
  helper_frame Hf. destruct r1 as [p|]; simpl.
  { unfold _update_desc, _update_status. unfold_M. simpl. by intros [=]. }
  unfold_M. simpl.
  match goal with
  | |- context [_download_python h ?W] =>
      pose proof (framed_download_python h W) as Hd;
      destruct (download_python_returns h W) as (r2 & w2 & E2); rewrite E2 in *
  end.
  helper_frame Hd. destruct r2 as [p|]; simpl.
  - unfold _update_desc, _update_status. unfold_M. simpl. by intros [=].
  - unfold _fail. unfold_M. simpl. intros [= <-]. eexists. split.
    + simpl. repeat match goal with H : queue _ = _ |- _ => rewrite H end.
      by rewrite <- ?app_assoc.
    + intros cell s. rewrite ?replay_app. simpl. do 3 (split; [done|]). by eexists.
Qed.

(** Every run of the five steps ends in one of three ways. *)
Lemma install_steps_cases (h : Host) (w : World) :
  (∃ k wk, halts_at h w k wk)
  ∨ (∃ w', succeeds h w w')
  ∨ (∃ e w1, install_steps h w = (Raise e, w1)).
Proof.
  destruct (os_makedirs (APP_DIR h) w) as [[[]|e] w0] eqn:E0.
  2: { right; right. exists e, w0. unfold install_steps. unfold bind at 1. by rewrite E0. }
  destruct (step_python_rows h w0) as (r & w1 & _ & E1 & _).
  destruct r as [p|]; [|left; exists k_python, w1; by eapply halts_python].
  pose proof (reaches_venv h w w0 p w1 E0 E1) as R1.
  destruct (step_venv h p w1) as [[[]|e] w2] eqn:E2.
  2: { left. exists k_venv, w2. by eapply halts_venv. }
  2: { right; right. exists e, w2. destruct (reaches_facts _ _ _ _ _ R1) as (_ & _ & _ & ->).
       simpl. unfold from_venv. unfold bind at 1. by rewrite E2. }
  pose proof (reaches_pip h w p w1 w2 R1 E2) as R2.
  destruct (step_pip h w2) as [[[]|e] w3] eqn:E3.
  2: { left. exists k_pip, w3. by eapply halts_pip. }
  2: { right; right. exists e, w3. destruct (reaches_facts _ _ _ _ _ R2) as (_ & _ & _ & ->).
       simpl. unfold from_pip. unfold bind at 1. by rewrite E3. }
  pose proof (reaches_manim h w p w2 w3 R2 E3) as R3.
  destruct (step_manim h w3) as [[[]|e] w4] eqn:E4.
  2: { left. exists k_manim, w4. by eapply halts_manim. }
  2: { right; right. exists e, w4. destruct (reaches_facts _ _ _ _ _ R3) as (_ & _ & _ & ->).
       simpl. unfold from_manim. unfold bind at 1. by rewrite E4. }
  pose proof (reaches_ffmpeg h w p w3 w4 R3 E4) as R4.
  destruct (reaches_facts _ _ _ _ _ R4) as (_ & _ & _ & Hcode).
  destruct (step_ffmpeg h w4) as [[[]|e] w5] eqn:E5.
  2: { right; right. exists e, w5. rewrite Hcode. simpl. unfold from_ffmpeg.
       unfold bind at 1. by rewrite E5. }
  destruct (write_marker h w5) as [[[]|e] w6] eqn:E6.
  - right; left. exists w6, p, w4, w5. done.
  - right; right. exists e, w6. rewrite Hcode. simpl. unfold from_ffmpeg.
    unfold bind at 1. by rewrite E5.
Qed.

Lemma halts_at_shows_failure (h : Host) (w : World) (k : check_key) (wk : World) :
  halts_at h w k wk → ∃ qs, queue wk = (queue w ++ qs)%list ∧ shows_failure qs.
Proof.
  destruct 1 as [w0 w1 E0 E1 | p w1 w2 R E | p w2 w3 R E | p w3 w4 R E].
  - destruct (os_makedirs_facts _ _ _ _ E0) as (_ & Hq0 & _).
    destruct (step_python_fail _ _ _ E1) as (qs & Hq & Hf). exists qs. by rewrite Hq, Hq0.
  - destruct (reaches_facts _ _ _ _ _ R) as (_ & _ & (qs & Hq & _) & _).
    destruct (step_venv_fail h p w1) as (qs' & Hq' & Hf); [by rewrite E|]. rewrite E in Hq'. simpl in Hq'.
    exists (qs ++ qs')%list. split; [by rewrite Hq', Hq, app_assoc|by apply shows_failure_app].
  - destruct (reaches_facts _ _ _ _ _ R) as (_ & _ & (qs & Hq & _) & _).
    destruct (step_pip_fail h w2) as (qs' & Hq' & Hf); [by rewrite E|]. rewrite E in Hq'. simpl in Hq'.
    exists (qs ++ qs')%list. split; [by rewrite Hq', Hq, app_assoc|by apply shows_failure_app].
  - destruct (reaches_facts _ _ _ _ _ R) as (_ & _ & (qs & Hq & _) & _).
    destruct (step_manim_fail h w3) as (qs' & Hq' & Hf); [by rewrite E|]. rewrite E in Hq'. simpl in Hq'.
    exists (qs ++ qs')%list. split; [by rewrite Hq', Hq, app_assoc|by apply shows_failure_app].
Qed.

Lemma install_steps_raise_frame (h : Host) (w w1 : World) (e : exn) :
  install_steps h w = (Raise e, w1) → frame h worker_cb w w1.
Proof.
  unfold install_steps.
  unfold bind at 1. destruct (os_makedirs (APP_DIR h) w) as [[[]|e0] w0] eqn:E0;
    destruct (os_makedirs_facts _ _ _ _ E0) as (F0 & _);
    [|by intros [= _ <-]].
  unfold bind at 1. destruct (step_python h w0) as [[[p|]|e1] w1'] eqn:E1;
    pose proof (framed_step_python h w0) as F1; rewrite E1 in F1; simpl in F1;
    pose proof (frame_trans _ _ _ _ _ F0 F1) as G1;
    [|by intros [=]|by intros [= _ <-]].
  unfold bind at 1. destruct (step_venv h p w1') as [[[]|e2] w2] eqn:E2;
    destruct (step_venv_facts _ _ _ _ _ E2) as (F2 & _);
    pose proof (frame_trans _ _ _ _ _ G1 F2) as G2; simpl;
    [|by intros [=]|by intros [= _ <-]].
  unfold bind at 1. destruct (step_pip h w2) as [[[]|e3] w3] eqn:E3;
    destruct (step_pip_facts _ _ _ _ E3) as (F3 & _);
    pose proof (frame_trans _ _ _ _ _ G2 F3) as G3; simpl;
    [|by intros [=]|by intros [= _ <-]].
  unfold bind at 1. destruct (step_manim h w3) as [[[]|e4] w4] eqn:E4;
    destruct (step_manim_facts _ _ _ _ E4) as (F4 & _);
    pose proof (frame_trans _ _ _ _ _ G3 F4) as G4; simpl;
    [|by intros [=]|by intros [= _ <-]].
  unfold bind at 1. destruct (step_ffmpeg h w4) as [[[]|e5] w5] eqn:E5;
    destruct (step_ffmpeg_facts _ _ _ _ E5) as (F5 & _);
    pose proof (frame_trans _ _ _ _ _ G4 F5) as G5; simpl;
    [|by intros [= _ <-]].
  unfold write_marker, write_file. unfold_M. simpl.
  destruct (fs w5 !! SETUP_MARKER h) as [[? []|]|] eqn:Hm; simpl; try (by intros [=]);
    by intros [= _ <-].
Qed.

Lemma set_installing_twice (s : SetupScreen) (b : bool) :
  set_installing false (set_installing b s) = set_installing false s.
Proof. done. Qed.

(** The two ways a run of the worker ends: with the completion callback
    queued last, or with the failure shown and [_installing] reset. *)
Lemma install_worker_ends (h : Host) (w : World) :
  let w' := (_install_worker h w).2 in
  (_install_worker h w).1 = Ok tt
  ∧ window w' = window w
  ∧ ((∃ qs, queue w' = (queue w ++ qs ++ [cb_on_install_complete])%list
            ∧ forallb worker_cb qs = true ∧ self w' = self w)
     ∨ (∃ qs, queue w' = (queue w ++ qs)%list
              ∧ forallb worker_cb qs = true ∧ shows_failure qs
              ∧ self w' = set_installing false (self w))).
Proof.
  destruct (install_steps_cases h w) as [(k & wk & Hh)|[(w' & Hs)|(e & w1 & E)]].
  - destruct (halts_at_facts _ _ _ _ Hh) as (F & Hself & (qs & Hq & Hw & _) & Hcode).
    destruct (halts_at_shows_failure _ _ _ _ Hh) as (qs' & Hq' & Hf).
    assert (qs' = qs) as -> by (apply (app_inv_head (queue w)); congruence).
    unfold _install_worker, try_except. rewrite Hcode. simpl.
    split; [done|]. split; [apply F|]. right. by exists qs.
  - destruct (succeeds_facts _ _ _ Hs) as (-> & _ & _ & Hself & Hwin & qs & Hq & Hw & _).
    simpl. split; [done|]. split; [done|]. left. by exists qs.
  - pose proof (install_steps_raise_frame _ _ _ _ E) as F.
    rewrite (install_worker_raise _ _ _ _ E). simpl.
    destruct F as [_ _ _ Hwin _ _ (qs & Hq & Hw) Hself].
    split; [done|]. split; [done|]. right.
    eexists (qs ++ [_; _; _; _])%list. rewrite Hq, <- app_assoc. split; [done|]. split.
    + by rewrite forallb_app, Hw.
    + split.
      * apply shows_failure_app. intros cell s. simpl. do 3 (split; [done|]). by eexists.
      * destruct Hself as [->|[_ ->]]; done.
Qed.

(** X9: a bootstrap started from the idle wizard never leaves the wizard
    stuck, whatever the machine does: [_start_install] returns, and once the
    main loop has run the callbacks either the main screen has been opened, or
    the wizard is still shown with a failure text on the status line, the bar
    at rest and empty, [_installing] reset and the install button enabled
    again, while the skip button stays disabled. *)
Theorem start_install_never_stuck (h : Host) (w : World) :
  _installing (self w) = false →
  queue w = [] →
  let w' := mainloop (_start_install h w).2 in
  (_start_install h w).1 = Ok tt
  ∧ (window w' = Some MainApp
     ∨ (window w' = window w
        ∧ _installing (self w') = false
        ∧ install_btn_disabled (self w') = false
        ∧ skip_btn_disabled (self w') = true
        ∧ progress_animating (self w') = false
        ∧ progress (self w') = 0
        ∧ ∃ msg, status_var (self w') = "❌  " ++ msg)).
Proof.
  intros Hidle Hempty.
  assert (_start_install h w = _install_worker h (started w)) as ->.
  { unfold _start_install. unfold_M. by rewrite Hidle. }
  cbv zeta.
  destruct (install_worker_ends h (started w)) as (Hok & Hwin & Hend).
  split; [done|].
  destruct (mainloop_effect (_install_worker h (started w)).2)
    as (Hself & _ & _ & _ & _ & _ & _ & Hloop).
  rewrite Hself, Hloop. clear Hself Hloop.
  destruct Hend as [(qs & Hq & Hw & Hs)|(qs & Hq & Hw & Hf & Hs)].
  - left. rewrite Hq, !existsb_app. simpl. by rewrite !orb_true_r.
  - right. rewrite Hq, Hs, Hwin. simpl. rewrite Hempty. simpl.
    rewrite (worker_cb_stays _ Hw). split; [done|].
    rewrite replay_set_installing. simpl.
    rewrite (replay_worker_skip_btn _ _ _ Hw). simpl.
    destruct (Hf (e_cell (_install_worker h (started w)).2)
                (set_animating true (set_skip_btn true (set_install_btn true
                   (set_installing true (self w))))))
      as (H1 & H2 & H3 & H4).
    done.
Qed.

Lemma start_install_never_stuck_witness :
  let w' := mainloop (_start_install Bootstrap_example.h_manim Bootstrap_example.w_manim).2 in
  (_start_install Bootstrap_example.h_manim Bootstrap_example.w_manim).1 = Ok tt
  ∧ (window w' = Some MainApp
     ∨ (window w' = window Bootstrap_example.w_manim
        ∧ _installing (self w') = false
        ∧ install_btn_disabled (self w') = false
        ∧ skip_btn_disabled (self w') = true
        ∧ progress_animating (self w') = false
        ∧ progress (self w') = 0
        ∧ ∃ msg, status_var (self w') = "❌  " ++ msg)).
Proof.
  apply (start_install_never_stuck Bootstrap_example.h_manim Bootstrap_example.w_manim);
    reflexivity.
Defined.

(** X10: when a step of the worker raises (a time-out, a program that cannot be
    started, a file that cannot be written), the worker itself returns; once the
    main loop has run the callbacks of a run started with none pending, the
    status line reads the unexpected-error text followed by the first 200
    characters of the text of the exception, [_installing] is reset, the
    install button is enabled, the bar is at rest and empty, the wizard stays
    on screen, the interpreter global is as before and so is the marker file
    (child processes leaving it alone). *)
Theorem install_worker_unexpected_error (h : Host) (w w1 : World) (e : exn) :
  install_steps h w = (Raise e, w1) →
  queue w = [] →
  let w' := mainloop (_install_worker h w).2 in
  (_install_worker h w).1 = Ok tt
  ∧ status_var (self w') = "❌  Beklenmeyen hata: " ++ Str.take 200 (exn_str e)
  ∧ _installing (self w') = false
  ∧ install_btn_disabled (self w') = false
  ∧ progress_animating (self w') = false
  ∧ progress (self w') = 0
  ∧ window w' = window w
  ∧ PYTHON_EXE w' = PYTHON_EXE w
  ∧ (marker_safe h → fs w' !! SETUP_MARKER h = fs w !! SETUP_MARKER h).
Proof.
  intros E Hempty. cbv zeta.
  pose proof (install_steps_raise_frame _ _ _ _ E) as F.
  rewrite (install_worker_raise _ _ _ _ E). simpl.
  destruct (mainloop_effect
              (with_self (set_installing false (self w1))
                 (with_queue (queue w1 ++
                    [cb_stop_indeterminate; cb_set_progress 0;
                     cb_status ("❌  " ++ "Beklenmeyen hata: " ++ Str.take 200 (exn_str e));
                     cb_install_btn_enable]) w1)))
    as (Hself & _ & Hfs & _ & Hexe & _ & _ & Hloop).
  rewrite Hself, Hfs, Hexe, Hloop. clear Hself Hfs Hexe Hloop. simpl.
  destruct F as [Hexe _ _ Hwin Hmark _ (qs & Hq & Hw) _].
  rewrite replay_app, replay_set_installing. simpl.
  split; [done|]. split; [done|]. do 4 (split; [done|]).
  split; [|split; [done|done]].
  rewrite existsb_app. simpl. rewrite orb_false_r, Hq, Hempty. simpl.
  by rewrite (worker_cb_stays _ Hw).
Qed.

Lemma slow_machine_raises :
  install_steps Bootstrap_example.h_slow Bootstrap_example.w_slow
  = (Raise (Exn TimeoutExpired "timed out after 120 seconds"),
     (install_steps Bootstrap_example.h_slow Bootstrap_example.w_slow).2).
Proof. apply result_eta. vm_compute. reflexivity. Defined.

Lemma install_worker_unexpected_error_witness :
  let w' := mainloop (_install_worker Bootstrap_example.h_slow Bootstrap_example.w_slow).2 in
  status_var (self w') = "❌  Beklenmeyen hata: timed out after 120 seconds"
  ∧ install_btn_disabled (self w') = false.
Proof.
  cbv zeta.
  pose proof (install_worker_unexpected_error Bootstrap_example.h_slow
                Bootstrap_example.w_slow _ _ slow_machine_raises eq_refl) as H.
  cbv zeta in H. destruct H as (_ & Hs & _ & Hb & _).
  split; [rewrite Hs; reflexivity | exact Hb].
Defined.

(** X11: a bootstrap started from the idle wizard that gets through all five
    steps and writes the marker: once the main loop has run the callbacks,
    every row shows done, the bar is at rest and full, the status line reads
    the completion text, and the main screen has been opened; [_installing]
    is still set, so that [_start_install] would do nothing. *)
Theorem start_install_success_screen (h : Host) (w w1 : World) :
  _installing (self w) = false →
  queue w = [] →
  succeeds h (started w) w1 →
  let w' := mainloop (_start_install h w).2 in
  (_start_install h w).2 = w1
  ∧ (∀ k, checks (self w') k = done_)
  ∧ progress_animating (self w') = false
  ∧ progress (self w') = 1
  ∧ status_var (self w') = "✅  Kurulum tamamlandı! Uygulama başlatılıyor…"
  ∧ window w' = Some MainApp
  ∧ _installing (self w') = true
  ∧ _start_install h w' = (Ok tt, w').
Proof.
  intros Hidle Hempty Hs.
  assert (_start_install h w = _install_worker h (started w)) as ->.
  { unfold _start_install. unfold_M. by rewrite Hidle. }
  destruct (succeeds_screen _ _ _ Hs Hempty) as (Hrows & Hwin & _).
  destruct (succeeds_facts _ _ _ Hs) as (-> & _ & _ & Hself & _ & qs & Hq & Hw & _).
  unfold started in Hq, Hself. simpl in Hq, Hself. rewrite Hempty in Hq. simpl in Hq.
  cbv zeta. simpl. split; [done|]. split; [done|].
  destruct (mainloop_effect w1) as (Hself' & _).
  assert (_installing (self (mainloop w1)) = true) as Hinst.
  { by rewrite Hself', replay_installing, Hself. }
  split; [|split; [|split; [|split; [done|split; [done|]]]]].
  - by rewrite Hself', Hq, replay_app.
  - by rewrite Hself', Hq, replay_app.
  - by rewrite Hself', Hq, replay_app.
  - unfold _start_install. unfold_M. by rewrite Hinst.
Qed.

Lemma start_install_success_screen_witness :
  let w' := mainloop (_start_install Bootstrap_example.h_bare Bootstrap_example.w_bare).2 in
  (∀ k, checks (self w') k = done_)
  ∧ progress (self w') = 1
  ∧ window w' = Some MainApp.
Proof.
  destruct (start_install_success_screen Bootstrap_example.h_bare Bootstrap_example.w_bare
              (_install_worker Bootstrap_example.h_bare (started Bootstrap_example.w_bare)).2)
    as (_ & H1 & _ & H2 & _ & H3 & _);
    [reflexivity | reflexivity | | exact (conj H1 (conj H2 H3))].
  set (h := Bootstrap_example.h_bare). set (w := started Bootstrap_example.w_bare).
  assert ((_install_worker h w).2
          = (write_marker h
               (step_ffmpeg h
                  (step_manim h
                     (step_pip h
                        (step_venv h Bootstrap_example.python
                           (step_python h
                              (os_makedirs (APP_DIR h) w).2).2).2).2).2).2).2) as ->
    by (vm_compute; reflexivity).
  apply succeeds_run; [|vm_compute; reflexivity..].
  apply reaches_ffmpeg_run; vm_compute; reflexivity.
Defined.

(** * The skip path and the entry point *)

(** X12: [_skip_setup] never raises.  While a bootstrap is running, or when the
    file dialog is cancelled, it changes nothing and runs nothing.  Otherwise
    it disables both buttons, shows the checking text, runs exactly one child
    process (the import probe of the chosen interpreter, with a limit of 20
    seconds) and queues exactly one callback. *)
Theorem skip_setup_one_probe (h : Host) (chosen : string) (w : World) :
  let r := _skip_setup h chosen w in
  r.1 = Ok tt
  ∧ if _installing (self w) || String.eqb chosen "" then r.2 = w
    else calls r.2 = (calls w ++ [Ran (import_manim chosen) (Some 20) (fs w)])%list
         ∧ (∃ cb, queue r.2 = (queue w ++ [cb])%list)
         ∧ self r.2 = set_skip_btn true (set_install_btn true
                        (set_status_var "Seçilen Python kontrol ediliyor…" (self w))).
Proof.
  cbv zeta. unfold _skip_setup, validate, subprocess_run, os_makedirs, write_file.
  unfold_M. simpl.
  destruct (_installing (self w)); [done|].
  destruct (String.eqb chosen ""); [done|]. simpl.
  destruct (run h _ _ _ _) as [[e|cp] f1]; simpl; [by eauto|].
  destruct (String.eqb _ "ok"); simpl; [|by eauto].
  destruct (f1 !! APP_DIR h) as [[]|] eqn:Happ; simpl; [by eauto| |].
  all: destruct (_ !! SETUP_MARKER h) as [[? []|]|]; simpl; by eauto.
Qed.

(** X13: a skip-validation that succeeds (the probe prints ok and the marker can
    be written), started with no callback pending: once the main loop has run
    the callbacks, all five rows show done, the status line names the chosen
    interpreter, the bar is full, both buttons are still disabled and the
    main screen has been opened. *)
Theorem skip_setup_success_screen (h : Host) (chosen : string) (w : World)
    (cp : CompletedProcess) (f1 : gmap string node) :
  _installing (self w) = false →
  chosen ≠ "" →
  queue w = [] →
  run h (length (calls w)) (import_manim chosen) (Some 20) (fs w) = (inr cp, f1) →
  Str.strip (stdout cp) = "ok" →
  is_file f1 (APP_DIR h) = false →
  free f1 (SETUP_MARKER h) = true →
  let w' := mainloop (_skip_setup h chosen w).2 in
  (∀ k, checks (self w') k = done_)
  ∧ status_var (self w') = "✅  Mevcut kurulum doğrulandı: " ++ chosen
  ∧ progress (self w') = 1
  ∧ install_btn_disabled (self w') = true
  ∧ skip_btn_disabled (self w') = true
  ∧ window w' = Some MainApp
  ∧ queue w' = [].
Proof.
  intros Hidle Hchosen Hempty Hrun Hok Happ Hfree.
  apply String.eqb_neq in Hchosen. apply String.eqb_eq in Hok. cbv zeta.
  destruct (mainloop_effect (_skip_setup h chosen w).2)
    as (Hself & Hq & _ & _ & _ & _ & _ & Hwin).
  rewrite Hself, Hq, Hwin. clear Hself Hq Hwin.
  unfold _skip_setup, validate, subprocess_run, os_makedirs, write_file.
  unfold_M. rewrite Hidle, Hchosen. simpl. rewrite Hrun, Hok. simpl.
  unfold is_file in Happ. unfold free in Hfree.
  destruct (f1 !! APP_DIR h) as [[]|] eqn:Happ'; try done; simpl.
  all: rewrite lookup_insert_ne by apply APP_DIR_not_marker.
  all: destruct (f1 !! SETUP_MARKER h) as [[? []|]|] eqn:Hm; try done; simpl.
  all: rewrite Hempty; simpl.
  all: split; [by intros []|done].
Qed.

Lemma skip_setup_success_screen_witness :
  let w' := mainloop (_skip_setup Render_example.h No_manim.chosen
                        (Demo.boot Render_example.h ∅)).2 in
  (∀ k, checks (self w') k = done_)
  ∧ status_var (self w') = "✅  Mevcut kurulum doğrulandı: " ++ No_manim.chosen
  ∧ progress (self w') = 1
  ∧ install_btn_disabled (self w') = true
  ∧ skip_btn_disabled (self w') = true
  ∧ window w' = Some MainApp
  ∧ queue w' = [].
Proof.
  apply (skip_setup_success_screen Render_example.h No_manim.chosen
           (Demo.boot Render_example.h ∅)
           {| returncode := 0; stdout := "ok" ++ nl; stderr := "" |} ∅);
    [reflexivity | discriminate | reflexivity | reflexivity | reflexivity | reflexivity
    | reflexivity].
Defined.

(** X14: the entry point with [--setup] builds a fresh wizard without running
    the setup check (no child process, nothing read), whatever follows on the
    command line; without arguments it runs the setup check, never raises, and
    builds the main screen when the check answers yes and a fresh wizard when
    it answers no. *)
Theorem main_gui_modes (h : Host) (prog : string) (rest : list string) (w : World) :
  main h (prog :: "--setup" :: rest) w
  = (Ok tt, with_window (Some SetupWizard) (with_self SetupScreen_init w))
  ∧ ∃ b w1, is_setup_complete h w = (Ok b, w1)
            ∧ main h [prog] w
              = (Ok tt, if b then with_window (Some MainApp) w1
                        else with_window (Some SetupWizard) (with_self SetupScreen_init w1)).
Proof.
  split; [done|].
  destruct (is_setup_complete_returns h w) as (b & w1 & E). exists b, w1. split; [done|].
  unfold main, bind. rewrite E. by destruct b.
Qed.

(** * The main window *)

Ltac unfold_G :=
  unfold Gui._set_status, Gui._draw_dot, Gui._show_toast, Gui.on_app, Gui.root_after,
    Gui.lift in *;
  unfold Gui.bind, Gui.ret, Gui.raise, Gui.try_except, Gui.get, Gui.modify in *.

Lemma render_worker_answers (h : Host) (svg : string) (g : Gui.State) :
  let r := Gui._render_worker h svg g in
  r.1 = Ok tt
  ∧ Gui.app r.2 = Gui.app g
  ∧ ∃ pre last, Gui.after r.2 = (Gui.after g ++ pre ++ [last])%list
                ∧ forallb Gui.sets_status pre = true
                ∧ (Gui.ends_render last = true
                   ∨ (last = Gui.cb_on_render_error_str_e ∧ Gui.e_var r.2 = None)).
Proof.
  unfold Gui._render_worker, Exception. unfold_G. unfold os_path_isfile. simpl.
  destruct (remove_script h (Gui.world g)) as [[[]|e1] w1]; simpl;
    [|split; [done|]; split; [done|]; exists [], Gui.cb_on_render_error_str_e; auto].
  destruct (write_file _ _ w1) as [[[]|e2] w2]; simpl;
    [|split; [done|]; split; [done|]; exists [], Gui.cb_on_render_error_str_e; auto].
  destruct (subprocess_run h _ _ w2) as [[cp|e3] w3]; simpl;
    [|split; [done|]; split; [done|]; eexists [_], _; rewrite <- app_assoc; auto].
  destruct (remove_script h w3) as [[[]|e4] w4]; simpl;
    [|split; [done|]; split; [done|]; eexists [_], _; rewrite <- app_assoc; auto].
  destruct (is_file (fs w4) (output_path h svg)); simpl;
    (split; [done|]; split; [done|]; eexists [_], _; rewrite <- app_assoc; auto).
Qed.

(** The world a render worker leaves when nothing raises: the script written
    over the file system [f], the child run on it, the script removed from
    what the child left. *)
Lemma render_worker_completes (h : Host) (svg : string) (g : Gui.State)
    (cp : CompletedProcess) (f2 : gmap string node) :
  let w := Gui.world g in
  let cmd := Gui.render_command h (py_str (PYTHON_EXE w)) svg (Gui._parse_resolution (Gui.app g))
               (Gui.fps_var (Gui.app g)) in
  let f1 := <[script_path h := File (python_code h svg) false]> (fs w) in
  free (fs w) (script_path h) = true →
  run h (length (calls w)) cmd None f1 = (inr cp, f2) →
  free f2 (script_path h) = true →
  Gui._render_worker h svg g
  = (Ok tt,
     Gui.with_after
       (Gui.after g ++
        [Gui.cb_set_status "Manim render ediliyor… bu biraz sürebilir" (Some C.accent);
         if is_file (delete (script_path h) f2) (output_path h svg)
         then Gui.cb_on_render_success (output_path h svg)
         else Gui.cb_on_render_error
                (if String.eqb (stderr cp) "" then "Bilinmeyen hata"
                 else Gui.last_chars 300 (stderr cp))])
       (Gui.with_world
          (with_fs (delete (script_path h) f2)
             (with_calls (calls w ++ [Ran cmd None f1]) w)) g)).
Proof.
  intros w cmd f1 Hfree Hrun Hfree2.
  unfold Gui._render_worker, Exception. unfold_G. unfold os_path_isfile. simpl.
  rewrite (remove_script_free h (Gui.world g) Hfree). simpl.
  unfold write_file at 1. simpl. rewrite lookup_delete_eq. simpl.
  rewrite insert_delete_eq. fold w.
  unfold subprocess_run at 1. simpl. fold cmd. fold f1. rewrite Hrun. simpl.
  rewrite remove_script_free by done. simpl.
  destruct (is_file (delete (script_path h) f2) (output_path h svg)); simpl;
    by rewrite <- app_assoc.
Qed.



(** X16: a render started from the idle window on an existing SVG file, when
    the script file is free before and after the child and the child returns
    (with any exit status): [_start_render] returns; once the main loop has
    run the callbacks, the window is idle again (not processing, render
    button enabled, animation stopped, no callback pending), the script file
    is gone, and the window reports success exactly when the output file
    [<stem>_animation.mp4] is a file then, with the bar full; otherwise it
    shows the fixed failure text with the bar empty, whatever the child wrote
    to its error output. *)
Theorem render_cycle (h : Host) (Path_name : string → string) (g : Gui.State)
    (cp : CompletedProcess) (f2 : gmap string node) :
  let w := Gui.world g in
  let svg := Gui.svg_path (Gui.app g) in
  svg ≠ "" →
  is_file (fs w) svg = true →
  Gui.is_processing (Gui.app g) = false →
  Gui.after g = [] →
  free (fs w) (script_path h) = true →
  run h (length (calls w))
    (Gui.render_command h (py_str (PYTHON_EXE w)) svg (Gui._parse_resolution (Gui.app g))
       (Gui.fps_var (Gui.app g)))
    None (<[script_path h := File (python_code h svg) false]> (fs w)) = (inr cp, f2) →
  free f2 (script_path h) = true →
  let g' := Gui.mainloop Path_name (Gui._start_render h g).2 in
  (Gui._start_render h g).1 = Ok tt
  ∧ fs (Gui.world g') = delete (script_path h) f2
  ∧ Gui.is_processing (Gui.app g') = false
  ∧ Widgets._disabled (Gui.render_btn (Gui.app g')) = false
  ∧ Gui.progress_animating (Gui.app g') = false
  ∧ Gui.after g' = []
  ∧ if is_file (fs (Gui.world g')) (output_path h svg)
    then Gui.status_text (Gui.app g') = "✓  Tamamlandı — " ++ Path_name (output_path h svg)
         ∧ Gui.status_dot (Gui.app g') = C.success
         ∧ Gui.progress (Gui.app g') = 1
    else Gui.status_text (Gui.app g') = "✗  Render başarısız oldu"
         ∧ Gui.status_dot (Gui.app g') = C.error
         ∧ Gui.progress (Gui.app g') = 0.
Proof.
  intros w svg Hsvg Hfile Hidle Hempty Hfree Hrun Hfree2.
  apply String.eqb_neq in Hsvg. subst w svg.
  unfold Gui._start_render. unfold_G. unfold os_path_isfile. simpl.
  rewrite Hsvg. simpl. rewrite Hfile. simpl. rewrite Hidle. simpl.
  erewrite render_worker_completes; [|done..]. simpl. rewrite Hempty. simpl.
  unfold Gui.mainloop. simpl.
  destruct (is_file (delete (script_path h) f2) _) eqn:Hout; simpl; rewrite Hout; done.
Qed.

Lemma render_cycle_witness :
  let g' := Gui.mainloop Window_example.name_of
              (Gui._start_render Render_example.h Window_example.g).2 in
  Gui.status_text (Gui.app g') = "✓  Tamamlandı — logo_animation.mp4"
  ∧ Gui.progress (Gui.app g') = 1
  ∧ Gui.is_processing (Gui.app g') = false
  ∧ Widgets._disabled (Gui.render_btn (Gui.app g')) = false.
Proof.
  cbv zeta.
  pose proof (render_cycle Render_example.h Window_example.name_of Window_example.g
                {| returncode := 0; stdout := ""; stderr := "" |}
                (<[Render_example.video := File "mp4" false]>
                   (<[script_path Render_example.h :=
                        File (python_code Render_example.h Render_example.svg) false]>
                      Render_example.disk))) as H.
  cbv zeta in H.
  destruct H as (_ & Hfs & Hproc & Hbtn & _ & _ & Hshow);
    [discriminate | reflexivity | reflexivity | reflexivity | reflexivity | reflexivity
    | vm_compute; reflexivity |].
  rewrite Hfs in Hshow.
  assert (is_file (delete (script_path Render_example.h)
                     (<[Render_example.video := File "mp4" false]>
                        (<[script_path Render_example.h :=
                             File (python_code Render_example.h Render_example.svg) false]>
                           Render_example.disk)))
            (output_path Render_example.h (Gui.svg_path (Gui.app Window_example.g))) = true)
    as Hout by (vm_compute; reflexivity).
  rewrite Hout in Hshow. destruct Hshow as (Hs & _ & Hp).
  split; [rewrite Hs; vm_compute; reflexivity|]. exact (conj Hp (conj Hproc Hbtn)).
Defined.

Lemma set_disabled_disabled {A} (d : bool) (b : Widgets.ModernButton A) :
  Widgets._disabled (Widgets.set_disabled d b) = d.
Proof. by destruct d. Qed.

(** X17: while a render is being processed, nothing the user does starts
    another one or changes the selection: any pointer event on the render
    button, any click on the drop zone (whatever the file dialog answers) and
    any move over the drop zone returns without running a child process,
    without touching a file, without queueing a callback, and leaves the
    selected path and the processing flag as they were. *)
Theorem processing_is_exclusive (h : Host) (Path_name : string → string)
    (ev : Gui.event) (g : Gui.State) :
  Gui.is_processing (Gui.app g) = true →
  ev ≠ Gui.Next_callback →
  let r := Gui.dispatch h Path_name ev g in
  r.1 = Ok tt
  ∧ Gui.world r.2 = Gui.world g
  ∧ Gui.after r.2 = Gui.after g
  ∧ Gui.is_processing (Gui.app r.2) = true
  ∧ Gui.svg_path (Gui.app r.2) = Gui.svg_path (Gui.app g).
Proof.
  intros Hbusy Hev.
  assert (∃ g', Gui.dispatch h Path_name ev g = (Ok tt, g')
                ∧ Gui.world g' = Gui.world g ∧ Gui.after g' = Gui.after g
                ∧ Gui.is_processing (Gui.app g') = true
                ∧ Gui.svg_path (Gui.app g') = Gui.svg_path (Gui.app g)) as (g' & -> & H).
  2: { done. }
  destruct ev as [ev|chosen| | |]; [| | | |done].
  - unfold Gui.dispatch.
    destruct ev; simpl;
      unfold Widgets._on_enter, Widgets._on_leave, Widgets._on_press, Widgets._on_release,
        Gui.the_render_btn, Gui.put_render_btn;
      (destruct (Widgets._disabled (Gui.render_btn (Gui.app g))); simpl; [by eexists|]);
      try (by eexists).
    destruct (Widgets.command (Gui.render_btn (Gui.app g))) as [[]|]; [|by eexists].
    unfold Gui.call, Gui._start_render. unfold_G. unfold os_path_isfile. simpl.
    destruct (String.eqb (Gui.svg_path (Gui.app g)) ""); simpl; [by eexists|].
    destruct (is_file _ _); simpl; [|by eexists]. rewrite Hbusy. by eexists.
  - unfold Gui.dispatch, Gui._browse_file. unfold_G. rewrite Hbusy. by eexists.
  - by eexists.
  - by eexists.
Qed.

Lemma processing_is_exclusive_witness :
  Gui.dispatch Render_example.h Window_example.name_of
    (Gui.On_drop_click "C:\art\other.svg") Window_example.g_busy
  = (Ok tt, Window_example.g_busy).
Proof.
  pose proof (processing_is_exclusive Render_example.h Window_example.name_of
                (Gui.On_drop_click "C:\art\other.svg") Window_example.g_busy
                eq_refl ltac:(discriminate)) as H.
  cbv zeta in H. destruct H as (H1 & _). apply result_eta in H1. rewrite H1.
  reflexivity.
Defined.

Lemma with_world_same (g : Gui.State) : Gui.with_world (Gui.world g) g = g.
Proof. by destruct g. Qed.

Lemma start_render_tracks (h : Host) (g : Gui.State) :
  button_tracks_processing g → button_tracks_processing (Gui._start_render h g).2.
Proof.
  unfold button_tracks_processing. intros Hinv.
  destruct (Gui._start_render h g) as [r g'] eqn:E. simpl.
  unfold Gui._start_render in E. unfold Gui.bind at 1 in E. unfold Gui.get at 1 in E.
  match type of E with
  | context [Gui.bind ?m ?k ?g0] => assert (∃ inv, m g0 = (Ok inv, g0)) as (inv & Einv)
  end.
  { clear E. unfold_G. unfold os_path_isfile. simpl.
    destruct (String.eqb _ ""); simpl; rewrite ?with_world_same; eauto. }
  unfold Gui.bind at 1 in E. rewrite Einv in E. destruct inv.
  { unfold_G. injection E as <- <-. exact Hinv. }
  destruct (Gui.is_processing (Gui.app g)) eqn:Hp; [injection E as <- <-; congruence|].
  unfold Gui.bind at 1 in E. unfold Gui.on_app at 1 in E. unfold Gui.modify at 1 in E.
  unfold Gui.bind at 1 in E. unfold Gui.on_app at 1 in E. unfold Gui.modify at 1 in E.
  unfold Gui.bind at 1 in E. unfold Gui._set_status at 1 in E. unfold_G.
  cbn [String.eqb Ascii.eqb Bool.eqb C.accent fst snd] in E.
  match type of E with
  | context [Gui._render_worker h ?svg ?g0] =>
      destruct (render_worker_answers h svg g0) as (_ & Happ & _)
  end.
  rewrite E in Happ. cbn [snd] in Happ. rewrite Happ. cbn [Gui.app Gui.with_app].
  cbn [Gui.render_btn Gui.is_processing Gui.set_status_dot Gui.set_status_text
       Gui.set_progress_animating Gui.set_render_btn Gui.set_is_processing].
  apply set_disabled_disabled.
Qed.

Lemma run_callback_tracks (Path_name : string → string) (cb : Gui.callback) (g : Gui.State) :
  button_tracks_processing g →
  button_tracks_processing (Gui.run_callback Path_name cb g).2.
Proof.
  unfold button_tracks_processing. intros Hinv.
  assert (∀ msg g0, Widgets._disabled (Gui.render_btn (Gui.app (Gui._on_render_error msg g0).2))
                    = Gui.is_processing (Gui.app (Gui._on_render_error msg g0).2)) as Herr.
  { intros msg g0. unfold Gui._on_render_error. unfold_G.
    cbn [String.eqb Ascii.eqb Bool.eqb C.error fst snd Gui.app Gui.with_app
         Gui.render_btn Gui.is_processing Gui.set_status_dot Gui.set_status_text
         Gui.set_progress_animating Gui.set_render_btn Gui.set_is_processing Gui.set_progress].
    apply set_disabled_disabled. }
  destruct cb as [text [color|]|out|msg| |].
  - unfold Gui.run_callback. unfold_G. by destruct (String.eqb color "").
  - exact Hinv.
  - unfold Gui.run_callback, Gui._on_render_success. unfold_G.
    destruct (String.eqb C.success "") eqn:Hc; [discriminate|].
    cbn [fst snd Gui.app Gui.with_app Gui.with_after
         Gui.render_btn Gui.is_processing Gui.set_status_dot Gui.set_status_text
         Gui.set_progress_animating Gui.set_render_btn Gui.set_is_processing Gui.set_progress
         Gui.set_toasts].
    apply set_disabled_disabled.
  - apply Herr.
  - unfold Gui.run_callback. unfold Gui.bind, Gui.get. destruct (Gui.e_var g); [apply Herr|].
    exact Hinv.
  - exact Hinv.
Qed.

(** X18: the render button is disabled exactly while a render is being
    processed: this holds in the window as it is built, and every event (a
    pointer event on the button, a click on or a move over the drop zone, the
    main loop running a callback) keeps it. *)
Theorem render_button_tracks_processing (h : Host) (Path_name : string → string) :
  (∀ w, button_tracks_processing
          {| Gui.world := w; Gui.app := Gui.QuickAnimationsApp_init;
             Gui.after := []; Gui.e_var := None |})
  ∧ ∀ ev g, button_tracks_processing g →
            button_tracks_processing (Gui.dispatch h Path_name ev g).2.
Proof.
  split; [done|]. intros ev g Hinv.
  destruct ev as [ev|chosen| | |].
  - unfold Gui.dispatch.
    assert (∀ b, Widgets._disabled b = Widgets._disabled (Gui.render_btn (Gui.app g)) →
                 button_tracks_processing (Gui.put_render_btn b g)) as Hput.
    { intros b Hb. unfold button_tracks_processing in *. simpl. congruence. }
    destruct ev; simpl;
      unfold Widgets._on_enter, Widgets._on_leave, Widgets._on_press, Widgets._on_release,
        Gui.the_render_btn;
      (destruct (Widgets._disabled (Gui.render_btn (Gui.app g))) eqn:Hd; simpl;
       [exact Hinv|]);
      try (apply Hput; simpl; by rewrite Hd).
    destruct (Widgets.command (Gui.render_btn (Gui.app g))) as [[]|];
      [|apply Hput; simpl; by rewrite Hd].
    apply start_render_tracks. apply Hput. simpl. by rewrite Hd.
  - unfold button_tracks_processing in *.
    unfold Gui.dispatch, Gui._browse_file. unfold_G.
    destruct (Gui.is_processing (Gui.app g)) eqn:Hp; [simpl; congruence|].
    destruct (String.eqb chosen ""); simpl; congruence.
  - exact Hinv.
  - exact Hinv.
  - unfold Gui.dispatch. unfold Gui.bind at 1. unfold Gui.get at 1.
    destruct (Gui.after g) as [|cb rest]; [exact Hinv|].
    unfold Gui.bind, Gui.modify, Gui.try_except.
    pose proof (run_callback_tracks Path_name cb (Gui.with_after rest g) Hinv) as H.
    destruct (Gui.run_callback Path_name cb (Gui.with_after rest g)) as [[[]|e] g1]; exact H.
Qed.

(** X19: whenever the resolution menu holds a text with 3840 in it and the
    frame-rate menu holds 60 (the values the window starts with), the command
    line of the render worker is, character for character, the command line of
    the headless renderer. *)
Theorem gui_command_matches_cli (h : Host) (python_exe svg_path : string)
    (self : Gui.QuickAnimationsApp) :
  Str.contains "3840" (Gui.res_var self) = true →
  Gui.fps_var self = "60" →
  Gui.render_command h python_exe svg_path (Gui._parse_resolution self) (Gui.fps_var self)
  = render_command h python_exe svg_path.
Proof.
  intros Hres Hfps. unfold Gui._parse_resolution. rewrite Hres, Hfps. reflexivity.
Qed.

Lemma gui_command_matches_cli_witness :
  Gui.render_command Render_example.h "python.exe" Render_example.svg
    (Gui._parse_resolution Gui.QuickAnimationsApp_init)
    (Gui.fps_var Gui.QuickAnimationsApp_init)
  = render_command Render_example.h "python.exe" Render_example.svg.
Proof.
  apply (gui_command_matches_cli Render_example.h "python.exe" Render_example.svg
           Gui.QuickAnimationsApp_init); reflexivity.
Defined.

(** * The pip step *)

(** X20: when the environment has pip (its version query exits with 0), step 3
    downloads nothing, runs two child processes (the version query and the
    upgrade of pip) and succeeds whenever the upgrade returns, whatever its
    exit status: the row is marked done. *)
Theorem step_pip_ignores_upgrade_status (h : Host) (w : World)
    (cp1 cp2 : CompletedProcess) (f1 f2 : gmap string node) :
  run h (length (calls w)) (pip_version h) (Some 30) (fs w) = (inr cp1, f1) →
  returncode cp1 = 0 →
  run h (S (length (calls w))) (pip_upgrade h) (Some 120) f1 = (inr cp2, f2) →
  let r := step_pip h w in
  r.1 = Ok true
  ∧ fs r.2 = f2
  ∧ calls r.2 = (calls w ++ [Ran (pip_version h) (Some 30) (fs w);
                             Ran (pip_upgrade h) (Some 120) f1])%list
  ∧ queue r.2 = (queue w ++ [cb_status "pip kontrol ediliyor…"; cb_set_check k_pip active;
                             cb_desc k_pip "pip hazır"; cb_status "pip hazır";
                             cb_set_check k_pip done_])%list.
Proof.
  intros H1 Hz H2. cbv zeta.
  unfold step_pip, _update_status, _update_desc, subprocess_run. unfold_M. simpl.
  fold (pip_version h). rewrite H1. simpl. rewrite Hz. simpl.
  rewrite length_app. simpl. rewrite Nat.add_1_r.
  fold (pip_upgrade h). rewrite H2. simpl.
  by rewrite <- !app_assoc.
Qed.

Lemma step_pip_ignores_upgrade_status_witness :
  (step_pip Bootstrap_example.h_bare Bootstrap_example.w_bare).1 = Ok true.
Proof.
  apply (step_pip_ignores_upgrade_status Bootstrap_example.h_bare Bootstrap_example.w_bare
           {| returncode := 0; stdout := "Python 3.11.9"; stderr := "" |}
           {| returncode := 0; stdout := ""; stderr := "" |}
           Bootstrap_example.disk Bootstrap_example.disk); reflexivity.
Defined.

(** X21: when the environment has no pip (the version query exits with a
    non-zero status), the download of the installer script ends without an
    exception into a path that can be written, and running what was
    received exits with 0: the script file is
    removed before pip is upgraded (the upgrade starts on a file system
    without it, when nothing holds it open), and the step succeeds whatever the
    exit status of the upgrade; the external calls are, in order, the version
    query, the download, the run of the script and the upgrade. *)
Theorem step_pip_bootstrap_cleans_up (h : Host) (w : World)
    (cp1 cp2 cp3 : CompletedProcess) (f1 f2 f3 : gmap string node)
    (total : Z) (msgs : list string) (body : string) :
  let n := length (calls w) in
  let f1' := <[get_pip_path h := File body false]> f1 in
  run h n (pip_version h) (Some 30) (fs w) = (inr cp1, f1) →
  returncode cp1 ≠ 0 →
  fetch h (S n) GET_PIP_URL = Ended total msgs body →
  free f1 (get_pip_path h) = true →
  run h (S (S n)) (run_get_pip h) (Some 120) f1' = (inr cp2, f2) →
  returncode cp2 = 0 →
  free f2 (get_pip_path h) = true →
  run h (S (S (S n))) (pip_upgrade h) (Some 120) (delete (get_pip_path h) f2)
    = (inr cp3, f3) →
  let r := step_pip h w in
  r.1 = Ok true
  ∧ fs r.2 = f3
  ∧ calls r.2 = (calls w ++ [Ran (pip_version h) (Some 30) (fs w);
                             Fetched GET_PIP_URL;
                             Ran (run_get_pip h) (Some 120) f1';
                             Ran (pip_upgrade h) (Some 120) (delete (get_pip_path h) f2)])%list.
Proof.
  intros n f1' H1 Hnz Hfetch Hfree1 H2 Hz Hfree2 H3. cbv zeta.
  apply Z.eqb_neq in Hnz.
  unfold step_pip, _update_status, _update_desc, subprocess_run. unfold_M. simpl.
  fold (pip_version h). fold n. rewrite H1. simpl. rewrite Hnz. simpl.
  unfold _download_file, try_except, bind, urlopen. simpl.
  rewrite length_app. simpl. rewrite Nat.add_1_r. fold n. rewrite Hfetch.
  fold (get_pip_path h). unfold write_file. simpl.
  unfold free in Hfree1.
  destruct (f1 !! get_pip_path h) as [[? []|]|] eqn:Hd; try done; simpl;
    rewrite post_progress_effect; simpl;
    rewrite !length_app; simpl; rewrite !Nat.add_1_r; fold n;
    fold (run_get_pip h); fold f1'; rewrite H2; simpl; rewrite Hz; simpl;
    unfold os_remove; simpl; unfold free in Hfree2;
    (destruct (f2 !! get_pip_path h) as [[? []|]|] eqn:Hd2; try done; simpl);
    rewrite ?(delete_id f2) in H3 by done;
    rewrite ?length_app; simpl; rewrite ?Nat.add_1_r; fold n;
    fold (pip_upgrade h); rewrite H3; simpl;
    rewrite ?(delete_id f2) by done;
    by rewrite <- !app_assoc.
Qed.

Lemma step_pip_bootstrap_cleans_up_witness :
  (step_pip Pip_example.h Pip_example.w).1 = Ok true
  ∧ fs (step_pip Pip_example.h Pip_example.w).2 !! get_pip_path Pip_example.h = None.
Proof.
  pose proof (step_pip_bootstrap_cleans_up Pip_example.h Pip_example.w
                {| returncode := 1; stdout := ""; stderr := "No module named pip" |}
                {| returncode := 0; stdout := ""; stderr := "" |}
                {| returncode := 0; stdout := ""; stderr := "" |}
                ∅ (<[get_pip_path Pip_example.h := File "#!/usr/bin/env python" false]> ∅)
                (delete (get_pip_path Pip_example.h)
                   (<[get_pip_path Pip_example.h := File "#!/usr/bin/env python" false]> ∅))
                21 ["İndiriliyor… 0.0 / 0.0 MB (100%)"] "#!/usr/bin/env python"
                eq_refl ltac:(discriminate) eq_refl eq_refl eq_refl eq_refl eq_refl eq_refl)
    as H.
  cbv zeta in H. destruct H as (H1 & H2 & _).
  split; [exact H1|]. rewrite H2. apply lookup_delete_eq.
Defined.

(** * The progress bar *)

(** X22: the value of the progress bar stays between 0 and 1 whatever callbacks
    the main loop runs, also one that asks for a value outside: once the main
    loop has emptied its queue the value is in range if it was before. *)
Theorem progress_stays_in_range (w : World) :
  0 ≤ progress (self w) ≤ 1 → 0 ≤ progress (self (mainloop w)) ≤ 1.
Proof.
  intros Hr. destruct (mainloop_effect w) as (-> & _).
  generalize (self w) Hr. generalize (e_cell w) as cell.
  induction (queue w) as [|cb qs IH]; intros cell s Hs; [done|].
  unfold replay in *. simpl. apply IH.
  destruct cb; simpl; try done; try lia. by destruct cell.
Qed.

Lemma progress_stays_in_range_witness :
  0 ≤ progress (self (mainloop (with_queue [cb_set_progress 7; cb_set_progress (-3)]
                                  Plain_machine.w))) ≤ 1.
Proof.
  apply (progress_stays_in_range (with_queue [cb_set_progress 7; cb_set_progress (-3)]
                                    Plain_machine.w)).
  simpl. lia.
Defined.

(** * Selecting a file *)

(** X23: selecting a path in the idle window is accepted without a look at the
    file system: the path becomes the selection, the drop zone shows its name
    and the status line says ready; it is [_start_render] that refuses a
    selection that is not a file: it shows the warning and starts nothing (no
    child process, no file written, no callback queued, not processing). *)
Theorem browse_then_render_missing_file (h : Host) (Path_name : string → string)
    (chosen : string) (g : Gui.State) :
  Gui.is_processing (Gui.app g) = false →
  chosen ≠ "" →
  is_file (fs (Gui.world g)) chosen = false →
  let g1 := (Gui._browse_file Path_name chosen g).2 in
  let g2 := (Gui._start_render h g1).2 in
  Gui.svg_path (Gui.app g1) = chosen
  ∧ Gui.drop_label (Gui.app g1) = (Path_name chosen, C.text)
  ∧ Gui.file_label (Gui.app g1) = chosen
  ∧ Gui.status_text (Gui.app g1) = "Hazır — Oluştur butonuna basın"
  ∧ Gui.world g1 = Gui.world g
  ∧ (Gui._start_render h g1).1 = Ok tt
  ∧ Gui.world g2 = Gui.world g
  ∧ Gui.after g2 = Gui.after g
  ∧ Gui.is_processing (Gui.app g2) = false
  ∧ Gui.status_text (Gui.app g2) = "⚠  Lütfen geçerli bir SVG dosyası seçin"
  ∧ Gui.status_dot (Gui.app g2) = C.warning.
Proof.
  intros Hidle Hchosen Hmissing. apply String.eqb_neq in Hchosen. cbv zeta.
  assert (Gui._browse_file Path_name chosen g
          = (Ok tt,
             Gui.with_app
               (Gui.set_status_dot C.success
                  (Gui.set_status_text "Hazır — Oluştur butonuna basın"
                     (Gui.set_file_label chosen
                        (Gui.set_drop_label (Path_name chosen, C.text)
                           (Gui.set_drop_icon "✅"
                              (Gui.set_svg_path chosen (Gui.app g))))))) g)) as ->.
  { unfold Gui._browse_file. unfold_G. by rewrite Hidle, Hchosen. }
  unfold Gui._start_render. unfold_G. unfold os_path_isfile. simpl.
  rewrite Hchosen. simpl. rewrite Hmissing. simpl. done.
Qed.

Lemma browse_then_render_missing_file_witness :
  let g1 := (Gui._browse_file Window_example.name_of "C:\art\gone.svg" Window_example.g).2 in
  Gui.svg_path (Gui.app g1) = "C:\art\gone.svg"
  ∧ Gui.status_text (Gui.app (Gui._start_render Render_example.h g1).2)
    = "⚠  Lütfen geçerli bir SVG dosyası seçin".
Proof.
  pose proof (browse_then_render_missing_file Render_example.h Window_example.name_of
                "C:\art\gone.svg" Window_example.g eq_refl ltac:(discriminate) eq_refl) as H.
  cbv zeta in H. destruct H as (H1 & _ & _ & _ & _ & _ & _ & _ & _ & H2 & _).
  exact (conj H1 H2).
Defined.

(** * Further witnesses *)


Lemma round_rect_within_box_witness :
  Forall (λ p, 2 ≤ p.1 ≤ 458 ∧ 2 ≤ p.2 ≤ 46)
    (Widgets.points_of (Widgets.round_rect 2 2 458 46 12)).
Proof.
  pose proof (round_rect_within_box 2 2 458 46 12) as H. cbv zeta in H.
  destruct H as (_ & _ & H). apply H. lia.
Defined.

Lemma modern_button_disable_enable_witness :
  Widgets.set_disabled false (Widgets.set_disabled true (Gui.render_btn Gui.QuickAnimationsApp_init))
  = Gui.render_btn Gui.QuickAnimationsApp_init.
Proof.
  pose proof (modern_button_disable_enable (Gui.render_btn Gui.QuickAnimationsApp_init)) as H.
  cbv zeta in H. destruct H as (_ & _ & H). apply H. repeat split.
Defined.

Lemma render_button_tracks_processing_witness :
  button_tracks_processing
    (Gui.dispatch Render_example.h Window_example.name_of
       (Gui.On_render_btn Widgets.ButtonRelease_1) Window_example.g).2.
Proof.
  destruct (render_button_tracks_processing Render_example.h Window_example.name_of)
    as (_ & H).
  apply H. reflexivity.
Defined.
